(** * ID Analyzer Python client: a shallow embedding of [idanalyzer.py]

    The client library consists of four classes ([CoreAPI], [DocuPass],
    [Vault], [AMLAPI]).  Each one edits a dictionary of request parameters
    and sends it with one blocking HTTP POST.  The embedding below follows
    the Python source method by method:

    - Python values are the inductive type [pyval]; dictionaries are
      objects in a heap ([gmap loc (gmap string pyval)]) and are passed by
      reference, so that the aliasing between an instance's [config], the
      class attribute [DEFAULT_CONFIG] and a request payload is visible;
    - a method is a computation in the monad [M]: it threads the heap and
      a log of network events, and either returns or raises; writes made
      before a [raise] stay in the heap, as in Python;
    - the file system ([os.path.isfile], [open]) and the server behind
      [requests.post] are the environment [env];
    - [str] values are Rocq strings of ASCII characters: [str.upper] and
      the character classes of [re] ([\d], [\w], [\b]) are given for the
      ASCII range, floats are rationals. *)

From stdpp Require Import gmap strings list fin_maps.
From Stdlib Require Import ZArith QArith Qround Ascii String.
#[global] Set Warnings "-register-all".
Close Scope Q_scope.
Open Scope string_scope.

(** ** Regular expressions: the fragment of [re] used by the library *)

Module Re.

(** Pattern syntax.  [Class singles ranges] is a bracket expression,
    [Repeat r lo hi] is [r{lo,hi}], [Group] is a parenthesis (capturing
    or not: only the existence of a match is ever used). *)
Inductive regex : Type :=
| Lit (c : ascii)
| AnyChar
| Class (singles : string) (ranges : list (ascii * ascii))
| Cat (r1 r2 : regex)
| Opt (r : regex)
| Repeat (r : regex) (lo hi : nat)
| Plus (r : regex)
| Star (r : regex)
| Group (r : regex)
| Bol
| Eol
| WordBoundary.

Definition newline : ascii := ascii_of_nat 10.

Definition in_range (c : ascii) (r : ascii * ascii) : bool :=
  (N_of_ascii (fst r) <=? N_of_ascii c)%N && (N_of_ascii c <=? N_of_ascii (snd r))%N.

Definition in_class (singles : string) (ranges : list (ascii * ascii)) (c : ascii) : bool :=
  existsb (Ascii.eqb c) (list_ascii_of_string singles) || existsb (in_range c) ranges.

Definition digit : regex := Class "" [("0", "9")]%char.

(** [\w] on ASCII text. *)
Definition is_word (c : ascii) : bool :=
  in_class "_" [("a", "z"); ("A", "Z"); ("0", "9")]%char c.

Definition is_word_opt (o : option ascii) : bool :=
  match o with Some c => is_word c | None => false end.

(** A matcher at one position takes the character before the position
    ([None] at the start of the subject), the rest of the subject and a
    continuation for what follows the match. *)
Definition matcher : Type :=
  option ascii -> list ascii -> (option ascii -> list ascii -> bool) -> bool.

(** Between [lo] and [hi] consecutive matches of [mr], all splits tried. *)
Fixpoint rep (mr : matcher) (lo hi : nat) : matcher :=
  fun prev s k =>
    match hi with
    | O => match lo with O => k prev s | S _ => false end
    | S hi' =>
        mr prev s (fun p s' => rep mr (Nat.pred lo) hi' p s' k)
        || match lo with O => k prev s | S _ => false end
    end.

Fixpoint matches (r : regex) : matcher :=
  fun prev s k =>
    match r with
    | Lit c =>
        match s with
        | x :: s' => if Ascii.eqb x c then k (Some x) s' else false
        | [] => false
        end
    | AnyChar =>
        match s with
        | x :: s' => if Ascii.eqb x newline then false else k (Some x) s'
        | [] => false
        end
    | Class singles ranges =>
        match s with
        | x :: s' => if in_class singles ranges x then k (Some x) s' else false
        | [] => false
        end
    | Cat r1 r2 => matches r1 prev s (fun p s' => matches r2 p s' k)
    | Opt r1 => matches r1 prev s k || k prev s
    | Repeat r1 lo hi => rep (matches r1) lo hi prev s k
    | Plus r1 => rep (matches r1) 1 (S (List.length s)) prev s k
    | Star r1 => rep (matches r1) 0 (List.length s) prev s k
    | Group r1 => matches r1 prev s k
    | Bol => match prev with None => k prev s | Some _ => false end
    | Eol =>
        match s with
        | [] => k prev s
        | [x] => if Ascii.eqb x newline then k prev s else false
        | _ => false
        end
    | WordBoundary =>
        if xorb (is_word_opt prev) (is_word_opt (hd_error s)) then k prev s else false
    end.

Fixpoint search_from (r : regex) (prev : option ascii) (s : list ascii) : bool :=
  matches r prev s (fun _ _ => true)
  || match s with
     | [] => false
     | c :: s' => search_from r (Some c) s'
     end.

(** [re.search(pattern, string)] as a truth value: a match object is
    truthy, [None] is falsy. *)
Definition search (r : regex) (s : string) : bool :=
  search_from r None (list_ascii_of_string s).

Fixpoint lits (cs : list ascii) : regex :=
  match cs with
  | [] => Repeat AnyChar 0 0
  | [c] => Lit c
  | c :: cs' => Cat (Lit c) (lits cs')
  end.

(** A literal run of ordinary characters. *)
Definition text (s : string) : regex := lits (list_ascii_of_string s).

End Re.

(** ** [base64.b64encode] *)

Module Base64.

Definition alphabet : list ascii :=
  list_ascii_of_string
    "ABCDEFGHIJKLMNOPQRSTUVWXYZabcdefghijklmnopqrstuvwxyz0123456789+/".

Definition sextet (n : N) : ascii :=
  nth (N.to_nat (N.land n 63)) alphabet "="%char.

Definition pad : ascii := "="%char.

Fixpoint encode (bs : list ascii) : list ascii :=
  match bs with
  | [] => []
  | [a] =>
      let n := N.shiftl (N_of_ascii a) 16 in
      [sextet (N.shiftr n 18); sextet (N.shiftr n 12); pad; pad]
  | [a; b] =>
      let n := N.lor (N.shiftl (N_of_ascii a) 16) (N.shiftl (N_of_ascii b) 8) in
      [sextet (N.shiftr n 18); sextet (N.shiftr n 12); sextet (N.shiftr n 6); pad]
  | a :: b :: c :: rest =>
      let n := N.lor (N.lor (N.shiftl (N_of_ascii a) 16) (N.shiftl (N_of_ascii b) 8))
                     (N_of_ascii c) in
      sextet (N.shiftr n 18) :: sextet (N.shiftr n 12)
      :: sextet (N.shiftr n 6) :: sextet n :: encode rest
  end.

(** [base64.b64encode(data)]: bytes in, bytes out. *)
Definition b64encode (data : string) : string :=
  string_of_list_ascii (encode (list_ascii_of_string data)).

End Base64.

(** ** Python values, the heap of dictionaries and the method monad *)

Module Py.

(** Address of a dictionary object. *)
Definition loc : Type := positive.

(** Python values.  A dictionary is a reference into the heap: two
    variables holding the same [PDict l] see each other's writes. *)
Inductive pyval : Type :=
| PNone
| PBool (b : bool)
| PInt (n : Z)
| PFloat (q : Q)
| PStr (s : string)
| PBytes (s : string)
| PList (l : list pyval)
| PDict (l : loc).

(** A decoded JSON document, as returned by [Response.json()].  It is a
    fresh value nobody else refers to, hence an immutable tree; an
    object lists its items with distinct keys. *)
Inductive json : Type :=
| JNull
| JBool (b : bool)
| JInt (n : Z)
| JFloat (q : Q)
| JStr (s : string)
| JList (l : list json)
| JObject (items : list (string * json)).

Inductive exn : Type :=
| ValueError (msg : string)
| TypeError
| AttributeError
| APIError (args : json)
| ConnectionError
| HTTPError (status : Z)
| JSONDecodeError.

Record request : Type := Request {
  req_url : string;
  req_data : gmap string pyval
}.

Record response : Type := Response {
  status_code : Z;
  (** the body parsed as JSON, [None] when it is not JSON *)
  body : option json
}.

(** What [requests.post] does: it raises (no connection, timeout) or it
    returns the server's response. *)
Inductive post_outcome : Type :=
| PostRaises
| PostReturns (r : response).

(** The world outside the library. *)
Record env : Type := Env {
  (** content of the regular file at a path, [None] when
      [os.path.isfile] is false *)
  files : string -> option string;
  server : request -> post_outcome
}.

Inductive event : Type :=
| EvPost (r : request)
| EvJsonDecode.

Record world : Type := World {
  heap : gmap loc (gmap string pyval);
  log : list event
}.

Inductive result (A : Type) : Type :=
| Ok (a : A)
| Raise (e : exn).
Arguments Ok {A} a.
Arguments Raise {A} e.

(** A method body: it reads and writes the world and returns or raises.
    The world at a [Raise] is the world at the [raise] statement. *)
Definition M (A : Type) : Type := world -> result A * world.

Definition ret {A} (a : A) : M A := fun w => (Ok a, w).

Definition bind {A B} (c : M A) (k : A -> M B) : M B :=
  fun w =>
    match c w with
    | (Ok a, w') => k a w'
    | (Raise e, w') => (Raise e, w')
    end.

Definition raise {A} (e : exn) : M A := fun w => (Raise e, w).

(** [x <- c; k] runs [c], names its value and goes on with [k];
    [c;; k] drops the value. *)
Declare Scope py_scope.
Delimit Scope py_scope with py.
Notation "x <- c ; k" := (bind c (fun x => k))
  (at level 20, c at level 100, k at level 200, only parsing) : py_scope.
Notation "c ;; k" := (bind c (fun _ => k))
  (at level 100, k at level 200, only parsing, right associativity) : py_scope.
Open Scope py_scope.

(** [{...}]: a new dictionary object, at an address no live object
    has. *)
Definition new_dict (d : gmap string pyval) : M loc :=
  fun w =>
    let l := fresh (dom (heap w)) in
    (Ok l, {| heap := <[l := d]> (heap w); log := log w |}).

(** The items of the dictionary at [l]. *)
Definition items_at (h : gmap loc (gmap string pyval)) (l : loc) : gmap string pyval :=
  default ∅ (h !! l).

Definition read_dict (l : loc) : M (gmap string pyval) :=
  fun w => (Ok (items_at (heap w) l), w).

(** [d[k] = v] *)
Definition setitem (l : loc) (k : string) (v : pyval) : M unit :=
  fun w =>
    (Ok tt,
     {| heap := <[l := <[k := v]> (items_at (heap w) l)]> (heap w);
        log := log w |}).

Definition emit (ev : event) : M unit :=
  fun w =>
    (Ok tt, {| heap := heap w; log := log w ++ [ev] |}).

(** [x is True] *)
Definition is_True (v : pyval) : bool :=
  match v with PBool true => true | _ => false end.

(** Numbers: [bool] is a subclass of [int]. *)
Definition as_number (v : pyval) : option Q :=
  match v with
  | PBool b => Some (inject_Z (if b then 1 else 0))
  | PInt n => Some (inject_Z n)
  | PFloat q => Some q
  | _ => None
  end.

(** Truth value of a value, [len(d) > 0] for a dictionary. *)
Definition truthy (h : gmap loc (gmap string pyval)) (v : pyval) : bool :=
  match v with
  | PNone => false
  | PBool b => b
  | PInt n => negb (n =? 0)%Z
  | PFloat q => negb (Qeq_bool q (inject_Z 0))
  | PStr s => negb (String.eqb s "")
  | PBytes s => negb (String.eqb s "")
  | PList l => match l with [] => false | _ => true end
  | PDict l => negb (Nat.eqb (size (items_at h l)) 0)
  end.

Definition is_truthy (v : pyval) : M bool :=
  fun w => (Ok (truthy (heap w) v), w).

(** [v == n] for an integer literal [n] *)
Definition eq_int (v : pyval) (n : Z) : bool :=
  match as_number v with
  | Some q => Qeq_bool q (inject_Z n)
  | None => false
  end.

(** [v == s] for a string literal [s] *)
Definition eq_str (v : pyval) (s : string) : bool :=
  match v with PStr t => String.eqb t s | _ => false end.

(** [v in range(lo, hi)]: an integral number within the bounds;
    anything else is simply not in the range. *)
Definition in_range (v : pyval) (lo hi : Z) : bool :=
  match as_number v with
  | Some q =>
      Qeq_bool q (inject_Z (Qfloor q))
      && (lo <=? Qfloor q)%Z && (Qfloor q <? hi)%Z
  | None => false
  end.

Definition Qlt_bool (a b : Q) : bool := negb (Qle_bool b a).

(** The numeric operand of [<], [<=], [>]; a non-number operand raises
    [TypeError]. *)
Definition num (v : pyval) : M Q :=
  match as_number v with
  | Some q => ret q
  | None => raise TypeError
  end.

(** [str.upper] *)
Definition upper_char (c : ascii) : ascii :=
  if Re.in_range c ("a", "z")%char
  then ascii_of_N (N_of_ascii c - 32)
  else c.

Fixpoint upper (s : string) : string :=
  match s with
  | EmptyString => EmptyString
  | String c s' => String (upper_char c) (upper s')
  end.

(** Truth value of a decoded JSON value. *)
Definition json_truthy (j : json) : bool :=
  match j with
  | JNull => false
  | JBool b => b
  | JInt n => negb (n =? 0)%Z
  | JFloat q => negb (Qeq_bool q (inject_Z 0))
  | JStr s => negb (String.eqb s "")
  | JList l => match l with [] => false | _ => true end
  | JObject items => match items with [] => false | _ => true end
  end.

Fixpoint assoc (k : string) (items : list (string * json)) : option json :=
  match items with
  | [] => None
  | (k', v) :: rest => if String.eqb k' k then Some v else assoc k rest
  end.

(** [result.get(k)]: only a dictionary has [get]. *)
Definition json_get (j : json) (k : string) : M json :=
  match j with
  | JObject items => ret (default JNull (assoc k items))
  | _ => raise AttributeError
  end.

(** [requests.post(url, data=payload)] *)
Definition requests_post (E : env) (url : string) (payload : loc) : M response :=
  data <- read_dict payload;
  emit (EvPost (Request url data));;
  match server E (Request url data) with
  | PostRaises => raise ConnectionError
  | PostReturns r => ret r
  end.

(** [Response.raise_for_status()] of the requests library: an
    [HTTPError] for a client error (4xx) or a server error (5xx). *)
Definition raise_for_status (r : response) : M unit :=
  if (400 <=? status_code r)%Z && (status_code r <? 600)%Z
  then raise (HTTPError (status_code r))
  else ret tt.

(** [Response.json()] *)
Definition response_json (r : response) : M json :=
  emit EvJsonDecode;;
  match body r with
  | Some j => ret j
  | None => raise JSONDecodeError
  end.

(** [os.path.isfile(path)] *)
Definition isfile (E : env) (path : string) : bool :=
  match files E path with Some _ => true | None => false end.

(** [open(path, "rb").read()] for a path that [isfile] accepted. *)
Definition read_file (E : env) (path : string) : string :=
  default "" (files E path).

(** The argument check of [re.search] and of [os.path]: the subject
    has to be a [str]. *)
Definition as_str (v : pyval) : M string :=
  match v with
  | PStr s => ret s
  | _ => raise TypeError
  end.

(** [options.get(k)] on the keyword arguments of a call. *)
Definition kwarg (options : gmap string pyval) (k : string) : pyval :=
  default PNone (options !! k).

(** [len(v)] *)
Definition len (v : pyval) : M nat :=
  match v with
  | PStr s => ret (String.length s)
  | PBytes s => ret (String.length s)
  | PList l => ret (List.length l)
  | PDict l => d <- read_dict l; ret (size d)
  | _ => raise TypeError
  end.

(** [if c: raise e] *)
Definition raise_if (c : bool) (e : exn) : M unit :=
  if c then raise e else ret tt.

End Py.
Import Py.
Open Scope py_scope.

(** ** Module-level functions and constants of [idanalyzer.py] *)

Definition url_pattern : Re.regex :=
  Re.Cat (Re.Group (Re.Cat (Re.text "http")
                   (Re.Cat (Re.Opt (Re.Group (Re.Lit "s")))
                   (Re.Cat (Re.text "://") Re.AnyChar))))
 (Re.Cat (Re.Opt (Re.Group (Re.text "www.")))
 (Re.Cat (Re.Repeat (Re.Class "-@:%._+~#=" [("a", "z"); ("A", "Z"); ("0", "9")]%char) 2 256)
 (Re.Cat (Re.Lit ".")
 (Re.Cat (Re.Repeat (Re.Class "" [("a", "z")]%char) 2 6)
 (Re.Cat Re.WordBoundary
         (Re.Group (Re.Star (Re.Class "-@:%_+.~#?&/="
                                      [("a", "z"); ("A", "Z"); ("0", "9")]%char)))))))).

Definition is_valid_url (s : string) : bool := Re.search url_pattern s.

Definition hexdigit : Re.regex :=
  Re.Class "" [("0", "9"); ("a", "f"); ("A", "F")]%char.

Definition hex_color_pattern : Re.regex :=
  Re.Cat Re.Bol
 (Re.Cat (Re.Lit "#")
 (Re.Cat (Re.Repeat (Re.Group (Re.Repeat hexdigit 3 3)) 1 2)
         Re.Eol)).

Definition is_hex_color (s : string) : bool := Re.search hex_color_pattern s.

Definition client_library : string := "python-sdk".

(** The patterns written inline in the methods. *)
Definition dob_pattern : Re.regex :=
  Re.Cat Re.Bol
 (Re.Cat (Re.Group (Re.Cat (Re.Repeat Re.digit 4 4)
                   (Re.Cat (Re.Lit "/")
                   (Re.Cat (Re.Repeat Re.digit 2 2)
                   (Re.Cat (Re.Lit "/") (Re.Repeat Re.digit 2 2))))))
         Re.Eol).

Definition age_pattern : Re.regex :=
  Re.Cat Re.Bol
 (Re.Cat (Re.Group (Re.Cat (Re.Plus Re.digit) (Re.Cat (Re.Lit "-") (Re.Plus Re.digit))))
         Re.Eol).

Definition passcode_pattern : Re.regex :=
  Re.Cat Re.Bol
 (Re.Cat (Re.Group (Re.Repeat (Re.Class "" [("0", "9")]%char) 4 4))
         Re.Eol).

(** ** class CoreAPI *)

Module CoreAPI.

(** The class attribute [DEFAULT_CONFIG] is one dictionary object,
    created when the module is loaded. *)
Definition DEFAULT_CONFIG : loc := 1%positive.

Definition default_items : gmap string pyval :=
  list_to_map
    [("accuracy", PInt 2);
     ("authenticate", PBool false);
     ("authenticate_module", PInt 1);
     ("ocr_scaledown", PInt 2000);
     ("outputimage", PBool false);
     ("outputface", PBool false);
     ("outputmode", PStr "url");
     ("dualsidecheck", PBool false);
     ("verify_expiry", PBool true);
     ("verify_documentno", PStr "");
     ("verify_name", PStr "");
     ("verify_dob", PStr "");
     ("verify_age", PStr "");
     ("verify_address", PStr "");
     ("verify_postcode", PStr "");
     ("country", PStr "");
     ("region", PStr "");
     ("type", PStr "");
     ("checkblocklist", PStr "");
     ("vault_save", PBool true);
     ("vault_saveunrecognized", PStr "");
     ("vault_noduplicate", PStr "");
     ("vault_automerge", PStr "");
     ("vault_customdata1", PStr "");
     ("vault_customdata2", PStr "");
     ("vault_customdata3", PStr "");
     ("vault_customdata4", PStr "");
     ("vault_customdata5", PStr "");
     ("barcodemode", PBool false);
     ("biometric_threshold", PFloat (4 # 10));
     ("aml_check", PBool false);
     ("aml_strict_match", PBool false);
     ("aml_database", PStr "");
     ("contract_generate", PStr "");
     ("contract_format", PStr "");
     ("contract_prefill_data", PStr "");
     ("client", PStr client_library)].

(** An instance: its attributes. *)
Record t : Type := Self {
  config : loc;
  apikey : string;
  throw_error : bool;
  apiendpoint : string
}.

(** [__init__(self, apikey, region="US")] *)
Definition init (apikey region : string) : M t :=
  raise_if (String.eqb apikey "") (ValueError "Please provide an API key");;
  raise_if (String.eqb region "") (ValueError "Please set an API region (US, EU)");;
  ret {| config := DEFAULT_CONFIG;
          apikey := apikey;
          throw_error := false;
          apiendpoint :=
            if String.eqb (upper region) "EU" then "https://api-eu.idanalyzer.com/"
            else if String.eqb (upper region) "US" then "https://api.idanalyzer.com/"
            else region |}.

Definition throw_api_exception (self : t) (throw_exception : pyval) : t :=
  {| config := config self;
     apikey := apikey self;
     throw_error := is_True throw_exception;
     apiendpoint := apiendpoint self |}.

Definition reset_config (self : t) : t :=
  {| config := DEFAULT_CONFIG;
     apikey := apikey self;
     throw_error := throw_error self;
     apiendpoint := apiendpoint self |}.

Definition set_accuracy (self : t) (accuracy : pyval) : M unit :=
  setitem (config self) "accuracy" accuracy.

Definition enable_authentication (self : t) (enabled module : pyval) : M unit :=
  setitem (config self) "authenticate" (PBool (is_True enabled));;
  en <- is_truthy enabled;
  raise_if (en && negb (eq_int module 1) && negb (eq_int module 2)
               && negb (eq_str module "quick"))
           (ValueError "Invalid authentication module, 1, 2 or 'quick' accepted.");;
  setitem (config self) "authenticate_module" module.

Definition set_ocr_image_resize (self : t) (max_scale : pyval) : M unit :=
  (if negb (eq_int max_scale 0)
   then q <- num max_scale;
        raise_if (Qlt_bool q (inject_Z 500) || Qlt_bool (inject_Z 4000) q)
                 (ValueError "Invalid scale value, 0, or 500 to 4000 accepted.")
   else ret tt);;
  setitem (config self) "ocr_scaledown" max_scale.

Definition set_biometric_threshold (self : t) (threshold : pyval) : M unit :=
  q <- num threshold;
  raise_if (Qle_bool q (inject_Z 0) || Qlt_bool (inject_Z 1) q)
           (ValueError "Invalid threshold value, float between 0 to 1 accepted.");;
  setitem (config self) "biometric_threshold" threshold.

Definition enable_image_output (self : t) (crop_document crop_face output_format : pyval)
  : M unit :=
  raise_if (negb (eq_str output_format "url") && negb (eq_str output_format "base64"))
           (ValueError "Invalid output format, 'url' or 'base64' accepted.");;
  setitem (config self) "outputimage" (PBool (is_True crop_document));;
  setitem (config self) "outputface" (PBool (is_True crop_face));;
  setitem (config self) "outputmode" output_format.

Definition enable_aml_check (self : t) (enabled : pyval) : M unit :=
  setitem (config self) "aml_check" (PBool (is_True enabled)).

Definition set_aml_database (self : t) (databases : pyval) : M unit :=
  setitem (config self) "aml_database" databases.

Definition enable_aml_strict_match (self : t) (enabled : pyval) : M unit :=
  setitem (config self) "aml_strict_match" (PBool (is_True enabled)).

Definition enable_dualside_check (self : t) (enabled : pyval) : M unit :=
  setitem (config self) "dualsidecheck" (PBool (is_True enabled)).

Definition verify_expiry (self : t) (enabled : pyval) : M unit :=
  setitem (config self) "verify_expiry" (PBool (is_True enabled)).

Definition verify_document_number (self : t) (document_number : pyval) : M unit :=
  given <- is_truthy document_number;
  if negb given
  then setitem (config self) "verify_documentno" (PStr "")
  else setitem (config self) "verify_documentno" document_number.

Definition verify_name (self : t) (full_name : pyval) : M unit :=
  given <- is_truthy full_name;
  if negb given
  then setitem (config self) "verify_name" (PStr "")
  else setitem (config self) "verify_name" full_name.

Definition verify_dob (self : t) (dob : pyval) : M unit :=
  given <- is_truthy dob;
  if negb given
  then setitem (config self) "verify_dob" (PStr "")
  else
    s <- as_str dob;
    raise_if (negb (Re.search dob_pattern s))
             (ValueError "Invalid birthday format (YYYY/MM/DD)");;
    setitem (config self) "verify_dob" dob.

Definition verify_age (self : t) (age_range : pyval) : M unit :=
  given <- is_truthy age_range;
  if negb given
  then setitem (config self) "verify_age" (PStr "")
  else
    s <- as_str age_range;
    raise_if (negb (Re.search age_pattern s))
             (ValueError "Invalid age range format (minAge-maxAge)");;
    setitem (config self) "verify_age" age_range.

Definition verify_address (self : t) (address : pyval) : M unit :=
  given <- is_truthy address;
  if negb given
  then setitem (config self) "verify_address" (PStr "")
  else setitem (config self) "verify_address" address.

Definition verify_postcode (self : t) (postcode : pyval) : M unit :=
  given <- is_truthy postcode;
  if negb given
  then setitem (config self) "verify_postcode" (PStr "")
  else setitem (config self) "verify_postcode" postcode.

Definition restrict_country (self : t) (country_codes : pyval) : M unit :=
  given <- is_truthy country_codes;
  if negb given
  then setitem (config self) "country" (PStr "")
  else setitem (config self) "country" country_codes.

Definition restrict_state (self : t) (states : pyval) : M unit :=
  given <- is_truthy states;
  if negb given
  then setitem (config self) "region" (PStr "")
  else setitem (config self) "region" states.

Definition restrict_type (self : t) (document_type : pyval) : M unit :=
  given <- is_truthy document_type;
  if negb given
  then setitem (config self) "type" (PStr "")
  else setitem (config self) "type" document_type.

Definition enable_barcode_mode (self : t) (enabled : pyval) : M unit :=
  setitem (config self) "barcodemode" (PBool (is_True enabled)).

Definition enable_vault (self : t)
    (enabled save_unrecognized no_duplicate_image auto_merge_document : pyval) : M unit :=
  setitem (config self) "vault_save" (PBool (is_True enabled));;
  setitem (config self) "vault_saveunrecognized" (PBool (is_True save_unrecognized));;
  setitem (config self) "vault_noduplicate" (PBool (is_True no_duplicate_image));;
  setitem (config self) "vault_automerge" (PBool (is_True auto_merge_document)).

Definition set_vault_data (self : t) (data1 data2 data3 data4 data5 : pyval) : M unit :=
  setitem (config self) "vault_customdata1" data1;;
  setitem (config self) "vault_customdata2" data2;;
  setitem (config self) "vault_customdata3" data3;;
  setitem (config self) "vault_customdata4" data4;;
  setitem (config self) "vault_customdata5" data5.

Definition generate_contract (self : t) (template_id out_format prefill_data : pyval)
  : M unit :=
  prefill <- match prefill_data with
            | PNone => l <- new_dict ∅; ret (PDict l)
            | _ => ret prefill_data
            end;
  given <- is_truthy template_id;
  raise_if (negb given) (ValueError "Invalid template ID");;
  setitem (config self) "contract_generate" template_id;;
  setitem (config self) "contract_format" out_format;;
  setitem (config self) "contract_prefill_data" prefill.

Definition set_parameter (self : t) (parameter_key : string) (parameter_value : pyval)
  : M unit :=
  setitem (config self) parameter_key parameter_value.

(** [scan(self, **options)] *)
Definition scan (E : env) (self : t) (options : gmap string pyval) : M json :=
  let payload := config self in
  setitem payload "apikey" (PStr (apikey self));;

  primary <- is_truthy (kwarg options "document_primary");
  raise_if (negb primary) (ValueError "Primary document image required.");;

  s <- as_str (kwarg options "document_primary");
  (if is_valid_url s
   then setitem payload "url" (kwarg options "document_primary")
   else if isfile E s
   then setitem payload "file_base64" (PBytes (Base64.b64encode (read_file E s)))
   else if (100 <? String.length s)%nat
   then setitem payload "file_base64" (kwarg options "document_primary")
   else raise (ValueError
                 "Invalid primary document image, file not found or malformed URL."));;

  secondary <- is_truthy (kwarg options "document_secondary");
  (if secondary
   then
     s <- as_str (kwarg options "document_secondary");
     if is_valid_url s
     then setitem payload "url_back" (kwarg options "document_secondary")
     else if isfile E s
     then setitem payload "file_back_base64" (PBytes (Base64.b64encode (read_file E s)))
     else if (100 <? String.length s)%nat
     then setitem payload "file_back_base64" (kwarg options "document_secondary")
     else raise (ValueError
                   "Invalid secondary document image, file not found or malformed URL.")
   else ret tt);;

  photo <- is_truthy (kwarg options "biometric_photo");
  (if photo
   then
     s <- as_str (kwarg options "biometric_photo");
     if is_valid_url s
     then setitem payload "faceurl" (kwarg options "biometric_photo")
     else if isfile E s
     then setitem payload "face_base64" (PBytes (Base64.b64encode (read_file E s)))
     else if (100 <? String.length s)%nat
     then setitem payload "face_base64" (kwarg options "biometric_photo")
     else raise (ValueError "Invalid face image, file not found or malformed URL.")
   else ret tt);;

  video <- is_truthy (kwarg options "biometric_video");
  (if video
   then
     s <- as_str (kwarg options "biometric_video");
     (if is_valid_url s
      then setitem payload "videourl" (kwarg options "biometric_video")
      else if isfile E s
      then setitem payload "video_base64" (PBytes (Base64.b64encode (read_file E s)))
      else if (100 <? String.length s)%nat
      then setitem payload "video_base64" (kwarg options "biometric_video")
      else raise (ValueError "Invalid face video, file not found or malformed URL."));;

     passcode <- is_truthy (kwarg options "biometric_video_passcode");
     if negb passcode
     then raise (ValueError
                   "Please provide a 4 digit passcode for video biometric verification.")
     else
       p <- as_str (kwarg options "biometric_video_passcode");
       if negb (Re.search passcode_pattern p)
       then raise (ValueError
                     "Please provide a 4 digit passcode for video biometric verification.")
       else setitem payload "passcode" (kwarg options "biometric_video_passcode")
   else ret tt);;

  r <- requests_post E (apiendpoint self) payload;
  raise_for_status r;;
  result <- response_json r;

  if negb (throw_error self)
  then ret result
  else
    err <- json_get result "error";
    if json_truthy err
    then raise (APIError err)
    else ret result.

End CoreAPI.


(** ** class DocuPass *)

Module DocuPass.

Definition DEFAULT_CONFIG : loc := 2%positive.

Definition default_items : gmap string pyval :=
  list_to_map
    [("companyname", PStr "");
     ("callbackurl", PStr "");
     ("biometric", PInt 0);
     ("authenticate_minscore", PInt 0);
     ("authenticate_module", PInt 2);
     ("maxattempt", PInt 1);
     ("documenttype", PStr "");
     ("documentcountry", PStr "");
     ("documentregion", PStr "");
     ("dualsidecheck", PBool false);
     ("verify_expiry", PBool false);
     ("verify_documentno", PStr "");
     ("verify_name", PStr "");
     ("verify_dob", PStr "");
     ("verify_age", PStr "");
     ("verify_address", PStr "");
     ("verify_postcode", PStr "");
     ("successredir", PStr "");
     ("failredir", PStr "");
     ("customid", PStr "");
     ("vault_save", PBool true);
     ("return_documentimage", PBool true);
     ("return_faceimage", PBool true);
     ("return_type", PInt 1);
     ("qr_color", PStr "");
     ("qr_bgcolor", PStr "");
     ("qr_size", PStr "");
     ("qr_margin", PStr "");
     ("welcomemessage", PStr "");
     ("nobranding", PStr "");
     ("logo", PStr "");
     ("language", PStr "");
     ("biometric_threshold", PFloat (4 # 10));
     ("reusable", PBool false);
     ("aml_check", PBool false);
     ("aml_strict_match", PBool false);
     ("aml_database", PStr "");
     ("phoneverification", PBool false);
     ("verify_phone", PStr "");
     ("sms_verification_link", PStr "");
     ("customhtmlurl", PStr "");
     ("contract_generate", PStr "");
     ("contract_sign", PStr "");
     ("contract_format", PStr "");
     ("contract_prefill_data", PStr "");
     ("sms_contract_link", PStr "");
     ("client", PStr client_library)].

Record t : Type := Self {
  config : loc;
  apikey : string;
  throw_error : bool;
  apiendpoint : string
}.

(** [__init__(self, apikey, company_name="My Company Name", region="US")] *)
Definition init (apikey company_name region : string) : M t :=
  raise_if (String.eqb apikey "") (ValueError "Please provide an API key");;
  raise_if (String.eqb company_name "") (ValueError "Please provide your company name");;
  raise_if (String.eqb region "") (ValueError "Please set an API region (US, EU)");;
  setitem DEFAULT_CONFIG "companyname" (PStr company_name);;
  ret {| config := DEFAULT_CONFIG;
          apikey := apikey;
          throw_error := false;
          apiendpoint :=
            if String.eqb (upper region) "EU" then "https://api-eu.idanalyzer.com/"
            else if String.eqb (upper region) "US" then "https://api.idanalyzer.com/"
            else region |}.

Definition throw_api_exception (self : t) (throw_exception : pyval) : t :=
  {| config := config self;
     apikey := apikey self;
     throw_error := is_True throw_exception;
     apiendpoint := apiendpoint self |}.

Definition reset_config (self : t) : t :=
  {| config := DEFAULT_CONFIG;
     apikey := apikey self;
     throw_error := throw_error self;
     apiendpoint := apiendpoint self |}.

Definition set_max_attempt (self : t) (max_attempt : pyval) : M unit :=
  raise_if (negb (in_range max_attempt 1 10))
           (ValueError "Invalid max attempt, please specify integer between 1 to 10.");;
  setitem (config self) "maxattempt" max_attempt.

Definition set_custom_id (self : t) (custom_id : pyval) : M unit :=
  setitem (config self) "customid" custom_id.

Definition set_welcome_message (self : t) (message : pyval) : M unit :=
  setitem (config self) "welcomemessage" message.

Definition set_logo (self : t) (url : pyval) : M unit :=
  setitem (config self) "logo" url.

Definition hide_branding_logo (self : t) (hidden : pyval) : M unit :=
  setitem (config self) "nobranding" (PBool (is_True hidden)).

Definition set_custom_html_url (self : t) (url : pyval) : M unit :=
  setitem (config self) "customhtmlurl" url.

Definition set_language (self : t) (language : pyval) : M unit :=
  setitem (config self) "language" language.

Definition set_callback_url (self : t) (url : pyval) : M unit :=
  given <- is_truthy url;
  (if given
   then s <- as_str url;
        raise_if (negb (is_valid_url s))
                 (ValueError "Invalid URL, the host does not appear to be a remote host.")
   else ret tt);;
  setitem (config self) "callbackurl" url.

Definition set_redirection_url (self : t) (success_url fail_url : pyval) : M unit :=
  given <- is_truthy success_url;
  (if given
   then s <- as_str success_url;
        raise_if (negb (is_valid_url s)) (ValueError "Invalid URL format for success URL")
   else ret tt);;
  given <- is_truthy fail_url;
  (if given
   then s <- as_str fail_url;
        raise_if (negb (is_valid_url s)) (ValueError "Invalid URL format for fail URL")
   else ret tt);;
  setitem (config self) "successredir" success_url;;
  setitem (config self) "failredir" fail_url.

Definition enable_authentication (self : t) (enabled module minimum_score : pyval)
  : M unit :=
  en <- is_truthy enabled;
  if negb en
  then setitem (config self) "authenticate_minscore" (PInt 0)
  else
    q <- num minimum_score;
    raise_if (negb (Qlt_bool (inject_Z 0) q && Qle_bool q (inject_Z 1)))
             (ValueError "Invalid minimum score, please specify float between 0 to 1.");;
    raise_if (en && negb (eq_int module 1) && negb (eq_int module 2)
                 && negb (eq_str module "quick"))
             (ValueError "Invalid authentication module, 1, 2 or 'quick' accepted.");;
    setitem (config self) "authenticate_module" module;;
    setitem (config self) "authenticate_minscore" minimum_score.

Definition enable_face_verification (self : t) (enabled verification_type threshold : pyval)
  : M unit :=
  en <- is_truthy enabled;
  if negb en
  then setitem (config self) "biometric" (PInt 0)
  else if eq_int verification_type 1 || eq_int verification_type 2
  then setitem (config self) "biometric" verification_type;;
       setitem (config self) "biometric_threshold" threshold
  else raise (ValueError
    "Invalid verification type, 1 for photo verification, 2 for video verification.").

Definition set_reusable (self : t) (reusable : pyval) : M unit :=
  setitem (config self) "reusable" (PBool (is_True reusable)).

Definition set_callback_image (self : t)
    (return_documentimage return_faceimage return_type : pyval) : M unit :=
  setitem (config self) "return_documentimage" (PBool (is_True return_documentimage));;
  setitem (config self) "return_faceimage" (PBool (is_True return_faceimage));;
  setitem (config self) "return_type" (if eq_int return_type 0 then PInt 0 else PInt 1).

(** [set_qrcode_format(self, foreground_color="000000",
    background_color="FFFFFF", size=5, margin=1)] *)
Definition set_qrcode_format (self : t)
    (foreground_color background_color size margin : pyval) : M unit :=
  fg <- as_str foreground_color;
  raise_if (negb (is_hex_color fg)) (ValueError "Invalid foreground color HEX code");;
  bg <- as_str background_color;
  raise_if (negb (is_hex_color bg)) (ValueError "Invalid background color HEX code");;
  raise_if (negb (in_range size 1 50)) (ValueError "Invalid image size (1-50)");;
  raise_if (negb (in_range margin 0 50)) (ValueError "Invalid margin (0-50)");;
  setitem (config self) "qr_color" foreground_color;;
  setitem (config self) "qr_bgcolor" background_color;;
  setitem (config self) "qr_size" size;;
  setitem (config self) "qr_margin" margin.

Definition enable_dualside_check (self : t) (enabled : pyval) : M unit :=
  setitem (config self) "dualsidecheck" (PBool (is_True enabled)).

Definition enable_aml_check (self : t) (enabled : pyval) : M unit :=
  setitem (config self) "aml_check" (PBool (is_True enabled)).

Definition set_aml_database (self : t) (databases : pyval) : M unit :=
  setitem (config self) "aml_database" databases.

Definition enable_aml_strict_match (self : t) (enabled : pyval) : M unit :=
  setitem (config self) "aml_strict_match" (PBool (is_True enabled)).

Definition enable_phone_verification (self : t) (enabled : pyval) : M unit :=
  setitem (config self) "phoneverification" enabled.

Definition sms_verification_link (self : t) (mobile_number : pyval) : M unit :=
  setitem (config self) "sms_verification_link" mobile_number.

Definition sms_contract_link (self : t) (mobile_number : pyval) : M unit :=
  setitem (config self) "sms_contract_link" mobile_number.

Definition verify_phone (self : t) (phone_number : pyval) : M unit :=
  setitem (config self) "verify_phone" phone_number.

Definition verify_expiry (self : t) (enabled : pyval) : M unit :=
  setitem (config self) "verify_expiry" (PBool (is_True enabled)).

Definition verify_document_number (self : t) (document_number : pyval) : M unit :=
  given <- is_truthy document_number;
  if negb given
  then setitem (config self) "verify_documentno" (PStr "")
  else setitem (config self) "verify_documentno" document_number.

Definition verify_name (self : t) (full_name : pyval) : M unit :=
  given <- is_truthy full_name;
  if negb given
  then setitem (config self) "verify_name" (PStr "")
  else setitem (config self) "verify_name" full_name.

Definition verify_dob (self : t) (dob : pyval) : M unit :=
  given <- is_truthy dob;
  if negb given
  then setitem (config self) "verify_dob" (PStr "")
  else
    s <- as_str dob;
    raise_if (negb (Re.search dob_pattern s))
             (ValueError "Invalid birthday format (YYYY/MM/DD)");;
    setitem (config self) "verify_dob" dob.

Definition verify_age (self : t) (age_range : pyval) : M unit :=
  given <- is_truthy age_range;
  if negb given
  then setitem (config self) "verify_age" (PStr "")
  else
    s <- as_str age_range;
    raise_if (negb (Re.search age_pattern s))
             (ValueError "Invalid age range format (minAge-maxAge)");;
    setitem (config self) "verify_age" age_range.

Definition verify_address (self : t) (address : pyval) : M unit :=
  given <- is_truthy address;
  if negb given
  then setitem (config self) "verify_address" (PStr "")
  else setitem (config self) "verify_address" address.

Definition verify_postcode (self : t) (postcode : pyval) : M unit :=
  given <- is_truthy postcode;
  if negb given
  then setitem (config self) "verify_postcode" (PStr "")
  else setitem (config self) "verify_postcode" postcode.

Definition restrict_country (self : t) (country_codes : pyval) : M unit :=
  given <- is_truthy country_codes;
  if negb given
  then setitem (config self) "documentcountry" (PStr "")
  else setitem (config self) "documentcountry" country_codes.

Definition restrict_state (self : t) (states : pyval) : M unit :=
  given <- is_truthy states;
  if negb given
  then setitem (config self) "documentregion" (PStr "")
  else setitem (config self) "documentregion" states.

Definition restrict_type (self : t) (document_type : pyval) : M unit :=
  given <- is_truthy document_type;
  if negb given
  then setitem (config self) "documenttype" (PStr "")
  else setitem (config self) "documenttype" document_type.

Definition enable_vault (self : t) (enabled : pyval) : M unit :=
  setitem (config self) "vault_save" (PBool (is_True enabled)).

Definition set_parameter (self : t) (parameter_key : string) (parameter_value : pyval)
  : M unit :=
  setitem (config self) parameter_key parameter_value.

Definition generate_contract (self : t) (template_id out_format prefill_data : pyval)
  : M unit :=
  prefill <- match prefill_data with
             | PNone => l <- new_dict ∅; ret (PDict l)
             | _ => ret prefill_data
             end;
  given <- is_truthy template_id;
  raise_if (negb given) (ValueError "Invalid template ID");;
  setitem (config self) "contract_sign" (PStr "");;
  setitem (config self) "contract_generate" template_id;;
  setitem (config self) "contract_format" out_format;;
  setitem (config self) "contract_prefill_data" prefill.

Definition sign_contract (self : t) (template_id out_format prefill_data : pyval)
  : M unit :=
  prefill <- match prefill_data with
             | PNone => l <- new_dict ∅; ret (PDict l)
             | _ => ret prefill_data
             end;
  given <- is_truthy template_id;
  raise_if (negb given) (ValueError "Invalid template ID");;
  setitem (config self) "contract_generate" (PStr "");;
  setitem (config self) "contract_sign" template_id;;
  setitem (config self) "contract_format" out_format;;
  setitem (config self) "contract_prefill_data" prefill.

Definition create_signature (E : env) (self : t)
    (template_id out_format prefill_data : pyval) : M json :=
  prefill <- match prefill_data with
             | PNone => l <- new_dict ∅; ret (PDict l)
             | _ => ret prefill_data
             end;
  given <- is_truthy template_id;
  raise_if (negb given) (ValueError "Invalid template ID");;
  let payload := config self in
  setitem payload "apikey" (PStr (apikey self));;
  setitem payload "template_id" template_id;;
  setitem payload "contract_format" out_format;;
  setitem payload "contract_prefill_data" prefill;;

  r <- requests_post E (apiendpoint self ++ "docupass/sign") payload;
  raise_for_status r;;
  result <- response_json r;

  if negb (throw_error self)
  then ret result
  else
    err <- json_get result "error";
    if json_truthy err
    then raise (APIError err)
    else ret result.

(** [__create(self, docupass_module)] *)
Definition create (E : env) (self : t) (docupass_module : Z) : M json :=
  let payload := config self in
  setitem payload "apikey" (PStr (apikey self));;
  setitem payload "type" (PInt docupass_module);;

  r <- requests_post E (apiendpoint self ++ "docupass/create") payload;
  raise_for_status r;;
  result <- response_json r;

  if negb (throw_error self)
  then ret result
  else
    err <- json_get result "error";
    if json_truthy err
    then raise (APIError err)
    else ret result.

Definition create_iframe (E : env) (self : t) : M json := create E self 0.

Definition create_mobile (E : env) (self : t) : M json := create E self 1.

Definition create_redirection (E : env) (self : t) : M json := create E self 2.

Definition create_live_mobile (E : env) (self : t) : M json := create E self 3.

Definition validate (E : env) (self : t) (reference hash : pyval) : M json :=
  payload <- new_dict (list_to_map [("apikey", PStr (apikey self));
                                    ("reference", reference);
                                    ("hash", hash);
                                    ("client", PStr client_library)]);
  r <- requests_post E (apiendpoint self ++ "docupass/validate") payload;
  raise_for_status r;;
  result <- response_json r;
  json_get result "success".

End DocuPass.

(** ** class Vault *)

Module Vault.

Record t : Type := Self {
  apikey : string;
  throw_error : bool;
  apiendpoint : string
}.

Definition init (apikey region : string) : M t :=
  raise_if (String.eqb apikey "") (ValueError "Please provide an API key");;
  raise_if (String.eqb region "") (ValueError "Please set an API region (US, EU)");;
  ret {| apikey := apikey;
          throw_error := false;
          apiendpoint :=
            if String.eqb (upper region) "EU" then "https://api-eu.idanalyzer.com/"
            else if String.eqb (upper region) "US" then "https://api.idanalyzer.com/"
            else region |}.

Definition throw_api_exception (self : t) (throw_exception : pyval) : t :=
  {| apikey := apikey self;
     throw_error := is_True throw_exception;
     apiendpoint := apiendpoint self |}.

(** [__api(self, action, payload=None)]; [payload] is [None] or a
    dictionary. *)
Definition api (E : env) (self : t) (action : string) (payload : option loc) : M json :=
  payload <- match payload with
             | None => new_dict ∅
             | Some l =>
                 d <- read_dict l;
                 if Nat.eqb (size d) 0 then new_dict ∅ else ret l
             end;

  setitem payload "apikey" (PStr (apikey self));;
  setitem payload "client" (PStr client_library);;
  r <- requests_post E (apiendpoint self ++ "vault/" ++ action) payload;
  raise_for_status r;;
  result <- response_json r;

  if negb (throw_error self)
  then ret result
  else
    err <- json_get result "error";
    if json_truthy err
    then raise (APIError err)
    else ret result.

Definition get (E : env) (self : t) (vault_id : pyval) : M json :=
  given <- is_truthy vault_id;
  raise_if (negb given) (ValueError "Vault entry ID required.");;
  payload <- new_dict {["id" := vault_id]};
  api E self "get" (Some payload).

(** [list(self, **options)] *)
Definition list (E : env) (self : t) (options : gmap string pyval) : M json :=
  payload <- new_dict ∅;
  filter <- is_truthy (kwarg options "filter");
  (if filter
   then
     match kwarg options "filter" with
     | PList statements =>
         raise_if (5 <? List.length statements)%nat
           (ValueError
              "Filter must be an array and must not exceed maximum 5 filter strings.")
     | _ =>
         raise (ValueError
              "Filter must be an array and must not exceed maximum 5 filter strings.")
     end;;
     setitem payload "filter" (kwarg options "filter")
   else ret tt);;

  orderby <- is_truthy (kwarg options "orderby");
  (if orderby
   then setitem payload "orderby" (kwarg options "orderby")
   else setitem payload "orderby" (PStr "createtime"));;

  sort <- is_truthy (kwarg options "sort");
  (if sort
   then setitem payload "sort" (kwarg options "sort")
   else setitem payload "sort" (PStr "DESC"));;

  limit <- is_truthy (kwarg options "limit");
  (if limit
   then setitem payload "limit" (kwarg options "limit")
   else setitem payload "limit" (PInt 10));;

  offset <- is_truthy (kwarg options "offset");
  (if offset
   then setitem payload "offset" (kwarg options "offset")
   else setitem payload "offset" (PInt 0));;

  api E self "list" (Some payload).

Definition update (E : env) (self : t) (vault_id data : pyval) : M json :=
  given <- is_truthy vault_id;
  raise_if (negb given) (ValueError "Vault entry ID required.");;
  match data with
  | PDict d =>
      n <- len data;
      raise_if (n <? 1)%nat (ValueError "Minimum one set of data required.");;
      setitem d "id" vault_id;;
      api E self "update" (Some d)
  | _ => raise (ValueError "Data needs to be a dictionary.")
  end.

Definition delete (E : env) (self : t) (vault_id : pyval) : M json :=
  given <- is_truthy vault_id;
  raise_if (negb given) (ValueError "Vault entry ID required.");;
  payload <- new_dict {["id" := vault_id]};
  api E self "delete" (Some payload).

Definition add_image (E : env) (self : t) (id image type : pyval) : M json :=
  given <- is_truthy id;
  raise_if (negb given) (ValueError "Vault entry ID required.");;
  raise_if (negb (eq_int type 0) && negb (eq_int type 1))
           (ValueError "Invalid image type, 0 or 1 accepted.");;

  payload <- new_dict (list_to_map [("id", id); ("type", type)]);
  s <- as_str image;
  (if is_valid_url s
   then setitem payload "imageurl" image
   else if isfile E s
   then setitem payload "image" (PBytes (Base64.b64encode (read_file E s)))
   else if (100 <? String.length s)%nat
   then setitem payload "image" image
   else raise (ValueError "Invalid image, file not found or malformed URL."));;

  api E self "addimage" (Some payload).

Definition delete_image (E : env) (self : t) (vault_id image_id : pyval) : M json :=
  given <- is_truthy vault_id;
  raise_if (negb given) (ValueError "Vault entry ID required.");;
  given <- is_truthy image_id;
  raise_if (negb given) (ValueError "Image ID required.");;
  payload <- new_dict (list_to_map [("id", vault_id); ("imageid", image_id)]);
  api E self "deleteimage" (Some payload).

Definition search_face (E : env) (self : t) (image max_entry threshold : pyval) : M json :=
  payload <- new_dict (list_to_map [("maxentry", max_entry); ("threshold", threshold)]);
  s <- as_str image;
  (if is_valid_url s
   then setitem payload "imageurl" image
   else if isfile E s
   then setitem payload "image" (PBytes (Base64.b64encode (read_file E s)))
   else if (100 <? String.length s)%nat
   then setitem payload "image" image
   else raise (ValueError "Invalid image, file not found or malformed URL."));;

  api E self "searchface" (Some payload).

Definition train_face (E : env) (self : t) : M json := api E self "train" None.

Definition training_status (E : env) (self : t) : M json := api E self "trainstatus" None.

End Vault.

(** ** class AMLAPI *)

Module AMLAPI.

Record t : Type := Self {
  apikey : string;
  throw_error : bool;
  AMLDatabases : pyval;
  AMLEntityType : pyval;
  apiendpoint : string
}.

Definition init (apikey region : string) : M t :=
  raise_if (String.eqb apikey "") (ValueError "Please provide an API key");;
  raise_if (String.eqb region "") (ValueError "Please set an API region (US, EU)");;
  ret {| apikey := apikey;
          throw_error := false;
          AMLDatabases := PStr "";
          AMLEntityType := PStr "";
          apiendpoint :=
            if String.eqb (upper region) "EU" then "https://api-eu.idanalyzer.com/aml"
            else if String.eqb (upper region) "US" then "https://api.idanalyzer.com/aml"
            else region |}.

Definition throw_api_exception (self : t) (throw_exception : pyval) : t :=
  {| apikey := apikey self;
     throw_error := is_True throw_exception;
     AMLDatabases := AMLDatabases self;
     AMLEntityType := AMLEntityType self;
     apiendpoint := apiendpoint self |}.

Definition set_aml_database (self : t) (databases : pyval) : t :=
  {| apikey := apikey self;
     throw_error := throw_error self;
     AMLDatabases := databases;
     AMLEntityType := AMLEntityType self;
     apiendpoint := apiendpoint self |}.

Definition set_entity_type (self : t) (entity_type : pyval) : M t :=
  raise_if (negb (eq_str entity_type "person") && negb (eq_str entity_type "legalentity")
            && negb (eq_str entity_type ""))
           (ValueError "Entity Type should be either empty, 'person' or 'legalentity'");;
  ret {| apikey := apikey self;
          throw_error := throw_error self;
          AMLDatabases := AMLDatabases self;
          AMLEntityType := entity_type;
          apiendpoint := apiendpoint self |}.

(** [__api(self, payload=None)] *)
Definition api (E : env) (self : t) (payload : option loc) : M json :=
  payload <- match payload with
             | None => new_dict ∅
             | Some l =>
                 d <- read_dict l;
                 if Nat.eqb (size d) 0 then new_dict ∅ else ret l
             end;
  setitem payload "database" (AMLDatabases self);;
  setitem payload "entity" (AMLEntityType self);;
  setitem payload "apikey" (PStr (apikey self));;
  setitem payload "client" (PStr client_library);;
  r <- requests_post E (apiendpoint self) payload;
  raise_for_status r;;
  result <- response_json r;

  if negb (throw_error self)
  then ret result
  else
    err <- json_get result "error";
    if json_truthy err
    then raise (APIError err)
    else ret result.

Definition search_by_name (E : env) (self : t) (name country dob : pyval) : M json :=
  n <- len name;
  raise_if (n <? 3)%nat (ValueError "Name should contain at least 3 characters.");;
  payload <- new_dict (list_to_map [("name", name); ("country", country); ("dob", dob)]);
  api E self (Some payload).

Definition search_by_id_number (E : env) (self : t) (document_number country dob : pyval)
  : M json :=
  n <- len document_number;
  raise_if (n <? 5)%nat
           (ValueError "Document number should contain at least 5 characters.");;
  payload <- new_dict (list_to_map [("documentnumber", document_number);
                                    ("country", country); ("dob", dob)]);
  api E self (Some payload).

End AMLAPI.

(** The world right after [import idanalyzer]: the two class-level
    dictionaries exist and nothing has been sent. *)
Definition module_loaded : world :=
  {| heap := <[CoreAPI.DEFAULT_CONFIG := CoreAPI.default_items]>
             (<[DocuPass.DEFAULT_CONFIG := DocuPass.default_items]> ∅);
     log := [] |}.

(** ** Reasoning vocabulary *)

(** The world after [d[k] = v] on the dictionary at [l]. *)
Definition stored (w : world) (l : loc) (k : string) (v : pyval) : world :=
  {| heap := <[l := <[k := v]> (items_at (heap w) l)]> (heap w); log := log w |}.

(** [c] run from [w] sent exactly the request [req] first, and logged
    [rest] after it. *)
Definition posted {A} (c : M A) (w : world) (req : request) (rest : list event) : Prop :=
  log (snd (c w)) = (log w ++ EvPost req :: rest)%list.

(** A computation that sends nothing and decodes nothing. *)
Definition silent {A} (c : M A) : Prop :=
  forall w, log (snd (c w)) = log w.

(** A computation that changes nothing. *)
Definition pure {A} (c : M A) : Prop := forall w, snd (c w) = w.

(** A computation that never raises. *)
Definition total {A} (c : M A) : Prop := forall w, exists a, fst (c w) = Ok a.

(** A computation that leaves every dictionary as it is. *)
Definition frames {A} (c : M A) : Prop := forall w, heap (snd (c w)) = heap w.

(** A computation that leaves the item [k] of the dictionary at [l]
    alone. *)
Definition keeps {A} (l : loc) (k : string) (c : M A) : Prop :=
  forall w, items_at (heap (snd (c w))) l !! k = items_at (heap w) l !! k.


(** Whenever [c] raises, the dictionary at [l] is as it was before. *)
Definition unchanged_on_raise (l : loc) (c : M unit) : Prop :=
  forall w e,
    is_Some (heap w !! l) ->
    fst (c w) = Raise e ->
    items_at (heap (snd (c w))) l = items_at (heap w) l.

(** Every request [c] sends carries, as its payload, the dictionary at
    [l] as it is when [c] ends. *)
Definition sends_dict {A} (l : loc) (c : M A) : Prop :=
  forall w req rest,
    posted c w req rest -> req_data req = items_at (heap (snd (c w))) l.

(** A reference to a dictionary points to a live object. *)
Definition live (h : gmap loc (gmap string pyval)) (v : pyval) : Prop :=
  match v with
  | PDict l => is_Some (h !! l)
  | _ => True
  end.

(** ** The transport contract of section 4.3, in the spec's words *)

(** What the caller gets for one answer of the network, in strict or in
    silent mode. *)
Definition answer (strict : bool) (o : post_outcome) : result json :=
  match o with
  | PostRaises => Raise ConnectionError
  | PostReturns r =>
      if (400 <=? status_code r)%Z && (status_code r <? 600)%Z
      then Raise (HTTPError (status_code r))
      else
        match body r with
        | None => Raise JSONDecodeError
        | Some result =>
            if negb strict then Ok result
            else
              match result with
              | JObject items =>
                  if json_truthy (default JNull (assoc "error" items))
                  then Raise (APIError (default JNull (assoc "error" items)))
                  else Ok result
              | _ => Raise AttributeError
              end
        end
  end.

(** What is logged after the request: the decoding of the body, when the
    transport succeeded. *)
Definition after_post (o : post_outcome) : list event :=
  match o with
  | PostRaises => []
  | PostReturns r =>
      if (400 <=? status_code r)%Z && (status_code r <? 600)%Z then [] else [EvJsonDecode]
  end.

(** An action method either fails locally, with nothing sent, or sends
    one request and treats the answer as [answer] says. *)
Definition transported (E : env) (strict : bool) (c : M json) : Prop :=
  forall w,
    (log (snd (c w)) = log w /\ exists e, fst (c w) = Raise e)
    \/ (exists req,
          log (snd (c w)) = (log w ++ EvPost req :: after_post (server E req))%list
          /\ fst (c w) = answer strict (server E req)).

(** The action methods that return the decoded response. *)
Inductive action : Type :=
| CoreAPI_scan (self : CoreAPI.t) (options : gmap string pyval)
| DocuPass_create_signature (self : DocuPass.t) (template_id out_format prefill_data : pyval)
| DocuPass_create_iframe (self : DocuPass.t)
| DocuPass_create_mobile (self : DocuPass.t)
| DocuPass_create_redirection (self : DocuPass.t)
| DocuPass_create_live_mobile (self : DocuPass.t)
| Vault_get (self : Vault.t) (vault_id : pyval)
| Vault_list (self : Vault.t) (options : gmap string pyval)
| Vault_update (self : Vault.t) (vault_id data : pyval)
| Vault_delete (self : Vault.t) (vault_id : pyval)
| Vault_add_image (self : Vault.t) (id image type : pyval)
| Vault_delete_image (self : Vault.t) (vault_id image_id : pyval)
| Vault_search_face (self : Vault.t) (image max_entry threshold : pyval)
| Vault_train_face (self : Vault.t)
| Vault_training_status (self : Vault.t)
| AMLAPI_search_by_name (self : AMLAPI.t) (name country dob : pyval)
| AMLAPI_search_by_id_number (self : AMLAPI.t) (document_number country dob : pyval).

Definition perform (E : env) (a : action) : M json :=
  match a with
  | CoreAPI_scan self options => CoreAPI.scan E self options
  | DocuPass_create_signature self t f p => DocuPass.create_signature E self t f p
  | DocuPass_create_iframe self => DocuPass.create_iframe E self
  | DocuPass_create_mobile self => DocuPass.create_mobile E self
  | DocuPass_create_redirection self => DocuPass.create_redirection E self
  | DocuPass_create_live_mobile self => DocuPass.create_live_mobile E self
  | Vault_get self i => Vault.get E self i
  | Vault_list self options => Vault.list E self options
  | Vault_update self i d => Vault.update E self i d
  | Vault_delete self i => Vault.delete E self i
  | Vault_add_image self i img t => Vault.add_image E self i img t
  | Vault_delete_image self i j => Vault.delete_image E self i j
  | Vault_search_face self img m t => Vault.search_face E self img m t
  | Vault_train_face self => Vault.train_face E self
  | Vault_training_status self => Vault.training_status E self
  | AMLAPI_search_by_name self n c d => AMLAPI.search_by_name E self n c d
  | AMLAPI_search_by_id_number self n c d => AMLAPI.search_by_id_number E self n c d
  end.

(** The throw-on-API-error flag of the instance the action is called on. *)
Definition strict (a : action) : bool :=
  match a with
  | CoreAPI_scan self _ => CoreAPI.throw_error self
  | DocuPass_create_signature self _ _ _
  | DocuPass_create_iframe self
  | DocuPass_create_mobile self
  | DocuPass_create_redirection self
  | DocuPass_create_live_mobile self => DocuPass.throw_error self
  | Vault_get self _
  | Vault_list self _
  | Vault_update self _ _
  | Vault_delete self _
  | Vault_add_image self _ _ _
  | Vault_delete_image self _ _
  | Vault_search_face self _ _ _
  | Vault_train_face self
  | Vault_training_status self => Vault.throw_error self
  | AMLAPI_search_by_name self _ _ _
  | AMLAPI_search_by_id_number self _ _ _ => AMLAPI.throw_error self
  end.

(** ** Calls of the configuration setters *)

(** The configuration setters of [CoreAPI], as calls. *)
Inductive core_call : Type :=
| Core_set_accuracy (accuracy : pyval)
| Core_enable_authentication (enabled module : pyval)
| Core_set_ocr_image_resize (max_scale : pyval)
| Core_set_biometric_threshold (threshold : pyval)
| Core_enable_image_output (crop_document crop_face output_format : pyval)
| Core_enable_aml_check (enabled : pyval)
| Core_set_aml_database (databases : pyval)
| Core_enable_aml_strict_match (enabled : pyval)
| Core_enable_dualside_check (enabled : pyval)
| Core_verify_expiry (enabled : pyval)
| Core_verify_document_number (document_number : pyval)
| Core_verify_name (full_name : pyval)
| Core_verify_dob (dob : pyval)
| Core_verify_age (age_range : pyval)
| Core_verify_address (address : pyval)
| Core_verify_postcode (postcode : pyval)
| Core_restrict_country (country_codes : pyval)
| Core_restrict_state (states : pyval)
| Core_restrict_type (document_type : pyval)
| Core_enable_barcode_mode (enabled : pyval)
| Core_enable_vault (enabled save_unrecognized no_duplicate_image auto_merge_document : pyval)
| Core_set_vault_data (data1 data2 data3 data4 data5 : pyval)
| Core_generate_contract (template_id out_format prefill_data : pyval)
| Core_set_parameter (parameter_key : string) (parameter_value : pyval).

Definition core_setter (self : CoreAPI.t) (c : core_call) : M unit :=
  match c with
  | Core_set_accuracy a0 => CoreAPI.set_accuracy self a0
  | Core_enable_authentication a0 a1 => CoreAPI.enable_authentication self a0 a1
  | Core_set_ocr_image_resize a0 => CoreAPI.set_ocr_image_resize self a0
  | Core_set_biometric_threshold a0 => CoreAPI.set_biometric_threshold self a0
  | Core_enable_image_output a0 a1 a2 => CoreAPI.enable_image_output self a0 a1 a2
  | Core_enable_aml_check a0 => CoreAPI.enable_aml_check self a0
  | Core_set_aml_database a0 => CoreAPI.set_aml_database self a0
  | Core_enable_aml_strict_match a0 => CoreAPI.enable_aml_strict_match self a0
  | Core_enable_dualside_check a0 => CoreAPI.enable_dualside_check self a0
  | Core_verify_expiry a0 => CoreAPI.verify_expiry self a0
  | Core_verify_document_number a0 => CoreAPI.verify_document_number self a0
  | Core_verify_name a0 => CoreAPI.verify_name self a0
  | Core_verify_dob a0 => CoreAPI.verify_dob self a0
  | Core_verify_age a0 => CoreAPI.verify_age self a0
  | Core_verify_address a0 => CoreAPI.verify_address self a0
  | Core_verify_postcode a0 => CoreAPI.verify_postcode self a0
  | Core_restrict_country a0 => CoreAPI.restrict_country self a0
  | Core_restrict_state a0 => CoreAPI.restrict_state self a0
  | Core_restrict_type a0 => CoreAPI.restrict_type self a0
  | Core_enable_barcode_mode a0 => CoreAPI.enable_barcode_mode self a0
  | Core_enable_vault a0 a1 a2 a3 => CoreAPI.enable_vault self a0 a1 a2 a3
  | Core_set_vault_data a0 a1 a2 a3 a4 => CoreAPI.set_vault_data self a0 a1 a2 a3 a4
  | Core_generate_contract a0 a1 a2 => CoreAPI.generate_contract self a0 a1 a2
  | Core_set_parameter a0 a1 => CoreAPI.set_parameter self a0 a1
  end.

(** The configuration setters of [DocuPass], as calls. *)
Inductive docu_call : Type :=
| Docu_set_max_attempt (max_attempt : pyval)
| Docu_set_custom_id (custom_id : pyval)
| Docu_set_welcome_message (message : pyval)
| Docu_set_logo (url : pyval)
| Docu_hide_branding_logo (hidden : pyval)
| Docu_set_custom_html_url (url : pyval)
| Docu_set_language (language : pyval)
| Docu_set_callback_url (url : pyval)
| Docu_set_redirection_url (success_url fail_url : pyval)
| Docu_enable_authentication (enabled module minimum_score : pyval)
| Docu_enable_face_verification (enabled verification_type threshold : pyval)
| Docu_set_reusable (reusable : pyval)
| Docu_set_callback_image (return_documentimage return_faceimage return_type : pyval)
| Docu_set_qrcode_format (foreground_color background_color size margin : pyval)
| Docu_enable_dualside_check (enabled : pyval)
| Docu_enable_aml_check (enabled : pyval)
| Docu_set_aml_database (databases : pyval)
| Docu_enable_aml_strict_match (enabled : pyval)
| Docu_enable_phone_verification (enabled : pyval)
| Docu_sms_verification_link (mobile_number : pyval)
| Docu_sms_contract_link (mobile_number : pyval)
| Docu_verify_phone (phone_number : pyval)
| Docu_verify_expiry (enabled : pyval)
| Docu_verify_document_number (document_number : pyval)
| Docu_verify_name (full_name : pyval)
| Docu_verify_dob (dob : pyval)
| Docu_verify_age (age_range : pyval)
| Docu_verify_address (address : pyval)
| Docu_verify_postcode (postcode : pyval)
| Docu_restrict_country (country_codes : pyval)
| Docu_restrict_state (states : pyval)
| Docu_restrict_type (document_type : pyval)
| Docu_enable_vault (enabled : pyval)
| Docu_set_parameter (parameter_key : string) (parameter_value : pyval)
| Docu_generate_contract (template_id out_format prefill_data : pyval)
| Docu_sign_contract (template_id out_format prefill_data : pyval).

Definition docu_setter (self : DocuPass.t) (c : docu_call) : M unit :=
  match c with
  | Docu_set_max_attempt a0 => DocuPass.set_max_attempt self a0
  | Docu_set_custom_id a0 => DocuPass.set_custom_id self a0
  | Docu_set_welcome_message a0 => DocuPass.set_welcome_message self a0
  | Docu_set_logo a0 => DocuPass.set_logo self a0
  | Docu_hide_branding_logo a0 => DocuPass.hide_branding_logo self a0
  | Docu_set_custom_html_url a0 => DocuPass.set_custom_html_url self a0
  | Docu_set_language a0 => DocuPass.set_language self a0
  | Docu_set_callback_url a0 => DocuPass.set_callback_url self a0
  | Docu_set_redirection_url a0 a1 => DocuPass.set_redirection_url self a0 a1
  | Docu_enable_authentication a0 a1 a2 => DocuPass.enable_authentication self a0 a1 a2
  | Docu_enable_face_verification a0 a1 a2 => DocuPass.enable_face_verification self a0 a1 a2
  | Docu_set_reusable a0 => DocuPass.set_reusable self a0
  | Docu_set_callback_image a0 a1 a2 => DocuPass.set_callback_image self a0 a1 a2
  | Docu_set_qrcode_format a0 a1 a2 a3 => DocuPass.set_qrcode_format self a0 a1 a2 a3
  | Docu_enable_dualside_check a0 => DocuPass.enable_dualside_check self a0
  | Docu_enable_aml_check a0 => DocuPass.enable_aml_check self a0
  | Docu_set_aml_database a0 => DocuPass.set_aml_database self a0
  | Docu_enable_aml_strict_match a0 => DocuPass.enable_aml_strict_match self a0
  | Docu_enable_phone_verification a0 => DocuPass.enable_phone_verification self a0
  | Docu_sms_verification_link a0 => DocuPass.sms_verification_link self a0
  | Docu_sms_contract_link a0 => DocuPass.sms_contract_link self a0
  | Docu_verify_phone a0 => DocuPass.verify_phone self a0
  | Docu_verify_expiry a0 => DocuPass.verify_expiry self a0
  | Docu_verify_document_number a0 => DocuPass.verify_document_number self a0
  | Docu_verify_name a0 => DocuPass.verify_name self a0
  | Docu_verify_dob a0 => DocuPass.verify_dob self a0
  | Docu_verify_age a0 => DocuPass.verify_age self a0
  | Docu_verify_address a0 => DocuPass.verify_address self a0
  | Docu_verify_postcode a0 => DocuPass.verify_postcode self a0
  | Docu_restrict_country a0 => DocuPass.restrict_country self a0
  | Docu_restrict_state a0 => DocuPass.restrict_state self a0
  | Docu_restrict_type a0 => DocuPass.restrict_type self a0
  | Docu_enable_vault a0 => DocuPass.enable_vault self a0
  | Docu_set_parameter a0 a1 => DocuPass.set_parameter self a0 a1
  | Docu_generate_contract a0 a1 a2 => DocuPass.generate_contract self a0 a1 a2
  | Docu_sign_contract a0 a1 a2 => DocuPass.sign_contract self a0 a1 a2
  end.

(** One step of a client program working with [CoreAPI] instances: a
    setter call or a scan, on any instance.  The program goes on after an
    exception (it catches it), in the world the exception left. *)
Inductive core_op : Type :=
| OpSetter (self : CoreAPI.t) (c : core_call)
| OpScan (E : env) (self : CoreAPI.t) (options : gmap string pyval).

Definition run_op (o : core_op) (w : world) : world :=
  match o with
  | OpSetter self c => snd (core_setter self c w)
  | OpScan E self options => snd (CoreAPI.scan E self options w)
  end.

Definition run_ops (ops : list core_op) (w : world) : world :=
  fold_left (fun w o => run_op o w) ops w.

(** ** Region selection, in the spec's words *)




(** ** [Vault.list]: the request of section 4.4, in the spec's words *)

(** The option [k] when it is given (truthy), its default otherwise. *)
Definition option_or (h : gmap loc (gmap string pyval)) (options : gmap string pyval)
    (k : string) (dflt : pyval) : pyval :=
  if truthy h (kwarg options k) then kwarg options k else dflt.

(** A given filter that is no list, or a list of more than 5. *)
Definition filter_rejected (h : gmap loc (gmap string pyval)) (options : gmap string pyval)
  : bool :=
  truthy h (kwarg options "filter")
  && match kwarg options "filter" with
     | PList statements => (5 <? List.length statements)%nat
     | _ => true
     end.

Definition list_payload (h : gmap loc (gmap string pyval)) (apikey : string)
    (options : gmap string pyval) : gmap string pyval :=
  <["client" := PStr client_library]>
    (<["apikey" := PStr apikey]>
       (<["offset" := option_or h options "offset" (PInt 0)]>
          (<["limit" := option_or h options "limit" (PInt 10)]>
             (<["sort" := option_or h options "sort" (PStr "DESC")]>
                (<["orderby" := option_or h options "orderby" (PStr "createtime")]>
                   (if truthy h (kwarg options "filter")
                    then {["filter" := kwarg options "filter"]}
                    else ∅)))))).

(** ** The image resolver of section 4.2, in the spec's words *)

Inductive image_class : Type :=
| IsUrl
| IsFile (content : string)
| IsInline
| IsInvalid.

(** The classification, in its fixed order: a URL; else an existing
    file; else, when longer than 100 characters, an inline payload; else
    invalid. *)
Definition classify (E : env) (s : string) : image_class :=
  if is_valid_url s then IsUrl
  else
    match files E s with
    | Some content => IsFile content
    | None => if (100 <? String.length s)%nat then IsInline else IsInvalid
    end.



(** The required argument resolves: a non-empty string that is not
    invalid. *)
Definition resolves (E : env) (v : pyval) : Prop :=
  match v with
  | PStr s => s <> "" /\ classify E s <> IsInvalid
  | _ => False
  end.

(** An optional argument does not stop the call: it is absent, empty, or
    it resolves. *)
Definition passes (E : env) (v : pyval) : Prop :=
  match v with
  | PNone => True
  | PStr s => s = "" \/ classify E s <> IsInvalid
  | _ => False
  end.

(** The world after an argument that passes has been handled. *)
Definition resolved (E : env) (w : world) (l : loc) (url_field file_field : string)
    (v : pyval) : world :=
  match v with
  | PStr s =>
      if String.eqb s "" then w
      else
        match classify E s with
        | IsUrl => stored w l url_field v
        | IsFile content => stored w l file_field (PBytes (Base64.b64encode content))
        | IsInline => stored w l file_field v
        | IsInvalid => w
        end
  | _ => w
  end.

(** ** Concrete instances, environments and calls used in the examples *)

(** No file exists and the server answers every request with status 200
    and the empty JSON object. *)
Definition quiet_env : env :=
  {| files := fun _ => None;
     server := fun _ => PostReturns {| status_code := 200; body := Some (JObject []) |} |}.

(** One file, [sampleid.jpg], and a server that answers [{}]. *)
Definition demo_env : env :=
  {| files := fun path => if String.eqb path "sampleid.jpg" then Some "JFIF" else None;
     server := fun _ => PostReturns {| status_code := 200; body := Some (JObject []) |} |}.

(** The body of the strict-mode example of the spec:
    [{"error": {"code": 5, "message": "bad"}}]. *)
Definition error_details : json := JObject [("code", JInt 5); ("message", JStr "bad")].

Definition error_body : json := JObject [("error", error_details)].

(** A server that answers every request with the given status and body. *)
Definition constant_env (status : Z) (j : json) : env :=
  {| files := fun _ => None;
     server := fun _ => PostReturns {| status_code := status; body := Some j |} |}.

(** The instance [CoreAPI("key", "US")]. *)
Definition core_us : CoreAPI.t :=
  {| CoreAPI.config := CoreAPI.DEFAULT_CONFIG;
     CoreAPI.apikey := "key";
     CoreAPI.throw_error := false;
     CoreAPI.apiendpoint := "https://api.idanalyzer.com/" |}.

(** A second instance, [CoreAPI("other", "EU")]. *)
Definition core_eu : CoreAPI.t :=
  {| CoreAPI.config := CoreAPI.DEFAULT_CONFIG;
     CoreAPI.apikey := "other";
     CoreAPI.throw_error := false;
     CoreAPI.apiendpoint := "https://api-eu.idanalyzer.com/" |}.

(** The instance [DocuPass("key", "ACME", "US")]. *)
Definition docupass_us : DocuPass.t :=
  {| DocuPass.config := DocuPass.DEFAULT_CONFIG;
     DocuPass.apikey := "key";
     DocuPass.throw_error := false;
     DocuPass.apiendpoint := "https://api.idanalyzer.com/" |}.

Definition silent_vault : Vault.t :=
  {| Vault.apikey := "key"; Vault.throw_error := false;
     Vault.apiendpoint := "https://api.idanalyzer.com/" |}.

Definition strict_vault : Vault.t := Vault.throw_api_exception silent_vault (PBool true).

(** The request [train_face] sends from either of the two instances. *)
Definition train_request : request :=
  {| req_url := "https://api.idanalyzer.com/vault/train";
     req_data := <["client" := PStr client_library]> (<["apikey" := PStr "key"]> ∅) |}.

(** A world with one dictionary of the caller, [{"firstName": "John"}]. *)
Definition callers_dict : loc := 7%positive.

Definition world_with_callers_dict : world :=
  {| heap := <[callers_dict := {["firstName" := PStr "John"]}]> (heap module_loaded);
     log := [] |}.

(** The call of the vault demo:
    [vault.list(filter=["createtime>=2021/02/25"], orderby="firstName",
    sort="ASC", limit=5, offset=0)]. *)
Definition demo_list_options : gmap string pyval :=
  list_to_map
    [("filter", PList [PStr "createtime>=2021/02/25"]);
     ("orderby", PStr "firstName");
     ("sort", PStr "ASC");
     ("limit", PInt 5);
     ("offset", PInt 0)].

(** The scans of the examples. *)
Definition sample_url : string := "https://www.idanalyzer.com/img/sampleid1.jpg".

Definition scan_file_options : gmap string pyval :=
  {["document_primary" := PStr "sampleid.jpg"]}.

Definition scan_url_options : gmap string pyval :=
  {["document_primary" := PStr sample_url]}.


(** The last request in the log, and an item of its payload. *)
Definition last_request (w : world) : option request :=
  fold_left (fun acc ev => match ev with EvPost r => Some r | EvJsonDecode => acc end)
            (log w) None.

Definition sent_item (w : world) (k : string) : option pyval :=
  match last_request w with
  | Some r => req_data r !! k
  | None => None
  end.

(** ** Further vocabulary: the whole surface of the four classes *)

(** The action [a] called on the instance after
    [throw_api_exception(v)]. *)
Definition with_flag (a : action) (v : pyval) : action :=
  match a with
  | CoreAPI_scan self options => CoreAPI_scan (CoreAPI.throw_api_exception self v) options
  | DocuPass_create_signature self t f p =>
      DocuPass_create_signature (DocuPass.throw_api_exception self v) t f p
  | DocuPass_create_iframe self =>
      DocuPass_create_iframe (DocuPass.throw_api_exception self v)
  | DocuPass_create_mobile self =>
      DocuPass_create_mobile (DocuPass.throw_api_exception self v)
  | DocuPass_create_redirection self =>
      DocuPass_create_redirection (DocuPass.throw_api_exception self v)
  | DocuPass_create_live_mobile self =>
      DocuPass_create_live_mobile (DocuPass.throw_api_exception self v)
  | Vault_get self i => Vault_get (Vault.throw_api_exception self v) i
  | Vault_list self options => Vault_list (Vault.throw_api_exception self v) options
  | Vault_update self i d => Vault_update (Vault.throw_api_exception self v) i d
  | Vault_delete self i => Vault_delete (Vault.throw_api_exception self v) i
  | Vault_add_image self i img t =>
      Vault_add_image (Vault.throw_api_exception self v) i img t
  | Vault_delete_image self i j => Vault_delete_image (Vault.throw_api_exception self v) i j
  | Vault_search_face self img m t =>
      Vault_search_face (Vault.throw_api_exception self v) img m t
  | Vault_train_face self => Vault_train_face (Vault.throw_api_exception self v)
  | Vault_training_status self => Vault_training_status (Vault.throw_api_exception self v)
  | AMLAPI_search_by_name self n c d =>
      AMLAPI_search_by_name (AMLAPI.throw_api_exception self v) n c d
  | AMLAPI_search_by_id_number self n c d =>
      AMLAPI_search_by_id_number (AMLAPI.throw_api_exception self v) n c d
  end.


(** What [DocuPass.validate] returns for one answer of the network: the
    ['success'] entry of the decoded mapping, [None] when there is
    none. *)
Definition validate_answer (o : post_outcome) : result json :=
  match o with
  | PostRaises => Raise ConnectionError
  | PostReturns r =>
      if (400 <=? status_code r)%Z && (status_code r <? 600)%Z
      then Raise (HTTPError (status_code r))
      else
        match body r with
        | None => Raise JSONDecodeError
        | Some (JObject items) => Ok (default JNull (assoc "success" items))
        | Some _ => Raise AttributeError
        end
  end.

(** The four session creators of [DocuPass] with their module numbers. *)
Definition session_creators : list ((env -> DocuPass.t -> M json) * Z) :=
  [(DocuPass.create_iframe, 0%Z);
   (DocuPass.create_mobile, 1%Z);
   (DocuPass.create_redirection, 2%Z);
   (DocuPass.create_live_mobile, 3%Z)].

(** The answer [{"success": true}]. *)
Definition success_body : json := JObject [("success", JBool true)].

(** ** Shapes of the strings the anchored patterns accept *)

Definition is_digit (c : ascii) : bool := Re.in_class "" [("0", "9")]%char c.

Definition is_hex_digit (c : ascii) : bool :=
  Re.in_class "" [("0", "9"); ("a", "f"); ("A", "F")]%char c.

(** Exactly [n] characters of a class and then the end of the string,
    or one newline and the end. *)
Fixpoint run_to_end (cls : ascii -> bool) (n : nat) (l : list ascii) : bool :=
  match n, l with
  | O, [] => true
  | O, [x] => Ascii.eqb x Re.newline
  | O, _ => false
  | S n', x :: l' => cls x && run_to_end cls n' l'
  | S _, [] => false
  end.

(** [#] and exactly three or exactly six hexadecimal digits. *)
Definition hex_color_shape (s : string) : bool :=
  match list_ascii_of_string s with
  | h :: digits =>
      Ascii.eqb h "#" && (run_to_end is_hex_digit 3 digits || run_to_end is_hex_digit 6 digits)
  | [] => false
  end.

(** Exactly four decimal digits. *)
Definition passcode_shape (s : string) : bool :=
  run_to_end is_digit 4 (list_ascii_of_string s).

(** Four digits, a slash, two digits, a slash, two digits. *)
Definition dob_shape (s : string) : bool :=
  match list_ascii_of_string s with
  | y1 :: y2 :: y3 :: y4 :: s1 :: m1 :: m2 :: s2 :: days =>
      is_digit y1 && is_digit y2 && is_digit y3 && is_digit y4
      && Ascii.eqb s1 "/" && is_digit m1 && is_digit m2
      && Ascii.eqb s2 "/" && run_to_end is_digit 2 days
  | _ => false
  end.

(** The three contract items of a configuration. *)
Definition contract_items (w : world) (l : loc) : list (option pyval) :=
  map (fun k => items_at (heap w) l !! k)
      ["contract_generate"; "contract_sign"; "contract_format"].

(** The configuration keys a setter of [CoreAPI] may write. *)
Definition core_keys (c : core_call) : list string :=
  match c with
  | Core_set_accuracy _ => ["accuracy"]
  | Core_enable_authentication _ _ => ["authenticate"; "authenticate_module"]
  | Core_set_ocr_image_resize _ => ["ocr_scaledown"]
  | Core_set_biometric_threshold _ => ["biometric_threshold"]
  | Core_enable_image_output _ _ _ => ["outputimage"; "outputface"; "outputmode"]
  | Core_enable_aml_check _ => ["aml_check"]
  | Core_set_aml_database _ => ["aml_database"]
  | Core_enable_aml_strict_match _ => ["aml_strict_match"]
  | Core_enable_dualside_check _ => ["dualsidecheck"]
  | Core_verify_expiry _ => ["verify_expiry"]
  | Core_verify_document_number _ => ["verify_documentno"]
  | Core_verify_name _ => ["verify_name"]
  | Core_verify_dob _ => ["verify_dob"]
  | Core_verify_age _ => ["verify_age"]
  | Core_verify_address _ => ["verify_address"]
  | Core_verify_postcode _ => ["verify_postcode"]
  | Core_restrict_country _ => ["country"]
  | Core_restrict_state _ => ["region"]
  | Core_restrict_type _ => ["type"]
  | Core_enable_barcode_mode _ => ["barcodemode"]
  | Core_enable_vault _ _ _ _ =>
      ["vault_save"; "vault_saveunrecognized"; "vault_noduplicate"; "vault_automerge"]
  | Core_set_vault_data _ _ _ _ _ =>
      ["vault_customdata1"; "vault_customdata2"; "vault_customdata3"; "vault_customdata4";
       "vault_customdata5"]
  | Core_generate_contract _ _ _ =>
      ["contract_generate"; "contract_format"; "contract_prefill_data"]
  | Core_set_parameter parameter_key _ => [parameter_key]
  end.

(** The configuration keys a setter of [DocuPass] may write. *)
Definition docu_keys (c : docu_call) : list string :=
  match c with
  | Docu_set_max_attempt _ => ["maxattempt"]
  | Docu_set_custom_id _ => ["customid"]
  | Docu_set_welcome_message _ => ["welcomemessage"]
  | Docu_set_logo _ => ["logo"]
  | Docu_hide_branding_logo _ => ["nobranding"]
  | Docu_set_custom_html_url _ => ["customhtmlurl"]
  | Docu_set_language _ => ["language"]
  | Docu_set_callback_url _ => ["callbackurl"]
  | Docu_set_redirection_url _ _ => ["successredir"; "failredir"]
  | Docu_enable_authentication _ _ _ => ["authenticate_minscore"; "authenticate_module"]
  | Docu_enable_face_verification _ _ _ => ["biometric"; "biometric_threshold"]
  | Docu_set_reusable _ => ["reusable"]
  | Docu_set_callback_image _ _ _ =>
      ["return_documentimage"; "return_faceimage"; "return_type"]
  | Docu_set_qrcode_format _ _ _ _ => ["qr_color"; "qr_bgcolor"; "qr_size"; "qr_margin"]
  | Docu_enable_dualside_check _ => ["dualsidecheck"]
  | Docu_enable_aml_check _ => ["aml_check"]
  | Docu_set_aml_database _ => ["aml_database"]
  | Docu_enable_aml_strict_match _ => ["aml_strict_match"]
  | Docu_enable_phone_verification _ => ["phoneverification"]
  | Docu_sms_verification_link _ => ["sms_verification_link"]
  | Docu_sms_contract_link _ => ["sms_contract_link"]
  | Docu_verify_phone _ => ["verify_phone"]
  | Docu_verify_expiry _ => ["verify_expiry"]
  | Docu_verify_document_number _ => ["verify_documentno"]
  | Docu_verify_name _ => ["verify_name"]
  | Docu_verify_dob _ => ["verify_dob"]
  | Docu_verify_age _ => ["verify_age"]
  | Docu_verify_address _ => ["verify_address"]
  | Docu_verify_postcode _ => ["verify_postcode"]
  | Docu_restrict_country _ => ["documentcountry"]
  | Docu_restrict_state _ => ["documentregion"]
  | Docu_restrict_type _ => ["documenttype"]
  | Docu_enable_vault _ => ["vault_save"]
  | Docu_set_parameter parameter_key _ => [parameter_key]
  | Docu_generate_contract _ _ _ =>
      ["contract_sign"; "contract_generate"; "contract_format"; "contract_prefill_data"]
  | Docu_sign_contract _ _ _ =>
      ["contract_generate"; "contract_sign"; "contract_format"; "contract_prefill_data"]
  end.
(** A computation that leaves the item [k] of the live dictionary at [l]
    alone, and the dictionary live. *)
Definition spares {A} (l : loc) (k : string) (c : M A) : Prop :=
  forall w,
    is_Some (heap w !! l) ->
    items_at (heap (snd (c w))) l !! k = items_at (heap w) l !! k
    /\ is_Some (heap (snd (c w)) !! l).

(** The one dictionary, if any, that exists before an action method is
    called and that the method writes into: the instance's configuration
    for [scan] and the [DocuPass] actions, the caller's [data] for
    [Vault.update]; the other methods build a payload of their own. *)
Definition written_dict (a : action) : option loc :=
  match a with
  | CoreAPI_scan self _ => Some (CoreAPI.config self)
  | DocuPass_create_signature self _ _ _
  | DocuPass_create_iframe self
  | DocuPass_create_mobile self
  | DocuPass_create_redirection self
  | DocuPass_create_live_mobile self => Some (DocuPass.config self)
  | Vault_update _ _ (PDict d) => Some d
  | _ => None
  end.

(** The keys [scan] writes into the configuration. *)
Definition scan_keys : list string :=
  ["apikey"; "url"; "file_base64"; "url_back"; "file_back_base64";
   "faceurl"; "face_base64"; "videourl"; "video_base64"; "passcode"].

(** A scan of a document file with a selfie video and no passcode. *)
Definition scan_video_options : gmap string pyval :=
  <["biometric_video" := PStr "sampleid.jpg"]> scan_file_options.

(** The number of decimal digits a text starts with, and what follows
    them. *)
Fixpoint leading_digits (l : list ascii) : nat :=
  match l with
  | x :: l' => if is_digit x then S (leading_digits l') else 0
  | [] => 0
  end.

Fixpoint after_digits (l : list ascii) : list ascii :=
  match l with
  | x :: l' => if is_digit x then after_digits l' else l
  | [] => []
  end.

(** The end of the subject, or one newline before it. *)
Definition at_end (l : list ascii) : bool :=
  match l with
  | [] => true
  | [x] => Ascii.eqb x Re.newline
  | _ => false
  end.

(** One or more digits, a hyphen, one or more digits. *)
Definition age_shape (s : string) : bool :=
  let l := list_ascii_of_string s in
  (1 <=? leading_digits l)%nat
  && match after_digits l with
     | x :: r =>
         Ascii.eqb x "-" && (1 <=? leading_digits r)%nat && at_end (after_digits r)
     | [] => false
     end.

(** * Properties *)

(** ** The monad: one step of evaluation *)

Lemma bind_ret {A B} (a : A) (k : A -> M B) w : bind (ret a) k w = k a w.
Proof. reflexivity. Qed.

Lemma bind_raise {A B} (e : exn) (k : A -> M B) w : bind (raise e) k w = (Raise e, w).
Proof. reflexivity. Qed.

Lemma bind_assoc {A B C} (c : M A) (f : A -> M B) (k : B -> M C) w :
  bind (bind c f) k w = bind c (fun x => bind (f x) k) w.
Proof. unfold bind. destruct (c w) as [[a | e] w1]; reflexivity. Qed.

Lemma bind_setitem {B} l key v (k : unit -> M B) w :
  bind (setitem l key v) k w = k tt (stored w l key v).
Proof. reflexivity. Qed.

Lemma bind_is_truthy {B} v (k : bool -> M B) w :
  bind (is_truthy v) k w = k (truthy (heap w) v) w.
Proof. reflexivity. Qed.

Lemma bind_as_str {B} s (k : string -> M B) w : bind (as_str (PStr s)) k w = k s w.
Proof. reflexivity. Qed.

Lemma bind_raise_if {B} c e (k : unit -> M B) w :
  bind (raise_if c e) k w = if c then (Raise e, w) else k tt w.
Proof. destruct c; reflexivity. Qed.

Lemma bind_read_dict {B} l (k : gmap string pyval -> M B) w :
  bind (read_dict l) k w = k (items_at (heap w) l) w.
Proof. reflexivity. Qed.

Lemma bind_new_dict {B} d (k : loc -> M B) w :
  bind (new_dict d) k w
  = k (fresh (dom (heap w)))
      {| heap := <[fresh (dom (heap w)) := d]> (heap w); log := log w |}.
Proof. reflexivity. Qed.

Lemma bind_len_dict {B} d (k : nat -> M B) w :
  bind (len (PDict d)) k w = k (size (items_at (heap w) d)) w.
Proof. reflexivity. Qed.

Lemma bind_if_setitem {B} (b : bool) l k v1 v2 (f : unit -> M B) w :
  bind (if b then setitem l k v1 else setitem l k v2) f w
  = f tt (stored w l k (if b then v1 else v2)).
Proof. destruct b; reflexivity. Qed.

(** ** The heap *)

Lemma items_at_insert_eq (h : gmap loc (gmap string pyval)) l d :
  items_at (<[l := d]> h) l = d.
Proof. unfold items_at. rewrite lookup_insert_eq. reflexivity. Qed.

Lemma items_at_insert_ne (h : gmap loc (gmap string pyval)) l l' d :
  l <> l' -> items_at (<[l := d]> h) l' = items_at h l'.
Proof. intros Hne. unfold items_at. rewrite lookup_insert_ne by assumption. reflexivity. Qed.

(** After [d[k] = v], the dictionary at [l] has [v] under [k] and is
    otherwise as before. *)
Lemma items_at_stored w l k v :
  items_at (heap (stored w l k v)) l = <[k := v]> (items_at (heap w) l).
Proof. apply items_at_insert_eq. Qed.

Lemma log_stored w l k v : log (stored w l k v) = log w.
Proof. reflexivity. Qed.

Lemma fresh_not_live (h : gmap loc (gmap string pyval)) l :
  is_Some (h !! l) -> fresh (dom h) <> l.
Proof.
  intros Hl Heq. apply elem_of_dom in Hl. rewrite <- Heq in Hl.
  exact (is_fresh (dom h) Hl).
Qed.

Lemma size_insert_nonzero (d : gmap string pyval) k v : Nat.eqb (size (<[k := v]> d)) 0 = false.
Proof.
  apply Nat.eqb_neq. intros H. apply map_size_empty_inv in H.
  apply (insert_non_empty d k v). assumption.
Qed.

Lemma eqb_empty_false s : s <> "" -> String.eqb s "" = false.
Proof. intros H. apply String.eqb_neq. assumption. Qed.

Lemma truthy_nonempty h s : s <> "" -> truthy h (PStr s) = true.
Proof. intros H. simpl. rewrite (eqb_empty_false _ H). reflexivity. Qed.

Lemma truthy_stored w l k v x :
  x <> PDict l -> truthy (heap (stored w l k v)) x = truthy (heap w) x.
Proof.
  intros Hne. destruct x; try reflexivity. simpl.
  rewrite items_at_insert_ne; [ reflexivity | congruence ].
Qed.

Lemma truthy_alloc (h : gmap loc (gmap string pyval)) d x :
  live h x -> truthy (<[fresh (dom h) := d]> h) x = truthy h x.
Proof.
  intros Hlive. destruct x; try reflexivity. simpl in *.
  rewrite items_at_insert_ne; [ reflexivity | ].
  apply fresh_not_live. assumption.
Qed.

Lemma live_kwarg h (options : gmap string pyval) :
  Forall (fun kv => live h (snd kv)) (map_to_list options) ->
  forall k, live h (kwarg options k).
Proof.
  intros Hall k. unfold kwarg.
  destruct (options !! k) as [v | ] eqn:Hk; [ | exact I ].
  apply elem_of_map_to_list in Hk.
  rewrite Forall_forall in Hall. exact (Hall (k, v) Hk).
Qed.

(** A log that grew by a request did not stay the same. *)
Lemma log_grew_neq (l : list event) ev rest : l = (l ++ ev :: rest)%list -> False.
Proof.
  intros H. apply (f_equal (@List.length event)) in H.
  rewrite List.length_app in H. simpl in H. lia.
Qed.

(** ** Computations that send nothing *)

Lemma silent_ret {A} (a : A) : silent (ret a).
Proof. intros w. reflexivity. Qed.

Lemma silent_raise {A} e : silent (@raise A e).
Proof. intros w. reflexivity. Qed.

Lemma silent_bind {A B} (c : M A) (k : A -> M B) :
  silent c -> (forall a, silent (k a)) -> silent (bind c k).
Proof.
  intros Hc Hk w. specialize (Hc w). unfold bind.
  destruct (c w) as [[a | e] w1]; simpl in *; [ | assumption ].
  rewrite Hk. assumption.
Qed.

Lemma silent_setitem l k v : silent (setitem l k v).
Proof. intros w. reflexivity. Qed.

Lemma silent_new_dict d : silent (new_dict d).
Proof. intros w. reflexivity. Qed.

Lemma silent_read_dict l : silent (read_dict l).
Proof. intros w. reflexivity. Qed.

Lemma silent_is_truthy v : silent (is_truthy v).
Proof. intros w. reflexivity. Qed.

Lemma silent_as_str v : silent (as_str v).
Proof. intros w. destruct v; reflexivity. Qed.

Lemma silent_num v : silent (num v).
Proof. intros w. unfold num. destruct (as_number v); reflexivity. Qed.

Lemma silent_len v : silent (len v).
Proof. intros w. destruct v; reflexivity. Qed.

Lemma silent_raise_if c e : silent (raise_if c e).
Proof. intros w. destruct c; reflexivity. Qed.

(** Goes through the structure of a method body. *)
Ltac silent_tac :=
  repeat
    match goal with
    | |- silent (bind _ _) => apply silent_bind; [ | intros ? ]
    | |- silent (ret _) => apply silent_ret
    | |- silent (raise _) => apply silent_raise
    | |- silent (setitem _ _ _) => apply silent_setitem
    | |- silent (new_dict _) => apply silent_new_dict
    | |- silent (read_dict _) => apply silent_read_dict
    | |- silent (is_truthy _) => apply silent_is_truthy
    | |- silent (as_str _) => apply silent_as_str
    | |- silent (num _) => apply silent_num
    | |- silent (len _) => apply silent_len
    | |- silent (raise_if _ _) => apply silent_raise_if
    | |- silent (if ?b then _ else _) => destruct b
    | |- silent (match ?v with _ => _ end) => destruct v
    end.

(** ** Computations that change nothing, and computations that never raise *)

Lemma pure_ret {A} (a : A) : pure (ret a).
Proof. intros w. reflexivity. Qed.

Lemma pure_raise {A} e : pure (@raise A e).
Proof. intros w. reflexivity. Qed.

Lemma pure_is_truthy v : pure (is_truthy v).
Proof. intros w. reflexivity. Qed.

Lemma pure_as_str v : pure (as_str v).
Proof. intros w. destruct v; reflexivity. Qed.

Lemma pure_num v : pure (num v).
Proof. intros w. unfold num. destruct (as_number v); reflexivity. Qed.

Lemma pure_raise_if c e : pure (raise_if c e).
Proof. intros w. destruct c; reflexivity. Qed.

Lemma pure_bind {A B} (c : M A) (k : A -> M B) :
  pure c -> (forall a, pure (k a)) -> pure (bind c k).
Proof.
  intros Hc Hk w. specialize (Hc w). unfold bind.
  destruct (c w) as [[a | e] w1]; simpl in *; subst; [ apply Hk | reflexivity ].
Qed.

Ltac pure_tac :=
  repeat
    match goal with
    | |- pure (bind _ _) => apply pure_bind; [ | intros ? ]
    | |- pure (ret _) => apply pure_ret
    | |- pure (raise _) => apply pure_raise
    | |- pure (is_truthy _) => apply pure_is_truthy
    | |- pure (as_str _) => apply pure_as_str
    | |- pure (num _) => apply pure_num
    | |- pure (raise_if _ _) => apply pure_raise_if
    | |- pure (if ?b then _ else _) => destruct b
    end.

Lemma total_ret {A} (a : A) : total (ret a).
Proof. intros w. eexists. reflexivity. Qed.

Lemma total_setitem l k v : total (setitem l k v).
Proof. intros w. eexists. reflexivity. Qed.

Lemma total_bind {A B} (c : M A) (k : A -> M B) :
  total c -> (forall a, total (k a)) -> total (bind c k).
Proof.
  intros Hc Hk w. destruct (Hc w) as [a Ha]. unfold bind.
  destruct (c w) as [[a' | e] w1]; simpl in *; [ apply Hk | discriminate ].
Qed.

Ltac total_tac :=
  repeat
    match goal with
    | |- total (bind _ _) => apply total_bind; [ | intros ? ]
    | |- total (ret _) => apply total_ret
    | |- total (setitem _ _ _) => apply total_setitem
    | |- total (if ?b then _ else _) => destruct b
    end.

(** ** Computations that leave the heap alone *)

Lemma frames_ret {A} (a : A) : frames (ret a).
Proof. intros w. reflexivity. Qed.

Lemma frames_raise {A} e : frames (@raise A e).
Proof. intros w. reflexivity. Qed.

Lemma frames_bind {A B} (c : M A) (k : A -> M B) :
  frames c -> (forall a, frames (k a)) -> frames (bind c k).
Proof.
  intros Hc Hk w. specialize (Hc w). unfold bind.
  destruct (c w) as [[a | e] w1]; simpl in *; [ | assumption ].
  rewrite Hk. assumption.
Qed.

Lemma frames_requests_post E url payload : frames (requests_post E url payload).
Proof.
  intros w. unfold requests_post, bind, read_dict, emit. simpl.
  destruct (server E _); reflexivity.
Qed.

Lemma frames_raise_for_status r : frames (raise_for_status r).
Proof. intros w. unfold raise_for_status. destruct (_ && _); reflexivity. Qed.

Lemma frames_response_json r : frames (response_json r).
Proof.
  intros w. unfold response_json, bind, emit. simpl. destruct (body r); reflexivity.
Qed.

Lemma frames_json_get j k : frames (json_get j k).
Proof. intros w. destruct j; reflexivity. Qed.

Lemma frames_is_truthy v : frames (is_truthy v).
Proof. intros w. reflexivity. Qed.

Lemma frames_as_str v : frames (as_str v).
Proof. intros w. destruct v; reflexivity. Qed.

Lemma frames_num v : frames (num v).
Proof. intros w. unfold num. destruct (as_number v); reflexivity. Qed.

Lemma frames_len v : frames (len v).
Proof. intros w. destruct v; reflexivity. Qed.

Lemma frames_read_dict l : frames (read_dict l).
Proof. intros w. reflexivity. Qed.

Lemma frames_raise_if c e : frames (raise_if c e).
Proof. intros w. destruct c; reflexivity. Qed.

Ltac frames_tac :=
  repeat
    match goal with
    | |- frames (bind _ _) => apply frames_bind; [ | intros ? ]
    | |- frames (ret _) => apply frames_ret
    | |- frames (raise _) => apply frames_raise
    | |- frames (requests_post _ _ _) => apply frames_requests_post
    | |- frames (raise_for_status _) => apply frames_raise_for_status
    | |- frames (response_json _) => apply frames_response_json
    | |- frames (json_get _ _) => apply frames_json_get
    | |- frames (is_truthy _) => apply frames_is_truthy
    | |- frames (as_str _) => apply frames_as_str
    | |- frames (num _) => apply frames_num
    | |- frames (len _) => apply frames_len
    | |- frames (read_dict _) => apply frames_read_dict
    | |- frames (raise_if _ _) => apply frames_raise_if
    | |- frames (if ?b then _ else _) => destruct b
    end.

(** ** Items a computation leaves alone *)

Lemma keeps_frames {A} l k (c : M A) : frames c -> keeps l k c.
Proof. intros Hc w. rewrite Hc. reflexivity. Qed.

Lemma keeps_bind {A B} l key (c : M A) (k : A -> M B) :
  keeps l key c -> (forall a, keeps l key (k a)) -> keeps l key (bind c k).
Proof.
  intros Hc Hk w. specialize (Hc w). unfold bind.
  destruct (c w) as [[a | e] w1]; simpl in *; [ | assumption ].
  rewrite Hk. assumption.
Qed.

Lemma keeps_setitem l key l' key' v : key <> key' -> keeps l key (setitem l' key' v).
Proof.
  intros Hne w. simpl. destruct (decide (l' = l)) as [-> | Hl].
  - rewrite items_at_insert_eq. apply lookup_insert_ne. congruence.
  - rewrite items_at_insert_ne by assumption. reflexivity.
Qed.

Ltac keeps_tac :=
  repeat
    match goal with
    | |- keeps _ _ (bind _ _) => apply keeps_bind; [ | intros ? ]
    | |- keeps _ _ (setitem _ _ _) => apply keeps_setitem; discriminate
    | |- keeps _ _ (if ?b then _ else _) => destruct b
    | |- keeps _ _ _ => apply keeps_frames; solve [ frames_tac ]
    end.

(** ** No primitive removes a key *)






Ltac head_of t :=
  lazymatch t with
  | ?f _ => head_of f
  | _ => t
  end.

(** Opens the method a call stands for. *)
Ltac unfold_method :=
  match goal with
  | |- _ _ ?t => let h := head_of t in unfold h
  end.

(** ** Every action method follows the transport contract *)

Lemma transported_raise E strict e : transported E strict (raise e).
Proof. intros w. left. simpl. eauto. Qed.

Lemma transported_bind {A} E strict (c : M A) (k : A -> M json) :
  silent c -> (forall a, transported E strict (k a)) -> transported E strict (bind c k).
Proof.
  intros Hc Hk w. specialize (Hc w). unfold bind.
  destruct (c w) as [[a | e] w1]; simpl in *.
  - rewrite <- Hc. apply Hk.
  - left. eauto.
Qed.

(** The six statements every action method ends with: the request
    carries the payload as it is at that moment, the outcome is the one
    [answer] describes, and no dictionary changes. *)
Lemma tail_spec E strict url payload w :
  let tail :=
    (r <- requests_post E url payload;
     raise_for_status r;;
     result <- response_json r;
     if negb strict
     then ret result
     else
       err <- json_get result "error";
       if json_truthy err
       then raise (APIError err)
       else ret result) in
  let req := Request url (items_at (heap w) payload) in
  log (snd (tail w)) = (log w ++ EvPost req :: after_post (server E req))%list
  /\ fst (tail w) = answer strict (server E req)
  /\ heap (snd (tail w)) = heap w.
Proof.
  unfold requests_post, raise_for_status, response_json, bind, read_dict, emit, answer,
    after_post; simpl.
  destruct (server E _) as [ | r ]; simpl; [ auto | ].
  destruct ((400 <=? status_code r)%Z && (status_code r <? 600)%Z); simpl; [ auto | ].
  rewrite <- app_assoc. simpl.
  destruct (body r) as [ j | ]; simpl; [ | auto ].
  destruct strict; simpl; [ | auto ].
  destruct j; simpl; auto.
  destruct (json_truthy _); simpl; auto.
Qed.

Lemma transported_tail E strict url payload :
  transported E strict
    (r <- requests_post E url payload;
     raise_for_status r;;
     result <- response_json r;
     if negb strict
     then ret result
     else
       err <- json_get result "error";
       if json_truthy err
       then raise (APIError err)
       else ret result).
Proof.
  intros w. right. exists (Request url (items_at (heap w) payload)).
  destruct (tail_spec E strict url payload w) as (Hlog & Hres & _). auto.
Qed.

Ltac transported_tac :=
  cbv zeta;
  repeat
    match goal with
    | |- transported _ _ (bind (requests_post _ _ _) _) => apply transported_tail
    | |- transported _ _ (bind _ _) =>
        apply transported_bind; [ solve [ silent_tac ] | intros ? ]
    | |- transported _ _ (raise _) => apply transported_raise
    | |- transported _ _ (match ?v with _ => _ end) => destruct v
    end.

Lemma transported_scan E self options :
  transported E (CoreAPI.throw_error self) (CoreAPI.scan E self options).
Proof. unfold CoreAPI.scan. transported_tac. Qed.

Lemma transported_create_signature E self t f p :
  transported E (DocuPass.throw_error self) (DocuPass.create_signature E self t f p).
Proof. unfold DocuPass.create_signature. transported_tac. Qed.

Lemma transported_create E self n :
  transported E (DocuPass.throw_error self) (DocuPass.create E self n).
Proof. unfold DocuPass.create. transported_tac. Qed.

Lemma transported_vault_api E self action payload :
  transported E (Vault.throw_error self) (Vault.api E self action payload).
Proof. unfold Vault.api. transported_tac. Qed.

Lemma transported_aml_api E self payload :
  transported E (AMLAPI.throw_error self) (AMLAPI.api E self payload).
Proof. unfold AMLAPI.api. transported_tac. Qed.

Ltac transported_api_tac :=
  cbv zeta;
  repeat
    match goal with
    | |- transported _ _ (Vault.api _ _ _ _) => apply transported_vault_api
    | |- transported _ _ (AMLAPI.api _ _ _) => apply transported_aml_api
    | |- transported _ _ (bind _ _) =>
        apply transported_bind; [ solve [ silent_tac ] | intros ? ]
    | |- transported _ _ (raise _) => apply transported_raise
    | |- transported _ _ (match ?v with _ => _ end) => destruct v
    end.

Lemma transported_perform E a : transported E (strict a) (perform E a).
Proof.
  destruct a; simpl.
  - apply transported_scan.
  - apply transported_create_signature.
  - apply transported_create.
  - apply transported_create.
  - apply transported_create.
  - apply transported_create.
  - unfold Vault.get. transported_api_tac.
  - unfold Vault.list. transported_api_tac.
  - unfold Vault.update. transported_api_tac.
  - unfold Vault.delete. transported_api_tac.
  - unfold Vault.add_image. transported_api_tac.
  - unfold Vault.delete_image. transported_api_tac.
  - unfold Vault.search_face. transported_api_tac.
  - apply transported_vault_api.
  - apply transported_vault_api.
  - unfold AMLAPI.search_by_name. transported_api_tac.
  - unfold AMLAPI.search_by_id_number. transported_api_tac.
Qed.

(** The request an action sent is the one its outcome answers. *)
Lemma posted_answer E a w req rest :
  posted (perform E a) w req rest ->
  fst (perform E a w) = answer (strict a) (server E req)
  /\ rest = after_post (server E req).
Proof.
  unfold posted. intros Hlog.
  destruct (transported_perform E a w) as [[Hsame _] | (req' & Hsent & Hres)].
  - rewrite Hsame in Hlog. destruct (log_grew_neq _ _ _ Hlog).
  - rewrite Hsent in Hlog. apply app_inv_head in Hlog.
    injection Hlog as -> <-. auto.
Qed.

(** ** Remote API errors: strict and silent mode *)



(** The same response in silent mode comes back as it is. *)
Example silent_mode_returns_error_body :
  fst (Vault.train_face (constant_env 200 error_body) silent_vault module_loaded)
  = Ok error_body.
Proof. vm_compute. reflexivity. Qed.

(** ** Transport errors *)

Lemma validate_sends E self reference hash w :
  exists req,
    log (snd (DocuPass.validate E self reference hash w))
    = (log w ++ EvPost req :: after_post (server E req))%list
    /\ (server E req = PostRaises ->
        fst (DocuPass.validate E self reference hash w) = Raise ConnectionError)
    /\ (forall resp, server E req = PostReturns resp ->
        (400 <= status_code resp < 600)%Z ->
        fst (DocuPass.validate E self reference hash w) = Raise (HTTPError (status_code resp))).
Proof.
  unfold DocuPass.validate. rewrite bind_new_dict.
  match goal with |- context [ requests_post E ?u ?l ] =>
    match goal with |- context [ bind _ _ ?w1 ] =>
      exists (Request u (items_at (heap w1) l)) end end.
  unfold requests_post, raise_for_status, response_json, json_get, bind, read_dict, emit,
    after_post, ret, raise.
  cbn [fst snd log heap].
  destruct (server E _) as [ | r ]; cbn [fst snd log heap].
  - split; [ reflexivity | split; [ reflexivity | discriminate ] ].
  - destruct ((400 <=? status_code r)%Z && (status_code r <? 600)%Z) eqn:Hs;
      cbn [fst snd log heap].
    + split; [ reflexivity | split; [ discriminate | ] ].
      intros resp [= <-] _. reflexivity.
    + split.
      { rewrite <- app_assoc.
        destruct (body r) as [ j | ]; cbn [fst snd log heap]; [ | reflexivity ].
        destruct j; reflexivity. }
      split; [ discriminate | ].
      intros resp [= <-] Hr. apply andb_false_iff in Hs. lia.
Qed.




(** ** Setters: validation and assignment *)

Lemma unchanged_total l (c : M unit) : total c -> unchanged_on_raise l c.
Proof. intros Hc w e _ He. destruct (Hc w) as [a Ha]. congruence. Qed.

Lemma unchanged_pure l (c : M unit) : pure c -> unchanged_on_raise l c.
Proof. intros Hc w e _ _. rewrite Hc. reflexivity. Qed.

Lemma unchanged_bind_pure {A} l (c : M A) (k : A -> M unit) :
  pure c -> (forall a, unchanged_on_raise l (k a)) -> unchanged_on_raise l (bind c k).
Proof.
  intros Hc Hk w e Hl. specialize (Hc w). unfold bind.
  destruct (c w) as [[a | e'] w1]; simpl in *; subst.
  - apply Hk. assumption.
  - reflexivity.
Qed.

Lemma unchanged_bind_new_dict l d (k : loc -> M unit) :
  (forall a, unchanged_on_raise l (k a)) -> unchanged_on_raise l (bind (new_dict d) k).
Proof.
  intros Hk w e Hl. rewrite bind_new_dict. intros He.
  pose proof (fresh_not_live _ _ Hl) as Hne.
  rewrite (Hk _ _ e); simpl.
  - apply items_at_insert_ne. assumption.
  - rewrite lookup_insert_ne by assumption. assumption.
  - assumption.
Qed.

Lemma unchanged_assoc {A B} l (c : M A) (f : A -> M B) (k : B -> M unit) :
  unchanged_on_raise l (bind c (fun x => bind (f x) k)) ->
  unchanged_on_raise l (bind (bind c f) k).
Proof.
  intros H w e Hl. specialize (H w e Hl). unfold bind in *.
  destruct (c w) as [[a | e'] w1]; simpl in *; exact H.
Qed.

Ltac unchanged_tac :=
  repeat
    match goal with
    | |- unchanged_on_raise _ (setitem _ _ _) => apply unchanged_total; total_tac
    | |- unchanged_on_raise _ (bind (setitem _ _ _) _) => apply unchanged_total; total_tac
    | |- unchanged_on_raise _ (raise _) => apply unchanged_pure; pure_tac
    | |- unchanged_on_raise _ (bind (match ?v with _ => _ end) _) => destruct v
    | |- unchanged_on_raise _ (bind (bind _ _) _) => apply unchanged_assoc
    | |- unchanged_on_raise _ (bind (new_dict _) _) =>
        apply unchanged_bind_new_dict; intros ?
    | |- unchanged_on_raise _ (bind _ _) =>
        apply unchanged_bind_pure; [ solve [ pure_tac ] | intros ? ]
    | |- unchanged_on_raise _ (if ?b then _ else _) => destruct b
    end.

(** Every other setter of [CoreAPI] validates before it assigns. *)
Lemma core_setters_validate_first self c :
  match c with
  | Core_enable_authentication _ _ => True
  | _ => unchanged_on_raise (CoreAPI.config self) (core_setter self c)
  end.
Proof.
  destruct c; simpl; try exact I;
    unfold_method;
    unchanged_tac.
Qed.

(** Every setter of [DocuPass] validates before it assigns, its
    [enable_authentication] included. *)
Lemma docu_setters_validate_first self c :
  unchanged_on_raise (DocuPass.config self) (docu_setter self c).
Proof.
  destruct c; simpl;
    unfold_method;
    unchanged_tac.
Qed.

(** C2.  [CoreAPI.enable_authentication] assigns ['authenticate'] before
    it validates [module]: on the instance [CoreAPI("key", "US")], the call
    [enable_authentication(True, 3)] raises [ValueError] and leaves
    [config['authenticate']] changed from [False] to [True]. *)
Theorem core_enable_authentication_assigns_before_validating :
  fst (CoreAPI.init "key" "US" module_loaded) = Ok core_us
  /\ items_at (heap module_loaded) (CoreAPI.config core_us) !! "authenticate"
     = Some (PBool false)
  /\ fst (CoreAPI.enable_authentication core_us (PBool true) (PInt 3) module_loaded)
     = Raise (ValueError "Invalid authentication module, 1, 2 or 'quick' accepted.")
  /\ items_at (heap (snd (CoreAPI.enable_authentication core_us (PBool true) (PInt 3)
                            module_loaded)))
              (CoreAPI.config core_us) !! "authenticate"
     = Some (PBool true).
Proof. vm_compute. repeat split; reflexivity. Qed.

(** The same for every instance, every world and every module that is
    none of [1], [2], ['quick']. *)
Lemma core_enable_authentication_writes_then_raises self module w :
  eq_int module 1 = false ->
  eq_int module 2 = false ->
  eq_str module "quick" = false ->
  CoreAPI.enable_authentication self (PBool true) module w
  = (Raise (ValueError "Invalid authentication module, 1, 2 or 'quick' accepted."),
     stored w (CoreAPI.config self) "authenticate" (PBool true)).
Proof.
  intros H1 H2 H3. unfold CoreAPI.enable_authentication.
  rewrite bind_setitem, bind_is_truthy, H1, H2, H3. reflexivity.
Qed.

(** The same call on a [DocuPass] instance raises and changes nothing. *)
Example docu_enable_authentication_is_atomic :
  fst (DocuPass.enable_authentication docupass_us (PBool true) (PInt 3) (PFloat (3 # 10))
         module_loaded)
  = Raise (ValueError "Invalid authentication module, 1, 2 or 'quick' accepted.")
  /\ snd (DocuPass.enable_authentication docupass_us (PBool true) (PInt 3) (PFloat (3 # 10))
            module_loaded)
     = module_loaded.
Proof. split; reflexivity. Qed.

(** ** [reset_config] *)

(** On an instance made by [__init__], [reset_config] changes nothing at
    all: [config] already is [DEFAULT_CONFIG]. *)
Lemma core_reset_config_is_identity k r w self :
  fst (CoreAPI.init k r w) = Ok self -> CoreAPI.reset_config self = self.
Proof.
  unfold CoreAPI.init. rewrite !bind_raise_if.
  destruct (String.eqb k ""); [ discriminate | ].
  destruct (String.eqb r ""); [ discriminate | ].
  simpl. intros [= <-]. reflexivity.
Qed.

Lemma docu_reset_config_is_identity k c r w self :
  fst (DocuPass.init k c r w) = Ok self -> DocuPass.reset_config self = self.
Proof.
  unfold DocuPass.init. rewrite !bind_raise_if.
  destruct (String.eqb k ""); [ discriminate | ].
  destruct (String.eqb c ""); [ discriminate | ].
  destruct (String.eqb r ""); [ discriminate | ].
  simpl. intros [= <-]. reflexivity.
Qed.

(** C4.  After [c = CoreAPI("key", "US"); c.set_accuracy(0);
    c.reset_config()] the configuration still has [accuracy = 0], not the
    documented default [2]; and a [DocuPass] instance keeps, after
    [reset_config], the company name its constructor wrote over the default
    [""]. *)
Theorem reset_config_does_not_restore_defaults :
  CoreAPI.default_items !! "accuracy" = Some (PInt 2)
  /\ items_at (heap (snd (CoreAPI.set_accuracy core_us (PInt 0) module_loaded)))
              (CoreAPI.config (CoreAPI.reset_config core_us)) !! "accuracy"
     = Some (PInt 0)
  /\ DocuPass.default_items !! "companyname" = Some (PStr "")
  /\ fst (DocuPass.init "key" "ACME" "US" module_loaded) = Ok docupass_us
  /\ items_at (heap (snd (DocuPass.init "key" "ACME" "US" module_loaded)))
              (DocuPass.config (DocuPass.reset_config docupass_us)) !! "companyname"
     = Some (PStr "ACME").
Proof. vm_compute. repeat split; reflexivity. Qed.

(** ** Formats checked by regular expressions *)

(** C6.  [DocuPass.set_qrcode_format] called with its own documented
    defaults, [set_qrcode_format("000000", "FFFFFF", 5, 1)], raises
    [ValueError]: [is_hex_color] wants a leading [#]. *)
Theorem set_qrcode_format_rejects_its_defaults :
  forall self w,
    DocuPass.set_qrcode_format self (PStr "000000") (PStr "FFFFFF") (PInt 5) (PInt 1) w
    = (Raise (ValueError "Invalid foreground color HEX code"), w).
Proof. intros self w. reflexivity. Qed.

(** With the [#] the same colours are stored as given. *)
Example set_qrcode_format_with_hash :
  fst (DocuPass.set_qrcode_format docupass_us (PStr "#000000") (PStr "#FFFFFF") (PInt 5)
         (PInt 1) module_loaded)
  = Ok tt
  /\ items_at (heap (snd (DocuPass.set_qrcode_format docupass_us (PStr "#000000")
                            (PStr "#FFFFFF") (PInt 5) (PInt 1) module_loaded)))
              DocuPass.DEFAULT_CONFIG !! "qr_color"
     = Some (PStr "#000000").
Proof. vm_compute. split; reflexivity. Qed.

(** Every date of eight digits in the form YYYY/MM/DD matches. *)
Lemma dob_pattern_accepts y1 y2 y3 y4 m1 m2 d1 d2 :
  forallb (Re.in_class "" [("0", "9")]%char) [y1; y2; y3; y4; m1; m2; d1; d2] = true ->
  Re.search dob_pattern
    (string_of_list_ascii [y1; y2; y3; y4; "/"; m1; m2; "/"; d1; d2]%char) = true.
Proof.
  intros H. simpl in H.
  repeat (apply andb_prop in H; destruct H as [? H]).
  unfold Re.search, dob_pattern, Re.digit. cbn - [Re.in_class].
  repeat match goal with Hc : Re.in_class _ _ ?c = true |- _ => rewrite Hc; clear Hc end.
  reflexivity.
Qed.

(** Repetition of a character class over a run of characters of the
    class: any count between [lo] and the bound that the run allows. *)
Lemma rep_class_run singles ranges (ds : list ascii) :
  Forall (fun c => Re.in_class singles ranges c = true) ds ->
  forall lo n prev rest k,
    (lo <= List.length ds <= n)%nat ->
    (forall p, k p rest = true) ->
    Re.rep (Re.matches (Re.Class singles ranges)) lo n prev (ds ++ rest)%list k = true.
Proof.
  induction 1 as [ | d ds Hd Hds IH ]; intros lo n prev rest k [Hlo Hn] Hk.
  - simpl in Hlo. assert (lo = 0%nat) as -> by lia.
    destruct n as [ | n ]; simpl; [ apply Hk | ].
    rewrite Hk. apply orb_true_r.
  - destruct n as [ | n ]; simpl in Hn; [ lia | ].
    simpl. rewrite Hd. rewrite IH; [ reflexivity | simpl in Hlo; lia | assumption ].
Qed.

(** Every range of two non-empty runs of digits, [minAge-maxAge],
    matches. *)
Lemma age_pattern_accepts (a b : list ascii) :
  a <> [] -> b <> [] ->
  Forall (fun c => Re.in_class "" [("0", "9")]%char c = true) a ->
  Forall (fun c => Re.in_class "" [("0", "9")]%char c = true) b ->
  Re.search age_pattern (string_of_list_ascii (a ++ "-"%char :: b)) = true.
Proof.
  intros Ha Hb Hda Hdb.
  unfold Re.search. rewrite list_ascii_of_string_of_list_ascii.
  assert (Hmatch : Re.matches age_pattern None (a ++ "-"%char :: b)%list (fun _ _ => true)
                   = true).
  { unfold age_pattern, Re.digit.
    cbn [Re.matches].
    apply rep_class_run; [ assumption | | ].
    - destruct a; [ congruence | ]. rewrite List.length_app. simpl. lia.
    - intros p. cbn [Re.matches]. rewrite Ascii.eqb_refl.
      rewrite <- (app_nil_r b) at 2.
      apply rep_class_run; [ assumption | | reflexivity ].
      destruct b; [ congruence | ]. simpl. lia. }
  destruct a; [ congruence | ].
  cbn [Re.search_from app]. cbn [app] in Hmatch. rewrite Hmatch. reflexivity.
Qed.

(** A date or an age range in the documented format is stored as it is
    given. *)
Lemma core_verify_dob_stores self s w :
  s <> "" ->
  Re.search dob_pattern s = true ->
  CoreAPI.verify_dob self (PStr s) w
  = (Ok tt, stored w (CoreAPI.config self) "verify_dob" (PStr s)).
Proof.
  intros Hs Hm. unfold CoreAPI.verify_dob.
  rewrite bind_is_truthy, (truthy_nonempty _ _ Hs). cbv beta. cbn [negb].
  rewrite bind_as_str, Hm, bind_raise_if. reflexivity.
Qed.

Lemma core_verify_age_stores self s w :
  s <> "" ->
  Re.search age_pattern s = true ->
  CoreAPI.verify_age self (PStr s) w
  = (Ok tt, stored w (CoreAPI.config self) "verify_age" (PStr s)).
Proof.
  intros Hs Hm. unfold CoreAPI.verify_age.
  rewrite bind_is_truthy, (truthy_nonempty _ _ Hs). cbv beta. cbn [negb].
  rewrite bind_as_str, Hm, bind_raise_if. reflexivity.
Qed.

(** Inputs in another format are refused; a newline after the date is
    let through by [$]. *)
Example format_examples :
  fst (CoreAPI.verify_dob core_us (PStr "1990-01-01") module_loaded)
  = Raise (ValueError "Invalid birthday format (YYYY/MM/DD)")
  /\ fst (CoreAPI.verify_age core_us (PStr "18-") module_loaded)
     = Raise (ValueError "Invalid age range format (minAge-maxAge)")
  /\ Re.search age_pattern "18-120" = true
  /\ Re.search dob_pattern (String.append "1990/01/01" (String Re.newline "")) = true
  /\ is_hex_color "#FFF" = true
  /\ is_hex_color "#FFFF" = false
  /\ is_hex_color "FFFFFF" = false.
Proof. vm_compute. repeat split; reflexivity. Qed.

(** ** Constructors: API key and region *)









(** ** [Vault.__api] on a dictionary that has items *)

(** The payload handed to [__api] is not copied: the API key and the
    client tag are written into it, and it is what is sent. *)
Lemma vault_api_in_place E self action d w :
  Nat.eqb (size (items_at (heap w) d)) 0 = false ->
  let sent := <["client" := PStr client_library]>
                (<["apikey" := PStr (Vault.apikey self)]> (items_at (heap w) d)) in
  let req := Request (Vault.apiendpoint self ++ "vault/" ++ action) sent in
  items_at (heap (snd (Vault.api E self action (Some d) w))) d = sent
  /\ log (snd (Vault.api E self action (Some d) w))
     = (log w ++ EvPost req :: after_post (server E req))%list
  /\ fst (Vault.api E self action (Some d) w) = answer (Vault.throw_error self) (server E req).
Proof.
  intros Hsize sent req. unfold Vault.api.
  rewrite bind_assoc, bind_read_dict, Hsize, bind_ret, !bind_setitem.
  set (w2 := stored (stored w d "apikey" _) d "client" _).
  assert (Hitems : items_at (heap w2) d = sent).
  { unfold w2. rewrite !items_at_stored. reflexivity. }
  destruct (tail_spec E (Vault.throw_error self)
              (Vault.apiendpoint self ++ "vault/" ++ action) d w2)
    as (Hlog & Hres & Hheap).
  cbv zeta in Hlog, Hres, Hheap. rewrite Hitems in Hlog, Hres.
  rewrite Hheap. auto.
Qed.

(** ** [Vault.update] *)

(** C10.  [Vault.update] raises [ValueError], with nothing sent and the
    world untouched, when [vault_id] is empty, when [data] is no dictionary,
    or when the dictionary has no entry.  After a call that returns, the
    caller's dictionary has its old items and, in addition, ['id'] (the
    [vault_id]), ['apikey'] and ['client']: the payload sent is the caller's
    dictionary itself. *)
Theorem vault_update_writes_into_callers_dict :
  forall E self vault_id data w,
    (truthy (heap w) vault_id = false
     \/ (forall d, data <> PDict d)
     \/ (exists d, data = PDict d /\ size (items_at (heap w) d) < 1) ->
     exists msg, Vault.update E self vault_id data w = (Raise (ValueError msg), w))
    /\ (forall d result,
           data = PDict d ->
           fst (Vault.update E self vault_id data w) = Ok result ->
           items_at (heap (snd (Vault.update E self vault_id data w))) d
           = <["client" := PStr client_library]>
               (<["apikey" := PStr (Vault.apikey self)]>
                  (<["id" := vault_id]> (items_at (heap w) d)))).
Proof.
  intros E self vault_id data w. unfold Vault.update.
  rewrite bind_is_truthy, bind_raise_if.
  destruct (truthy (heap w) vault_id) eqn:Hid; simpl.
  2: { split; [ eauto | discriminate ]. }
  split.
  - intros [Hf | [Hnd | (d & -> & Hsize)]]; [ discriminate | | ].
    + destruct data; eauto. destruct (Hnd l). reflexivity.
    + rewrite bind_len_dict, bind_raise_if.
      replace (size (items_at (heap w) d) <? 1)%nat with true
        by (symmetry; apply Nat.ltb_lt; assumption).
      eauto.
  - intros d result ->. rewrite bind_len_dict, bind_raise_if.
    destruct (size (items_at (heap w) d) <? 1)%nat; [ discriminate | ].
    rewrite bind_setitem. intros _.
    destruct (vault_api_in_place E self "update" d (stored w d "id" vault_id)) as (-> & _).
    + rewrite items_at_stored. apply size_insert_nonzero.
    + rewrite items_at_stored. reflexivity.
Qed.

(** [vault.update("id1", data)] with [data = {"firstName": "John"}]. *)
Lemma vault_update_writes_into_callers_dict_witness :
  items_at (heap (snd (Vault.update quiet_env silent_vault (PStr "id1") (PDict callers_dict)
                         world_with_callers_dict)))
           callers_dict
  = <["client" := PStr client_library]>
      (<["apikey" := PStr "key"]>
         (<["id" := PStr "id1"]>
            (items_at (heap world_with_callers_dict) callers_dict))).
Proof.
  apply (proj2 (vault_update_writes_into_callers_dict quiet_env silent_vault (PStr "id1")
                  (PDict callers_dict) world_with_callers_dict)
           callers_dict (JObject []) eq_refl).
  vm_compute. reflexivity.
Defined.

(** ** [Vault.list] *)

(** C5, as the code has it.  A filter that is given (truthy) and is no
    list, or is a list of more than 5 statements, makes [Vault.list] raise
    [ValueError] with nothing sent.  In every other case one request goes to
    [vault/list]; its payload has the filter when one is given, each of
    [orderby], [sort], [limit] and [offset] as given when it is truthy and
    else the default ["createtime"], ["DESC"], [10], [0], and the API key
    and client tag; the values are passed on as they are. *)
Theorem vault_list_request :
  forall E self options w,
    (forall k, live (heap w) (kwarg options k)) ->
    (filter_rejected (heap w) options = true ->
     (exists msg, fst (Vault.list E self options w) = Raise (ValueError msg))
     /\ log (snd (Vault.list E self options w)) = log w)
    /\ (filter_rejected (heap w) options = false ->
        let req := Request (Vault.apiendpoint self ++ "vault/list")
                           (list_payload (heap w) (Vault.apikey self) options) in
        log (snd (Vault.list E self options w))
        = (log w ++ EvPost req :: after_post (server E req))%list
        /\ fst (Vault.list E self options w)
           = answer (Vault.throw_error self) (server E req)).
Proof.
  intros E self options w Hlive. unfold Vault.list, filter_rejected.
  rewrite bind_new_dict, bind_is_truthy. cbn [heap].
  rewrite truthy_alloc by apply Hlive.
  set (l := fresh (dom (heap w))).
  assert (Hne : forall k, kwarg options k <> PDict l).
  { intros k Heq. specialize (Hlive k). rewrite Heq in Hlive.
    exact (fresh_not_live _ _ Hlive eq_refl). }
  set (w1 := {| heap := <[l := ∅]> (heap w); log := log w |}).
  assert (Hw1 : forall x, x <> PDict l -> truthy (heap w1) x = truthy (heap w) x).
  { intros x Hx. destruct x; try reflexivity. simpl.
    rewrite items_at_insert_ne; [ reflexivity | congruence ]. }
  assert (Hitems1 : items_at (heap w1) l = ∅) by apply items_at_insert_eq.
  assert (Hgo : forall w2 d,
             log w2 = log w ->
             (forall x, x <> PDict l -> truthy (heap w2) x = truthy (heap w) x) ->
             items_at (heap w2) l = d ->
             let k := fun _ : unit =>
               (orderby <- is_truthy (kwarg options "orderby");
                (if orderby
                 then setitem l "orderby" (kwarg options "orderby")
                 else setitem l "orderby" (PStr "createtime"));;
                sort <- is_truthy (kwarg options "sort");
                (if sort
                 then setitem l "sort" (kwarg options "sort")
                 else setitem l "sort" (PStr "DESC"));;
                limit <- is_truthy (kwarg options "limit");
                (if limit
                 then setitem l "limit" (kwarg options "limit")
                 else setitem l "limit" (PInt 10));;
                offset <- is_truthy (kwarg options "offset");
                (if offset
                 then setitem l "offset" (kwarg options "offset")
                 else setitem l "offset" (PInt 0));;
                Vault.api E self "list" (Some l)) in
             let sent :=
               <["client" := PStr client_library]>
                 (<["apikey" := PStr (Vault.apikey self)]>
                    (<["offset" := option_or (heap w) options "offset" (PInt 0)]>
                       (<["limit" := option_or (heap w) options "limit" (PInt 10)]>
                          (<["sort" := option_or (heap w) options "sort" (PStr "DESC")]>
                             (<["orderby" := option_or (heap w) options "orderby"
                                               (PStr "createtime")]> d))))) in
             let req := Request (Vault.apiendpoint self ++ "vault/list") sent in
             log (snd (k tt w2)) = (log w ++ EvPost req :: after_post (server E req))%list
             /\ fst (k tt w2) = answer (Vault.throw_error self) (server E req)).
  { intros w2 d Hlog Htr Hd. cbv zeta. unfold option_or.
    rewrite bind_is_truthy, bind_if_setitem, Htr by apply Hne.
    rewrite bind_is_truthy, bind_if_setitem, truthy_stored, Htr by apply Hne.
    rewrite bind_is_truthy, bind_if_setitem, !truthy_stored, Htr by apply Hne.
    rewrite bind_is_truthy, bind_if_setitem, !truthy_stored, Htr by apply Hne.
    match goal with |- context [ Vault.api E self "list" (Some l) ?w3 ] =>
      destruct (vault_api_in_place E self "list" l w3) as (_ & Hlog3 & Hres3);
        [ rewrite items_at_stored; apply size_insert_nonzero | ]
    end.
    rewrite !items_at_stored, Hd in Hlog3, Hres3.
    rewrite !log_stored, Hlog in Hlog3. auto. }
  destruct (truthy (heap w) (kwarg options "filter")) eqn:Hf; simpl.
  - destruct (kwarg options "filter") as [ | | | | | | statements | ] eqn:Hfilter;
      try (split; [ intros _; rewrite !bind_assoc, bind_raise; simpl; eauto
                  | discriminate ]).
    rewrite !bind_assoc, bind_raise_if.
    destruct (5 <? List.length statements)%nat; simpl.
    + split; [ eauto | discriminate ].
    + split; [ discriminate | intros _ ].
      rewrite bind_setitem.
      unfold list_payload. rewrite Hfilter, Hf.
      apply Hgo.
      * reflexivity.
      * intros x Hx. rewrite truthy_stored by assumption. apply Hw1. assumption.
      * rewrite items_at_stored, Hitems1. reflexivity.
  - split; [ discriminate | intros _ ].
    rewrite bind_ret. unfold list_payload. rewrite Hf.
    apply Hgo; auto.
Qed.

(** The call of the vault demo, through the theorem. *)
Lemma vault_list_request_witness :
  let req := Request "https://api.idanalyzer.com/vault/list"
                     (list_payload (heap module_loaded) "key" demo_list_options) in
  log (snd (Vault.list quiet_env silent_vault demo_list_options module_loaded))
  = ([] ++ EvPost req :: after_post (server quiet_env req))%list
  /\ fst (Vault.list quiet_env silent_vault demo_list_options module_loaded)
     = answer false (server quiet_env req).
Proof.
  assert (Hlive : forall k, live (heap module_loaded) (kwarg demo_list_options k)).
  { apply live_kwarg.
    let items := eval vm_compute in (map_to_list demo_list_options) in
    change (map_to_list demo_list_options) with items.
    repeat constructor. }
  apply (proj2 (vault_list_request quiet_env silent_vault demo_list_options module_loaded
                  Hlive)).
  reflexivity.
Defined.

(** What the demo call sends. *)
Example demo_list_payload :
  map (fun k => list_payload (heap module_loaded) "key" demo_list_options !! k)
      ["filter"; "orderby"; "sort"; "limit"; "offset"; "apikey"; "client"]
  = [Some (PList [PStr "createtime>=2021/02/25"]); Some (PStr "firstName");
     Some (PStr "ASC"); Some (PInt 5); Some (PInt 0); Some (PStr "key");
     Some (PStr "python-sdk")].
Proof. vm_compute. reflexivity. Qed.

(** A filter that is not a list but is empty ([filter=""]) raises
    nothing: the request is sent, without a filter.  A supplied [limit=0]
    is not passed on either: the request has [limit=10]. *)
Lemma falsy_filter_is_not_rejected :
  fst (Vault.list quiet_env silent_vault
         (list_to_map [("filter", PStr ""); ("limit", PInt 0)]) module_loaded)
  = Ok (JObject [])
  /\ log (snd (Vault.list quiet_env silent_vault
                 (list_to_map [("filter", PStr ""); ("limit", PInt 0)]) module_loaded))
     = [EvPost (Request "https://api.idanalyzer.com/vault/list"
                  (list_to_map
                     [("orderby", PStr "createtime");
                      ("sort", PStr "DESC");
                      ("limit", PInt 10);
                      ("offset", PInt 0);
                      ("apikey", PStr "key");
                      ("client", PStr "python-sdk")]));
        EvJsonDecode].
Proof. vm_compute. split; reflexivity. Qed.

(** ** The image resolver at its six call sites *)

(** The four-way branch written out at every call site, against
    [classify]. *)
Lemma bind_resolve {B} E l url_field file_field msg s v (k : unit -> M B) w :
  bind (if is_valid_url s
        then setitem l url_field v
        else if isfile E s
        then setitem l file_field (PBytes (Base64.b64encode (read_file E s)))
        else if (100 <? String.length s)%nat
        then setitem l file_field v
        else raise (ValueError msg)) k w
  = match classify E s with
    | IsUrl => k tt (stored w l url_field v)
    | IsFile content => k tt (stored w l file_field (PBytes (Base64.b64encode content)))
    | IsInline => k tt (stored w l file_field v)
    | IsInvalid => (Raise (ValueError msg), w)
    end.
Proof.
  unfold classify, isfile, read_file.
  destruct (is_valid_url s); [ reflexivity | ].
  destruct (files E s); [ reflexivity | ].
  destruct (100 <? String.length s)%nat; reflexivity.
Qed.

(** An optional argument that is given. *)
Lemma bind_optional_given {B} E l url_field file_field msg s (k : unit -> M B) w :
  s <> "" ->
  bind (is_truthy (PStr s))
       (fun given =>
          bind (if given
                then bind (as_str (PStr s))
                          (fun s' =>
                             if is_valid_url s'
                             then setitem l url_field (PStr s)
                             else if isfile E s'
                             then setitem l file_field
                                          (PBytes (Base64.b64encode (read_file E s')))
                             else if (100 <? String.length s')%nat
                             then setitem l file_field (PStr s)
                             else raise (ValueError msg))
                else ret tt) k) w
  = match classify E s with
    | IsUrl => k tt (stored w l url_field (PStr s))
    | IsFile content => k tt (stored w l file_field (PBytes (Base64.b64encode content)))
    | IsInline => k tt (stored w l file_field (PStr s))
    | IsInvalid => (Raise (ValueError msg), w)
    end.
Proof.
  intros Hs. rewrite bind_is_truthy, (truthy_nonempty _ _ Hs), bind_assoc, bind_as_str.
  apply bind_resolve.
Qed.

(** An optional argument that passes: the call goes on. *)
Lemma bind_optional_passes {B} E l url_field file_field msg v (k : unit -> M B) w :
  passes E v ->
  bind (is_truthy v)
       (fun given =>
          bind (if given
                then bind (as_str v)
                          (fun s' =>
                             if is_valid_url s'
                             then setitem l url_field v
                             else if isfile E s'
                             then setitem l file_field
                                          (PBytes (Base64.b64encode (read_file E s')))
                             else if (100 <? String.length s')%nat
                             then setitem l file_field v
                             else raise (ValueError msg))
                else ret tt) k) w
  = k tt (resolved E w l url_field file_field v).
Proof.
  intros Hv. destruct v as [ | | | | s | | | ]; simpl in Hv; try contradiction.
  - reflexivity.
  - unfold resolved. destruct (String.eqb s "") eqn:Hs.
    + apply String.eqb_eq in Hs. subst s. reflexivity.
    + apply String.eqb_neq in Hs. rewrite (bind_optional_given _ _ _ _ _ _ _ _ Hs).
      destruct Hv as [-> | Hc]; [ congruence | ].
      destruct (classify E s); try reflexivity. destruct Hc. reflexivity.
Qed.

(** The required argument, when it resolves. *)
Lemma bind_primary_resolves {B} E l url_field file_field e msg v (k : unit -> M B) w :
  resolves E v ->
  bind (is_truthy v)
       (fun primary =>
          bind (raise_if (negb primary) e)
               (fun _ =>
                  bind (as_str v)
                       (fun s' =>
                          bind (if is_valid_url s'
                                then setitem l url_field v
                                else if isfile E s'
                                then setitem l file_field
                                             (PBytes (Base64.b64encode (read_file E s')))
                                else if (100 <? String.length s')%nat
                                then setitem l file_field v
                                else raise (ValueError msg)) k))) w
  = k tt (resolved E w l url_field file_field v).
Proof.
  intros Hv. destruct v as [ | | | | s | | | ]; simpl in Hv; try contradiction.
  destruct Hv as [Hs Hc].
  rewrite bind_is_truthy, (truthy_nonempty _ _ Hs). simpl negb.
  rewrite bind_raise_if, bind_as_str, bind_resolve.
  unfold resolved. rewrite (eqb_empty_false _ Hs).
  destruct (classify E s); try reflexivity. destruct Hc. reflexivity.
Qed.











(** The three examples of the spec.  The existing file is encoded; the
    short string that is no file is refused; [https://x.com/a.png] does not
    match the URL pattern (the pattern wants one character and then at
    least two more before the dot of the domain) and is refused as well. *)
Example spec_examples_of_classification :
  classify demo_env "sampleid.jpg" = IsFile "JFIF"
  /\ items_at (heap (snd (CoreAPI.scan demo_env core_us scan_file_options module_loaded)))
              (CoreAPI.config core_us) !! "file_base64"
     = Some (PBytes "SkZJRg==")
  /\ classify demo_env "abc" = IsInvalid
  /\ classify demo_env "https://x.com/a.png" = IsInvalid
  /\ classify demo_env sample_url = IsUrl.
Proof. vm_compute. repeat split; reflexivity. Qed.


(** ** The configuration of [scan] is shared *)




Lemma sends_dict_raise {A} l e : sends_dict l (@raise A e).
Proof. intros w req rest H. unfold posted in H. simpl in H. destruct (log_grew_neq _ _ _ H). Qed.

Lemma sends_dict_bind {A B} l (c : M A) (k : A -> M B) :
  silent c -> (forall a, sends_dict l (k a)) -> sends_dict l (bind c k).
Proof.
  intros Hc Hk w req rest. specialize (Hc w). unfold posted, bind.
  destruct (c w) as [[a | e] w1]; simpl in *.
  - rewrite <- Hc. apply Hk.
  - rewrite Hc. intros H. destruct (log_grew_neq _ _ _ H).
Qed.

Lemma sends_dict_tail E strict url payload :
  sends_dict payload
    (r <- requests_post E url payload;
     raise_for_status r;;
     result <- response_json r;
     if negb strict
     then ret result
     else
       err <- json_get result "error";
       if json_truthy err
       then raise (APIError err)
       else ret result).
Proof.
  intros w req rest Hp. unfold posted in Hp.
  destruct (tail_spec E strict url payload w) as (Hlog & _ & Hheap).
  cbv zeta in Hlog, Hheap. rewrite Hlog in Hp.
  apply app_inv_head in Hp. injection Hp as <- _.
  rewrite Hheap. reflexivity.
Qed.

Lemma scan_sends_config E self options :
  sends_dict (CoreAPI.config self) (CoreAPI.scan E self options).
Proof.
  unfold CoreAPI.scan. cbv zeta.
  repeat
    match goal with
    | |- sends_dict _ (bind (requests_post _ _ _) _) => apply sends_dict_tail
    | |- sends_dict _ (bind _ _) =>
        apply sends_dict_bind; [ solve [ silent_tac ] | intros ? ]
    end.
Qed.

Lemma scan_writes_apikey E self options w :
  items_at (heap (snd (CoreAPI.scan E self options w))) (CoreAPI.config self) !! "apikey"
  = Some (PStr (CoreAPI.apikey self)).
Proof.
  unfold CoreAPI.scan. cbv zeta. rewrite bind_setitem.
  match goal with |- context [ bind ?c ?k (stored ?w1 ?l ?key ?v) ] =>
    assert (Hkeeps : keeps l key (bind c k)) by keeps_tac;
    rewrite (Hkeeps (stored w1 l key v))
  end.
  rewrite items_at_stored. apply lookup_insert_eq.
Qed.

Lemma core_init_ok key region w self :
  fst (CoreAPI.init key region w) = Ok self ->
  CoreAPI.config self = CoreAPI.DEFAULT_CONFIG
  /\ CoreAPI.apikey self = key
  /\ snd (CoreAPI.init key region w) = w.
Proof.
  unfold CoreAPI.init. rewrite !bind_raise_if.
  destruct (String.eqb key ""); [ discriminate | ].
  destruct (String.eqb region ""); [ discriminate | ].
  simpl. intros [= <-]. auto.
Qed.



(** Values, on one run: after [CoreAPI("key", "US")] scanned a URL, a
    second instance [CoreAPI("other", "EU")] scans a file.  Its request
    carries the URL of the first scan next to its own file, and the
    configuration of the first instance now holds the key of the second. *)
Example later_request_carries_earlier_fields :
  let w1 := snd (CoreAPI.scan demo_env core_us scan_url_options module_loaded) in
  let w2 := run_ops [OpSetter core_us (Core_set_accuracy (PInt 1))] w1 in
  let w3 := snd (CoreAPI.scan demo_env core_eu scan_file_options w2) in
  fst (CoreAPI.init "other" "EU" w2) = Ok core_eu
  /\ map (sent_item w1) ["url"; "file_base64"; "apikey"]
     = [Some (PStr sample_url); None; Some (PStr "key")]
  /\ map (sent_item w3) ["url"; "file_base64"; "apikey"; "accuracy"]
     = [Some (PStr sample_url); Some (PBytes "SkZJRg=="); Some (PStr "other");
        Some (PInt 1)]
  /\ items_at (heap w3) (CoreAPI.config core_us) !! "apikey" = Some (PStr "other").
Proof. vm_compute. repeat split; reflexivity. Qed.

(** ** The building blocks on known values *)

Example b64encode_examples :
  Base64.b64encode "" = ""
  /\ Base64.b64encode "M" = "TQ=="
  /\ Base64.b64encode "Ma" = "TWE="
  /\ Base64.b64encode "Man" = "TWFu"
  /\ Base64.b64encode "hello world" = "aGVsbG8gd29ybGQ=".
Proof. repeat split; reflexivity. Qed.

Example is_valid_url_examples :
  is_valid_url "https://www.example.com/docupass_callback.php" = true
  /\ is_valid_url "http://abcd.io" = true
  /\ is_valid_url "see https://abcd.com/x?y=1 ok" = true
  /\ is_valid_url "https://abcd.c0m" = false
  /\ is_valid_url "https://abcd.abcdefgh" = false
  /\ is_valid_url "ftp://abcd.com" = false
  /\ is_valid_url "" = false.
Proof. vm_compute. repeat split; reflexivity. Qed.

Example upper_examples : upper "eU" = "EU" /\ upper "api-1.test" = "API-1.TEST".
Proof. split; reflexivity. Qed.

(** * Further properties of the four classes *)

(** ** One call, at most one request *)

(** X1.  Every action method and [DocuPass.validate] sends at most one
    request per call, with no retry: the log of a call grows by nothing,
    by one request, or by one request followed by one decoding of the
    body. *)
Theorem at_most_one_request_per_call :
  (forall E a w,
      log (snd (perform E a w)) = log w
      \/ exists req,
          log (snd (perform E a w)) = (log w ++ [EvPost req])%list
          \/ log (snd (perform E a w)) = (log w ++ [EvPost req; EvJsonDecode])%list)
  /\ (forall E self reference hash w,
         exists req,
           log (snd (DocuPass.validate E self reference hash w)) = (log w ++ [EvPost req])%list
           \/ log (snd (DocuPass.validate E self reference hash w))
              = (log w ++ [EvPost req; EvJsonDecode])%list).
Proof.
  split.
  - intros E a w.
    destruct (transported_perform E a w) as [[Hsame _] | (req & Hlog & _)]; [ auto | ].
    right. exists req. rewrite Hlog. unfold after_post.
    destruct (server E req) as [ | r ]; [ auto | ].
    destruct (_ && _); auto.
  - intros E self reference hash w.
    destruct (validate_sends E self reference hash w) as (req & Hlog & _).
    exists req. rewrite Hlog. unfold after_post.
    destruct (server E req) as [ | r ]; [ auto | ].
    destruct (_ && _); auto.
Qed.




(** X3.  Responses that are no JSON mapping.  When the body is not JSON
    the call raises the decoding error in both modes.  When it is JSON,
    silent mode returns the decoded value whatever it is; strict mode
    raises [AttributeError] on a value that is no mapping (a list, a
    string, a number, [null]), because it calls [get] on it. *)
Theorem responses_that_are_no_mapping :
  forall E a w req rest resp,
    posted (perform E a) w req rest ->
    server E req = PostReturns resp ->
    (status_code resp < 400 \/ 600 <= status_code resp)%Z ->
    (body resp = None ->
     fst (perform E a w) = Raise JSONDecodeError /\ rest = [EvJsonDecode])
    /\ (forall j, body resp = Some j -> strict a = false -> fst (perform E a w) = Ok j)
    /\ (forall j, body resp = Some j -> strict a = true ->
        (forall items, j <> JObject items) ->
        fst (perform E a w) = Raise AttributeError).
Proof.
  intros E a w req rest resp Hposted Hserver Hstatus.
  destruct (posted_answer _ _ _ _ _ Hposted) as [-> ->].
  rewrite Hserver. unfold answer, after_post.
  replace ((400 <=? status_code resp)%Z && (status_code resp <? 600)%Z) with false
    by (symmetry; apply andb_false_iff; lia).
  repeat split.
  - rewrite H. reflexivity.
  - intros j -> ->. reflexivity.
  - intros j -> -> Hj. simpl. destruct j; try reflexivity. destruct (Hj items). reflexivity.
Qed.

(** A JSON list as the answer, in strict mode. *)
Lemma responses_that_are_no_mapping_witness :
  fst (perform (constant_env 200 (JList [])) (Vault_train_face strict_vault) module_loaded)
  = Raise AttributeError.
Proof.
  apply (proj2 (proj2 (responses_that_are_no_mapping (constant_env 200 (JList []))
                         (Vault_train_face strict_vault) module_loaded train_request
                         [EvJsonDecode] {| status_code := 200; body := Some (JList []) |}
                         ltac:(vm_compute; reflexivity) eq_refl
                         ltac:(left; reflexivity)))
           (JList []) eq_refl eq_refl).
  intros items. discriminate.
Defined.

Lemma strict_with_flag a v : strict (with_flag a v) = is_True v.
Proof. destruct a; reflexivity. Qed.

(** X4.  Strict mode is switched on by [throw_api_exception(True)]
    only.  After [throw_api_exception(v)] with any other value (for
    instance [1] or ["yes"]) the instance is in silent mode: a response
    with an error entry is returned by every action method, not raised. *)
Theorem only_True_enables_strict_mode :
  forall E a v w req rest resp j,
    v <> PBool true ->
    posted (perform E (with_flag a v)) w req rest ->
    server E req = PostReturns resp ->
    (status_code resp < 400 \/ 600 <= status_code resp)%Z ->
    body resp = Some j ->
    fst (perform E (with_flag a v) w) = Ok j.
Proof.
  intros E a v w req rest resp j Hv Hposted Hserver Hstatus Hbody.
  destruct (posted_answer _ _ _ _ _ Hposted) as [-> _].
  rewrite Hserver, strict_with_flag. unfold answer.
  replace ((400 <=? status_code resp)%Z && (status_code resp <? 600)%Z) with false
    by (symmetry; apply andb_false_iff; lia).
  rewrite Hbody.
  assert (is_True v = false) as ->; [ | reflexivity ].
  destruct v as [ | [ | ] | | | | | | ]; try reflexivity. congruence.
Qed.

(** [throw_api_exception(1)] and then [train_face()] against a server
    that answers with an error. *)
Lemma only_True_enables_strict_mode_witness :
  fst (perform (constant_env 200 error_body)
         (with_flag (Vault_train_face silent_vault) (PInt 1)) module_loaded)
  = Ok error_body.
Proof.
  apply (only_True_enables_strict_mode (constant_env 200 error_body)
           (Vault_train_face silent_vault) (PInt 1) module_loaded train_request
           [EvJsonDecode] {| status_code := 200; body := Some error_body |} error_body).
  - discriminate.
  - vm_compute. reflexivity.
  - reflexivity.
  - left. reflexivity.
  - reflexivity.
Defined.

(** ** Numbers *)

Lemma Qle_bool_Z a b : Qle_bool (inject_Z a) (inject_Z b) = (a <=? b)%Z.
Proof. unfold Qle_bool, inject_Z. simpl. rewrite !Z.mul_1_r. reflexivity. Qed.

Lemma Qlt_bool_Z a b : Qlt_bool (inject_Z a) (inject_Z b) = (a <? b)%Z.
Proof. unfold Qlt_bool. rewrite Qle_bool_Z. symmetry. apply Z.ltb_antisym. Qed.

Lemma Qeq_bool_Z a b : Qeq_bool (inject_Z a) (inject_Z b) = (a =? b)%Z.
Proof. unfold Qeq_bool, inject_Z. simpl. rewrite !Z.mul_1_r. reflexivity. Qed.

Lemma eq_int_PInt n m : eq_int (PInt n) m = (n =? m)%Z.
Proof. apply Qeq_bool_Z. Qed.

Lemma in_range_PInt n lo hi : in_range (PInt n) lo hi = (lo <=? n)%Z && (n <? hi)%Z.
Proof.
  unfold in_range, as_number. cbv beta iota.
  rewrite Qfloor_Z, Qeq_bool_Z, Z.eqb_refl. reflexivity.
Qed.

(** ** [DocuPass]: construction, sessions, callback validation *)

(** X5.  The company name given to [DocuPass.__init__] is written into
    the dictionary all instances share: constructing a second instance
    replaces the company name in the configuration of the first. *)
Theorem docupass_company_name_is_shared :
  forall k1 c1 r1 k2 c2 r2 w self1 self2,
    fst (DocuPass.init k1 c1 r1 w) = Ok self1 ->
    fst (DocuPass.init k2 c2 r2 (snd (DocuPass.init k1 c1 r1 w))) = Ok self2 ->
    DocuPass.config self1 = DocuPass.config self2
    /\ items_at (heap (snd (DocuPass.init k1 c1 r1 w))) (DocuPass.config self1)
         !! "companyname" = Some (PStr c1)
    /\ items_at (heap (snd (DocuPass.init k2 c2 r2 (snd (DocuPass.init k1 c1 r1 w)))))
                (DocuPass.config self1) !! "companyname" = Some (PStr c2).
Proof.
  intros k1 c1 r1 k2 c2 r2 w self1 self2.
  unfold DocuPass.init. rewrite !bind_raise_if.
  destruct (String.eqb k1 ""); [ discriminate | ].
  destruct (String.eqb c1 ""); [ discriminate | ].
  destruct (String.eqb r1 ""); [ discriminate | ].
  rewrite ?bind_setitem. cbn [fst snd ret]. intros [= <-].
  rewrite ?bind_raise_if.
  destruct (String.eqb k2 ""); [ discriminate | ].
  destruct (String.eqb c2 ""); [ discriminate | ].
  destruct (String.eqb r2 ""); [ discriminate | ].
  rewrite ?bind_setitem. cbn [fst snd ret DocuPass.config]. intros [= <-].
  cbn [DocuPass.config].
  rewrite !items_at_stored, !lookup_insert_eq. auto.
Qed.

(** Two companies on one process. *)
Lemma docupass_company_name_is_shared_witness :
  items_at (heap (snd (DocuPass.init "key2" "Other Ltd" "EU"
                         (snd (DocuPass.init "key" "ACME" "US" module_loaded)))))
           (DocuPass.config docupass_us) !! "companyname"
  = Some (PStr "Other Ltd").
Proof.
  exact (proj2 (proj2 (docupass_company_name_is_shared "key" "ACME" "US" "key2" "Other Ltd"
                         "EU" module_loaded docupass_us _ eq_refl eq_refl))).
Defined.

Lemma docupass_create_spec E self n w :
  let req := Request (DocuPass.apiendpoint self ++ "docupass/create")
                     (<["type" := PInt n]>
                        (<["apikey" := PStr (DocuPass.apikey self)]>
                           (items_at (heap w) (DocuPass.config self)))) in
  log (snd (DocuPass.create E self n w))
  = (log w ++ EvPost req :: after_post (server E req))%list
  /\ fst (DocuPass.create E self n w) = answer (DocuPass.throw_error self) (server E req)
  /\ items_at (heap (snd (DocuPass.create E self n w))) (DocuPass.config self) = req_data req.
Proof.
  unfold DocuPass.create. cbv zeta. rewrite !bind_setitem.
  match goal with |- context [ bind _ _ ?w2 ] =>
    destruct (tail_spec E (DocuPass.throw_error self)
                (DocuPass.apiendpoint self ++ "docupass/create") (DocuPass.config self) w2)
      as (Hlog & Hres & Hheap)
  end.
  cbv zeta in Hlog, Hres, Hheap.
  rewrite !items_at_stored in Hlog, Hres.
  rewrite Hheap, !items_at_stored, Hlog, Hres. auto.
Qed.

(** X6.  The four session creators ([create_iframe], [create_mobile],
    [create_redirection], [create_live_mobile]) check nothing and differ
    only in the number sent under ['type'] (0, 1, 2, 3): each sends one
    request to [docupass/create] whose payload is the configuration with
    the API key and that number added, treats the answer as every action
    method does, and leaves both additions in the configuration. *)
Theorem docupass_session_creators :
  forall E self w,
    Forall
      (fun creator =>
         let req := Request (DocuPass.apiendpoint self ++ "docupass/create")
                            (<["type" := PInt (snd creator)]>
                               (<["apikey" := PStr (DocuPass.apikey self)]>
                                  (items_at (heap w) (DocuPass.config self)))) in
         log (snd (fst creator E self w))
         = (log w ++ EvPost req :: after_post (server E req))%list
         /\ fst (fst creator E self w) = answer (DocuPass.throw_error self) (server E req)
         /\ items_at (heap (snd (fst creator E self w))) (DocuPass.config self)
            = req_data req)
      session_creators.
Proof.
  intros E self w. unfold session_creators.
  repeat constructor; apply docupass_create_spec.
Qed.

(** X7.  [DocuPass.validate] sends the API key, the reference, the hash
    and the client tag, and nothing of the configuration, to
    [docupass/validate]; it changes no existing dictionary; and it returns
    the ['success'] entry of the answer ([None] when the answer has none).
    The throw-on-error flag plays no part: an error entry in the answer is
    never raised as [APIError]. *)
Theorem docupass_validate_request :
  forall E self reference hash w,
    let req := Request (DocuPass.apiendpoint self ++ "docupass/validate")
                       (list_to_map [("apikey", PStr (DocuPass.apikey self));
                                     ("reference", reference);
                                     ("hash", hash);
                                     ("client", PStr client_library)]) in
    log (snd (DocuPass.validate E self reference hash w))
    = (log w ++ EvPost req :: after_post (server E req))%list
    /\ fst (DocuPass.validate E self reference hash w) = validate_answer (server E req)
    /\ (forall l, is_Some (heap w !! l) ->
                  items_at (heap (snd (DocuPass.validate E self reference hash w))) l
                  = items_at (heap w) l).
Proof.
  intros E self reference hash w. cbv zeta.
  unfold DocuPass.validate. rewrite bind_new_dict.
  unfold requests_post, raise_for_status, response_json, json_get, bind, read_dict, emit,
    after_post, validate_answer, ret, raise.
  cbn [fst snd log heap]. rewrite items_at_insert_eq.
  assert (Hframe : forall l d, is_Some (heap w !! l) ->
                   items_at (<[fresh (dom (heap w)) := d]> (heap w)) l = items_at (heap w) l).
  { intros l d Hl. apply items_at_insert_ne, fresh_not_live. assumption. }
  destruct (server E _) as [ | r ]; cbn [fst snd log heap]; [ auto | ].
  destruct ((400 <=? status_code r)%Z && (status_code r <? 600)%Z);
    cbn [fst snd log heap]; [ auto | ].
  rewrite <- app_assoc.
  destruct (body r) as [ j | ]; cbn [fst snd log heap]; [ | auto ].
  destruct j; cbn [fst snd log heap]; auto.
Qed.

(** ** The patterns *)

(** A pattern that starts with [^] matches at the start or nowhere. *)
Lemma search_from_bol_inside r c s : Re.search_from (Re.Cat Re.Bol r) (Some c) s = false.
Proof. revert c. induction s as [ | x s IH ]; intros c; simpl; [ reflexivity | apply IH ]. Qed.

Lemma search_anchored r s :
  Re.search (Re.Cat Re.Bol r) s
  = Re.matches r None (list_ascii_of_string s) (fun _ _ => true).
Proof.
  unfold Re.search. destruct (list_ascii_of_string s) as [ | x l ]; simpl.
  - apply orb_false_r.
  - rewrite search_from_bol_inside. apply orb_false_r.
Qed.

Ltac split_tests :=
  repeat match goal with
         | |- context [ Re.in_class ?a ?b ?c ] => destruct (Re.in_class a b c)
         | |- context [ Ascii.eqb ?c ?x ] => destruct (Ascii.eqb c x)
         end.

(** X8.  [is_hex_color] accepts exactly the strings made of [#] and
    three or six hexadecimal digits (one newline may follow): a colour
    without the [#], or with four or eight digits, is refused. *)
Theorem is_hex_color_accepts_exactly :
  forall s, is_hex_color s = hex_color_shape s.
Proof.
  intros s. unfold is_hex_color, hex_color_pattern, hex_color_shape, hexdigit, is_hex_digit.
  rewrite search_anchored.
  destruct (list_ascii_of_string s)
    as [ | c0 [ | c1 [ | c2 [ | c3 [ | c4 [ | c5 [ | c6 [ | c7 [ | c8 l ] ] ] ] ] ] ] ] ];
    cbn - [Re.in_class Ascii.eqb]; split_tests; reflexivity.
Qed.

Lemma passcode_search_is_shape s : Re.search passcode_pattern s = passcode_shape s.
Proof.
  unfold passcode_pattern, passcode_shape, is_digit.
  rewrite search_anchored.
  destruct (list_ascii_of_string s) as [ | c0 [ | c1 [ | c2 [ | c3 [ | c4 [ | c5 l ] ] ] ] ] ];
    cbn - [Re.in_class Ascii.eqb]; split_tests; reflexivity.
Qed.

(** X9.  The video passcode pattern accepts exactly the strings of four
    decimal digits (one newline may follow). *)
Theorem passcode_pattern_accepts_exactly :
  forall s, Re.search passcode_pattern s = passcode_shape s.
Proof. exact passcode_search_is_shape. Qed.

(** X10.  The date pattern of [verify_dob] accepts exactly the strings
    of four digits, a slash, two digits, a slash and two digits (one
    newline may follow); it checks no calendar, so [0000/13/99] passes. *)
Theorem dob_pattern_accepts_exactly :
  forall s, Re.search dob_pattern s = dob_shape s.
Proof.
  intros s. unfold dob_pattern, dob_shape, is_digit, Re.digit.
  rewrite search_anchored.
  destruct (list_ascii_of_string s)
    as [ | c0 [ | c1 [ | c2 [ | c3 [ | c4 [ | c5 [ | c6 [ | c7 [ | c8 [ | c9 [ | c10
         [ | c11 l ] ] ] ] ] ] ] ] ] ] ] ];
    cbn - [Re.in_class Ascii.eqb]; split_tests; reflexivity.
Qed.

Lemma search_from_unfold r prev s :
  Re.search_from r prev s
  = Re.matches r prev s (fun _ _ => true)
    || match s with
       | [] => false
       | c :: s' => Re.search_from r (Some c) s'
       end.
Proof. destruct s; reflexivity. Qed.

(** The URL pattern starts with the letter [h]: what comes before a
    match plays no part. *)
Lemma url_match_ignores_before prev prev' s k :
  Re.matches url_pattern prev s k = Re.matches url_pattern prev' s k.
Proof. destruct s; reflexivity. Qed.

Lemma url_search_ignores_before prev prev' s :
  Re.search_from url_pattern prev s = Re.search_from url_pattern prev' s.
Proof.
  rewrite (search_from_unfold _ prev), (search_from_unfold _ prev').
  rewrite (url_match_ignores_before prev prev'). reflexivity.
Qed.

Lemma list_ascii_of_string_append a b :
  list_ascii_of_string (a ++ b) = (list_ascii_of_string a ++ list_ascii_of_string b)%list.
Proof. induction a as [ | c a IH ]; simpl; [ reflexivity | rewrite IH; reflexivity ]. Qed.

Lemma url_search_after_prefix p prev s :
  Re.search_from url_pattern None s = true ->
  Re.search_from url_pattern prev (p ++ s)%list = true.
Proof.
  revert prev. induction p as [ | c p IH ]; intros prev Hs.
  - simpl. rewrite (url_search_ignores_before prev None). assumption.
  - rewrite search_from_unfold. cbn [app]. rewrite (IH _ Hs). apply orb_true_r.
Qed.

(** X11.  [is_valid_url] searches for a URL anywhere in the string and is
    not anchored at its start: whatever text is put in front of an
    accepted string, the result is accepted too, by [is_valid_url] and so
    by [DocuPass.set_callback_url], which stores the whole text. *)
Theorem is_valid_url_is_not_anchored :
  forall prefix s,
    is_valid_url s = true ->
    is_valid_url (prefix ++ s) = true
    /\ forall self w,
         DocuPass.set_callback_url self (PStr (prefix ++ s)) w
         = (Ok tt, stored w (DocuPass.config self) "callbackurl" (PStr (prefix ++ s))).
Proof.
  intros prefix s Hs.
  assert (Hurl : is_valid_url (prefix ++ s) = true).
  { unfold is_valid_url, Re.search in *. rewrite list_ascii_of_string_append.
    apply url_search_after_prefix. assumption. }
  split; [ assumption | ].
  intros self w. unfold DocuPass.set_callback_url.
  rewrite bind_is_truthy.
  assert (Hne : prefix ++ s <> "").
  { intros Hempty. rewrite Hempty in Hurl. vm_compute in Hurl. discriminate. }
  rewrite (truthy_nonempty _ _ Hne). cbv beta iota.
  rewrite bind_assoc, bind_as_str, Hurl, bind_raise_if. reflexivity.
Qed.

(** A script in front of a URL is accepted as a callback URL. *)
Lemma is_valid_url_is_not_anchored_witness :
  is_valid_url ("javascript:alert(1);//" ++ "http://abcd.io") = true.
Proof.
  apply (proj1 (is_valid_url_is_not_anchored "javascript:alert(1);//" "http://abcd.io"
                  ltac:(vm_compute; reflexivity))).
Defined.

(** ** [DocuPass]: setters with bounds *)

(** X12.  [DocuPass.set_max_attempt] stores an integer from 1 to 9 and
    refuses every other integer, 10 included, and every string, leaving
    the configuration as it was. *)
Theorem docupass_set_max_attempt_bounds :
  forall self n w,
    ((1 <= n <= 9)%Z ->
     DocuPass.set_max_attempt self (PInt n) w
     = (Ok tt, stored w (DocuPass.config self) "maxattempt" (PInt n)))
    /\ ((n < 1 \/ 9 < n)%Z ->
        DocuPass.set_max_attempt self (PInt n) w
        = (Raise (ValueError "Invalid max attempt, please specify integer between 1 to 10."),
           w))
    /\ (forall s,
           DocuPass.set_max_attempt self (PStr s) w
           = (Raise (ValueError
                       "Invalid max attempt, please specify integer between 1 to 10."), w)).
Proof.
  intros self n w. unfold DocuPass.set_max_attempt.
  rewrite !bind_raise_if, in_range_PInt. repeat split.
  - intros Hn. replace ((1 <=? n)%Z && (n <? 10)%Z) with true
      by (symmetry; apply andb_true_iff; lia). reflexivity.
  - intros Hn. replace ((1 <=? n)%Z && (n <? 10)%Z) with false
      by (symmetry; apply andb_false_iff; lia). reflexivity.
Qed.

(** Ten attempts are refused. *)
Lemma docupass_set_max_attempt_bounds_witness :
  DocuPass.set_max_attempt docupass_us (PInt 10) module_loaded
  = (Raise (ValueError "Invalid max attempt, please specify integer between 1 to 10."),
     module_loaded).
Proof.
  apply (proj1 (proj2 (docupass_set_max_attempt_bounds docupass_us 10 module_loaded))).
  right. reflexivity.
Defined.

(** X13.  [DocuPass.set_qrcode_format], given two colours that
    [is_hex_color] accepts, stores the four values when the size is an
    integer from 1 to 49 and the margin an integer from 0 to 49; a size
    outside 1..49 (50 included) and then a margin outside 0..49 raise
    [ValueError] and store nothing. *)
Theorem docupass_set_qrcode_format_bounds :
  forall self fg bg size margin w,
    is_hex_color fg = true ->
    is_hex_color bg = true ->
    ((1 <= size <= 49)%Z -> (0 <= margin <= 49)%Z ->
     DocuPass.set_qrcode_format self (PStr fg) (PStr bg) (PInt size) (PInt margin) w
     = (Ok tt,
        stored (stored (stored (stored w (DocuPass.config self) "qr_color" (PStr fg))
                               (DocuPass.config self) "qr_bgcolor" (PStr bg))
                       (DocuPass.config self) "qr_size" (PInt size))
               (DocuPass.config self) "qr_margin" (PInt margin)))
    /\ ((size < 1 \/ 49 < size)%Z ->
        DocuPass.set_qrcode_format self (PStr fg) (PStr bg) (PInt size) (PInt margin) w
        = (Raise (ValueError "Invalid image size (1-50)"), w))
    /\ ((1 <= size <= 49)%Z -> (margin < 0 \/ 49 < margin)%Z ->
        DocuPass.set_qrcode_format self (PStr fg) (PStr bg) (PInt size) (PInt margin) w
        = (Raise (ValueError "Invalid margin (0-50)"), w)).
Proof.
  intros self fg bg size margin w Hfg Hbg. unfold DocuPass.set_qrcode_format.
  rewrite !bind_as_str, Hfg, bind_raise_if. cbn [negb].
  rewrite !bind_as_str, Hbg, bind_raise_if. cbn [negb].
  rewrite !bind_raise_if, !in_range_PInt. repeat split.
  - intros Hs Hm.
    replace ((1 <=? size)%Z && (size <? 50)%Z) with true
      by (symmetry; apply andb_true_iff; lia).
    replace ((0 <=? margin)%Z && (margin <? 50)%Z) with true
      by (symmetry; apply andb_true_iff; lia).
    reflexivity.
  - intros Hs.
    replace ((1 <=? size)%Z && (size <? 50)%Z) with false
      by (symmetry; apply andb_false_iff; lia).
    reflexivity.
  - intros Hs Hm.
    replace ((1 <=? size)%Z && (size <? 50)%Z) with true
      by (symmetry; apply andb_true_iff; lia).
    replace ((0 <=? margin)%Z && (margin <? 50)%Z) with false
      by (symmetry; apply andb_false_iff; lia).
    reflexivity.
Qed.

(** Black on white at size 50, the upper bound the docstring gives. *)
Lemma docupass_set_qrcode_format_bounds_witness :
  DocuPass.set_qrcode_format docupass_us (PStr "#000000") (PStr "#FFFFFF") (PInt 50) (PInt 1)
    module_loaded
  = (Raise (ValueError "Invalid image size (1-50)"), module_loaded).
Proof.
  apply (proj1 (proj2 (docupass_set_qrcode_format_bounds docupass_us "#000000" "#FFFFFF"
                         50 1 module_loaded
                         ltac:(vm_compute; reflexivity) ltac:(vm_compute; reflexivity)))).
  right. reflexivity.
Defined.

(** ** Setters: what they leave alone *)

Lemma core_config_is_live : is_Some (heap module_loaded !! CoreAPI.DEFAULT_CONFIG).
Proof. unfold module_loaded. cbn [heap]. rewrite lookup_insert_eq. eauto. Qed.

Lemma docu_config_is_live : is_Some (heap module_loaded !! DocuPass.DEFAULT_CONFIG).
Proof.
  unfold module_loaded. cbn [heap].
  rewrite lookup_insert_ne by discriminate. rewrite lookup_insert_eq. eauto.
Qed.

Lemma spares_pure {A} l k (c : M A) : pure c -> spares l k c.
Proof. intros Hc w Hl. rewrite Hc. auto. Qed.

Lemma spares_bind {A B} l key (c : M A) (k : A -> M B) :
  spares l key c -> (forall a, spares l key (k a)) -> spares l key (bind c k).
Proof.
  intros Hc Hk w Hl. destruct (Hc w Hl) as [Hitem Hlive]. unfold bind.
  destruct (c w) as [[a | e] w1]; simpl in *; [ | auto ].
  destruct (Hk a w1 Hlive) as [Hitem' Hlive']. rewrite Hitem'. auto.
Qed.

Lemma spares_setitem l key l' key' v :
  l' <> l \/ key' <> key -> spares l key (setitem l' key' v).
Proof.
  intros Hne w Hl. simpl. destruct (decide (l' = l)) as [-> | Hneq].
  - rewrite items_at_insert_eq, lookup_insert_eq.
    destruct Hne as [Hne | Hne]; [ congruence | ].
    rewrite lookup_insert_ne by assumption. eauto.
  - rewrite items_at_insert_ne, lookup_insert_ne by assumption. auto.
Qed.

Lemma spares_new_dict l key d : spares l key (new_dict d).
Proof.
  intros w Hl. simpl. pose proof (fresh_not_live _ _ Hl) as Hne.
  rewrite items_at_insert_ne, lookup_insert_ne by assumption. auto.
Qed.

(** Goes through a setter; [H] says that the item looked at is none of
    the setter's own. *)
Ltac spares_tac H :=
  repeat
    match goal with
    | |- spares _ _ (bind _ _) => apply spares_bind; [ | intros ? ]
    | |- spares _ _ (setitem _ _ _) =>
        apply spares_setitem;
        destruct H as [H | H];
        [ left; congruence
        | right; intros Heq; apply H; rewrite <- Heq; simpl; auto 10 ]
    | |- spares _ _ (new_dict _) => apply spares_new_dict
    | |- spares _ _ (if ?b then _ else _) => destruct b
    | |- spares _ _ (match ?v with _ => _ end) => destruct v
    | |- spares _ _ _ => apply spares_pure; solve [ pure_tac ]
    end.

(** X14.  A setter of [CoreAPI] writes only its own keys of the
    instance's configuration: every other item of that dictionary, and
    every item of every other live dictionary, is after the call what it
    was before, whether the setter returned or raised. *)
Theorem core_setters_write_only_their_keys :
  forall self c w l k,
    is_Some (heap w !! l) ->
    l <> CoreAPI.config self \/ ~ In k (core_keys c) ->
    items_at (heap (snd (core_setter self c w))) l !! k = items_at (heap w) l !! k.
Proof.
  intros self c w l k Hl H.
  assert (Hs : spares l k (core_setter self c));
    [ | exact (proj1 (Hs w Hl)) ].
  destruct c; simpl in H |- *; unfold_method; spares_tac H.
Qed.

(** [verify_name] leaves the accuracy alone. *)
Lemma core_setters_write_only_their_keys_witness :
  items_at (heap (snd (core_setter core_us (Core_verify_name (PStr "Ann")) module_loaded)))
           CoreAPI.DEFAULT_CONFIG !! "accuracy"
  = items_at (heap module_loaded) CoreAPI.DEFAULT_CONFIG !! "accuracy".
Proof.
  apply (core_setters_write_only_their_keys core_us (Core_verify_name (PStr "Ann"))
           module_loaded CoreAPI.DEFAULT_CONFIG "accuracy").
  - exact core_config_is_live.
  - right. simpl. intros [H | []]. discriminate.
Defined.

(** X15.  A setter of [DocuPass] writes only its own keys of the
    instance's configuration, and no other live dictionary. *)
Theorem docu_setters_write_only_their_keys :
  forall self c w l k,
    is_Some (heap w !! l) ->
    l <> DocuPass.config self \/ ~ In k (docu_keys c) ->
    items_at (heap (snd (docu_setter self c w))) l !! k = items_at (heap w) l !! k.
Proof.
  intros self c w l k Hl H.
  assert (Hs : spares l k (docu_setter self c));
    [ | exact (proj1 (Hs w Hl)) ].
  destruct c; simpl in H |- *; unfold_method; spares_tac H.
Qed.

(** A [DocuPass] setter leaves the configuration of [CoreAPI] alone. *)
Lemma docu_setters_write_only_their_keys_witness :
  items_at (heap (snd (docu_setter docupass_us (Docu_set_language (PStr "en"))
                         module_loaded)))
           CoreAPI.DEFAULT_CONFIG !! "language"
  = items_at (heap module_loaded) CoreAPI.DEFAULT_CONFIG !! "language".
Proof.
  apply (docu_setters_write_only_their_keys docupass_us (Docu_set_language (PStr "en"))
           module_loaded CoreAPI.DEFAULT_CONFIG "language").
  - exact core_config_is_live.
  - left. discriminate.
Defined.

(** X16.  Apart from [CoreAPI.enable_authentication], every setter of
    [CoreAPI] and every setter of [DocuPass] checks its arguments before it
    assigns: when the call raises, whatever the exception, the
    configuration is what it was before the call. *)
Theorem setters_validate_before_assigning :
  (forall self c w e,
      (forall enabled module, c <> Core_enable_authentication enabled module) ->
      is_Some (heap w !! CoreAPI.config self) ->
      fst (core_setter self c w) = Raise e ->
      items_at (heap (snd (core_setter self c w))) (CoreAPI.config self)
      = items_at (heap w) (CoreAPI.config self))
  /\ (forall self c w e,
         is_Some (heap w !! DocuPass.config self) ->
         fst (docu_setter self c w) = Raise e ->
         items_at (heap (snd (docu_setter self c w))) (DocuPass.config self)
         = items_at (heap w) (DocuPass.config self)).
Proof.
  split.
  - intros self c w e Hc Hl He.
    pose proof (core_setters_validate_first self c) as Hv.
    destruct c; try exact (Hv w e Hl He).
    destruct (Hc enabled module). reflexivity.
  - intros self c w e Hl He. exact (docu_setters_validate_first self c w e Hl He).
Qed.

(** A date in the wrong format. *)
Lemma setters_validate_before_assigning_witness :
  items_at (heap (snd (core_setter core_us (Core_verify_dob (PStr "1990-01-01"))
                         module_loaded)))
           (CoreAPI.config core_us)
  = items_at (heap module_loaded) (CoreAPI.config core_us).
Proof.
  apply (proj1 setters_validate_before_assigning core_us (Core_verify_dob (PStr "1990-01-01"))
           module_loaded (ValueError "Invalid birthday format (YYYY/MM/DD)")).
  - intros enabled module. discriminate.
  - exact core_config_is_live.
  - reflexivity.
Defined.

(** ** [DocuPass]: contracts *)

Lemma bind_ok {A B} (c : M A) (k : A -> M B) a w :
  fst (c w) = Ok a -> bind c k w = k a (snd (c w)).
Proof.
  unfold bind. destruct (c w) as [[a'|e] w']; simpl; intros [=]; subst; reflexivity.
Qed.

Lemma run_setitem l k v w : setitem l k v w = (Ok tt, stored w l k v).
Proof. reflexivity. Qed.

Ltac lookup_stored :=
  rewrite ?items_at_stored;
  repeat (rewrite ?lookup_insert_eq; rewrite ?lookup_insert_ne by discriminate).

Lemma docu_generate_contract_items self t f p w :
  t <> "" ->
  fst (DocuPass.generate_contract self (PStr t) f p w) = Ok tt
  /\ contract_items (snd (DocuPass.generate_contract self (PStr t) f p w))
                    (DocuPass.config self)
     = [Some (PStr t); Some (PStr ""); Some f].
Proof.
  intros Ht. unfold DocuPass.generate_contract, contract_items.
  assert (Hgo : forall pre w0,
             fst (bind (ret pre) (fun prefill => given <- is_truthy (PStr t); raise_if (negb given) (ValueError "Invalid template ID");; setitem (DocuPass.config self) "contract_sign" (PStr "");; setitem (DocuPass.config self) "contract_generate" (PStr t);; setitem (DocuPass.config self) "contract_format" f;; setitem (DocuPass.config self) "contract_prefill_data" prefill) w0) = Ok tt /\
             map (fun k =>
                    items_at (heap (snd (bind (ret pre)
                      (fun prefill =>
                         given <- is_truthy (PStr t);
                         raise_if (negb given) (ValueError "Invalid template ID");;
                         setitem (DocuPass.config self) "contract_sign" (PStr "");;
                         setitem (DocuPass.config self) "contract_generate" (PStr t);;
                         setitem (DocuPass.config self) "contract_format" f;;
                         setitem (DocuPass.config self) "contract_prefill_data" prefill)
                      w0))) (DocuPass.config self) !! k)
                 ["contract_generate"; "contract_sign"; "contract_format"]
             = [Some (PStr t); Some (PStr ""); Some f]).
  { intros pre w0.
    rewrite !bind_ret, !bind_is_truthy, (truthy_nonempty _ _ Ht). cbn [negb].
    rewrite bind_raise_if, !bind_setitem, run_setitem. cbn [fst snd map].
    lookup_stored. split; reflexivity. }
  destruct p; apply Hgo.
Qed.

Lemma docu_sign_contract_items self t f p w :
  t <> "" ->
  fst (DocuPass.sign_contract self (PStr t) f p w) = Ok tt
  /\ contract_items (snd (DocuPass.sign_contract self (PStr t) f p w))
                    (DocuPass.config self)
     = [Some (PStr ""); Some (PStr t); Some f].
Proof.
  intros Ht. unfold DocuPass.sign_contract, contract_items.
  assert (Hgo : forall pre w0,
             fst (bind (ret pre) (fun prefill => given <- is_truthy (PStr t); raise_if (negb given) (ValueError "Invalid template ID");; setitem (DocuPass.config self) "contract_generate" (PStr "");; setitem (DocuPass.config self) "contract_sign" (PStr t);; setitem (DocuPass.config self) "contract_format" f;; setitem (DocuPass.config self) "contract_prefill_data" prefill) w0) = Ok tt /\
             map (fun k =>
                    items_at (heap (snd (bind (ret pre)
                      (fun prefill =>
                         given <- is_truthy (PStr t);
                         raise_if (negb given) (ValueError "Invalid template ID");;
                         setitem (DocuPass.config self) "contract_generate" (PStr "");;
                         setitem (DocuPass.config self) "contract_sign" (PStr t);;
                         setitem (DocuPass.config self) "contract_format" f;;
                         setitem (DocuPass.config self) "contract_prefill_data" prefill)
                      w0))) (DocuPass.config self) !! k)
                 ["contract_generate"; "contract_sign"; "contract_format"]
             = [Some (PStr ""); Some (PStr t); Some f]).
  { intros pre w0.
    rewrite !bind_ret, !bind_is_truthy, (truthy_nonempty _ _ Ht). cbn [negb].
    rewrite bind_raise_if, !bind_setitem, run_setitem. cbn [fst snd map].
    lookup_stored. split; reflexivity. }
  destruct p; apply Hgo.
Qed.

(** X17.  [DocuPass.generate_contract] and [DocuPass.sign_contract] are
    two modes of one setting: each clears the other's template, so after
    both have been called with a template, in either order, only the
    second one is configured, together with its own output format. *)
Theorem docupass_contract_modes_exclude_each_other :
  forall self t f p t' f' p' w,
    t <> "" -> t' <> "" ->
    let generate := DocuPass.generate_contract self (PStr t) f p in
    let sign := DocuPass.sign_contract self (PStr t') f' p' in
    (fst ((generate;; sign) w) = Ok tt
     /\ contract_items (snd ((generate;; sign) w)) (DocuPass.config self)
        = [Some (PStr ""); Some (PStr t'); Some f'])
    /\ (fst ((sign;; generate) w) = Ok tt
        /\ contract_items (snd ((sign;; generate) w)) (DocuPass.config self)
           = [Some (PStr t); Some (PStr ""); Some f]).
Proof.
  intros self t f p t' f' p' w Ht Ht' generate sign. subst generate sign. split.
  - destruct (docu_generate_contract_items self t f p w Ht) as [Hok _].
    rewrite (bind_ok _ _ tt w Hok).
    apply docu_sign_contract_items, Ht'.
  - destruct (docu_sign_contract_items self t' f' p' w Ht') as [Hok _].
    rewrite (bind_ok _ _ tt w Hok).
    apply docu_generate_contract_items, Ht.
Qed.

Lemma docupass_contract_modes_exclude_each_other_witness :
  let generate := DocuPass.generate_contract docupass_us (PStr "A") (PStr "PDF") PNone in
  let sign := DocuPass.sign_contract docupass_us (PStr "B") (PStr "DOCX") PNone in
  ("A" <> "" /\ "B" <> "")
  /\ (fst ((generate;; sign) module_loaded) = Ok tt
      /\ contract_items (snd ((generate;; sign) module_loaded)) DocuPass.DEFAULT_CONFIG
         = [Some (PStr ""); Some (PStr "B"); Some (PStr "DOCX")])
  /\ (fst ((sign;; generate) module_loaded) = Ok tt
      /\ contract_items (snd ((sign;; generate) module_loaded)) DocuPass.DEFAULT_CONFIG
         = [Some (PStr "A"); Some (PStr ""); Some (PStr "PDF")]).
Proof.
  split; [split; discriminate|].
  apply (docupass_contract_modes_exclude_each_other
           docupass_us "A" (PStr "PDF") PNone "B" (PStr "DOCX") PNone module_loaded);
    discriminate.
Defined.

(** ** [DocuPass.create_signature] *)

Lemma docupass_create_signature_spec E self s f p w :
  s <> "" ->
  exists w0 pre,
    log w0 = log w
    /\ (p <> PNone -> w0 = w /\ pre = p)
    /\ let req := Request (DocuPass.apiendpoint self ++ "docupass/sign")
                    (<["contract_prefill_data" := pre]>
                       (<["contract_format" := f]>
                          (<["template_id" := PStr s]>
                             (<["apikey" := PStr (DocuPass.apikey self)]>
                                (items_at (heap w0) (DocuPass.config self)))))) in
       log (snd (DocuPass.create_signature E self (PStr s) f p w))
       = (log w ++ EvPost req :: after_post (server E req))%list
       /\ fst (DocuPass.create_signature E self (PStr s) f p w)
          = answer (DocuPass.throw_error self) (server E req)
       /\ items_at (heap (snd (DocuPass.create_signature E self (PStr s) f p w)))
                   (DocuPass.config self)
          = req_data req.
Proof.
  intros Hs. unfold DocuPass.create_signature.
  assert (Hgo : forall pre w0, log w0 = log w -> (p <> PNone -> w0 = w /\ pre = p) ->
     exists w0' pre',
       log w0' = log w
       /\ (p <> PNone -> w0' = w /\ pre' = p)
       /\ let req := Request (DocuPass.apiendpoint self ++ "docupass/sign")
                    (<["contract_prefill_data" := pre']>
                       (<["contract_format" := f]>
                          (<["template_id" := PStr s]>
                             (<["apikey" := PStr (DocuPass.apikey self)]>
                                (items_at (heap w0') (DocuPass.config self)))))) in
       log (snd (bind (ret pre) (fun prefill =>
              given <- is_truthy (PStr s);
              raise_if (negb given) (ValueError "Invalid template ID");;
              let payload := DocuPass.config self in
              setitem payload "apikey" (PStr (DocuPass.apikey self));;
              setitem payload "template_id" (PStr s);;
              setitem payload "contract_format" f;;
              setitem payload "contract_prefill_data" prefill;;
              r <- requests_post E (DocuPass.apiendpoint self ++ "docupass/sign") payload;
              raise_for_status r;;
              result <- response_json r;
              if negb (DocuPass.throw_error self)
              then ret result
              else
                err <- json_get result "error";
                if json_truthy err then raise (APIError err) else ret result) w0))
       = (log w ++ EvPost req :: after_post (server E req))%list
       /\ fst (bind (ret pre) (fun prefill =>
              given <- is_truthy (PStr s);
              raise_if (negb given) (ValueError "Invalid template ID");;
              let payload := DocuPass.config self in
              setitem payload "apikey" (PStr (DocuPass.apikey self));;
              setitem payload "template_id" (PStr s);;
              setitem payload "contract_format" f;;
              setitem payload "contract_prefill_data" prefill;;
              r <- requests_post E (DocuPass.apiendpoint self ++ "docupass/sign") payload;
              raise_for_status r;;
              result <- response_json r;
              if negb (DocuPass.throw_error self)
              then ret result
              else
                err <- json_get result "error";
                if json_truthy err then raise (APIError err) else ret result) w0)
          = answer (DocuPass.throw_error self) (server E req)
       /\ items_at (heap (snd (bind (ret pre) (fun prefill =>
              given <- is_truthy (PStr s);
              raise_if (negb given) (ValueError "Invalid template ID");;
              let payload := DocuPass.config self in
              setitem payload "apikey" (PStr (DocuPass.apikey self));;
              setitem payload "template_id" (PStr s);;
              setitem payload "contract_format" f;;
              setitem payload "contract_prefill_data" prefill;;
              r <- requests_post E (DocuPass.apiendpoint self ++ "docupass/sign") payload;
              raise_for_status r;;
              result <- response_json r;
              if negb (DocuPass.throw_error self)
              then ret result
              else
                err <- json_get result "error";
                if json_truthy err then raise (APIError err) else ret result) w0)))
                   (DocuPass.config self)
          = req_data req).
  { intros pre w0 Hlog Hp. exists w0, pre. split; [exact Hlog|]. split; [exact Hp|].
    rewrite bind_ret, bind_is_truthy, (truthy_nonempty _ _ Hs). cbn [negb].
    rewrite bind_raise_if. cbv zeta. rewrite !bind_setitem.
    match goal with |- context [ bind _ _ ?w2 ] =>
      destruct (tail_spec E (DocuPass.throw_error self)
                  (DocuPass.apiendpoint self ++ "docupass/sign") (DocuPass.config self) w2)
        as (Hl & Hres & Hheap)
    end.
    cbv zeta in Hl, Hres, Hheap.
    rewrite !items_at_stored in Hl, Hres.
    rewrite Hheap, !items_at_stored, Hl, Hres. rewrite !log_stored, Hlog. auto. }
  destruct p; try (apply Hgo; [reflexivity | intros _; split; reflexivity]).
  rewrite bind_assoc, bind_new_dict. apply Hgo; [reflexivity | intros H; contradiction].
Qed.

(** X18.  [DocuPass.create_signature] writes the template, the output
    format and the prefill data into the configuration dictionary for
    good: whatever the outcome of its request, a session created
    afterwards by any of the four creators sends that template and that
    format too. *)
Theorem create_signature_stays_in_configuration :
  forall E self s f p w,
    s <> "" ->
    let w1 := snd (DocuPass.create_signature E self (PStr s) f p w) in
    Forall
      (fun creator =>
         exists req,
           log (snd (fst creator E self w1))
           = (log w1 ++ EvPost req :: after_post (server E req))%list
           /\ req_url req = DocuPass.apiendpoint self ++ "docupass/create"
           /\ req_data req !! "type" = Some (PInt (snd creator))
           /\ req_data req !! "template_id" = Some (PStr s)
           /\ req_data req !! "contract_format" = Some f)
      session_creators.
Proof.
  intros E self s f p w Hs w1.
  destruct (docupass_create_signature_spec E self s f p w Hs)
    as (w0 & pre & _ & _ & Hspec).
  cbv zeta in Hspec. destruct Hspec as (_ & _ & Hitems).
  fold w1 in Hitems. cbn [req_data] in Hitems.
  assert (Hall : forall n, exists req,
             log (snd (DocuPass.create E self n w1))
             = (log w1 ++ EvPost req :: after_post (server E req))%list
             /\ req_url req = DocuPass.apiendpoint self ++ "docupass/create"
             /\ req_data req !! "type" = Some (PInt n)
             /\ req_data req !! "template_id" = Some (PStr s)
             /\ req_data req !! "contract_format" = Some f).
  { intros n. destruct (docupass_create_spec E self n w1) as (Hlog & _ & _).
    eexists. split; [exact Hlog|]. cbn [req_url req_data]. rewrite Hitems.
    split; [reflexivity|]. lookup_stored. auto. }
  unfold session_creators. repeat constructor; apply Hall.
Qed.

Lemma create_signature_stays_in_configuration_witness :
  "T1" <> ""
  /\ Forall
       (fun creator =>
          exists req,
            log (snd (fst creator demo_env docupass_us
                        (snd (DocuPass.create_signature demo_env docupass_us
                                (PStr "T1") (PStr "PDF") PNone module_loaded))))
            = (log (snd (DocuPass.create_signature demo_env docupass_us
                           (PStr "T1") (PStr "PDF") PNone module_loaded))
                 ++ EvPost req :: after_post (server demo_env req))%list
            /\ req_url req = DocuPass.apiendpoint docupass_us ++ "docupass/create"
            /\ req_data req !! "type" = Some (PInt (snd creator))
            /\ req_data req !! "template_id" = Some (PStr "T1")
            /\ req_data req !! "contract_format" = Some (PStr "PDF"))
       session_creators.
Proof.
  split; [discriminate|].
  apply (create_signature_stays_in_configuration demo_env docupass_us "T1" (PStr "PDF")
           PNone module_loaded).
  discriminate.
Defined.

(** ** Numeric bounds *)









(** ** What an action method writes *)

Lemma spares_frames {A} l k (c : M A) : frames c -> spares l k c.
Proof. intros Hc w Hl. rewrite Hc. auto. Qed.

Lemma spares_fresh {B} l key d (k : loc -> M B) :
  (forall p, p <> l -> spares l key (k p)) -> spares l key (bind (new_dict d) k).
Proof.
  intros Hk w Hl. rewrite bind_new_dict.
  pose proof (fresh_not_live _ _ Hl) as Hne.
  set (p := fresh (dom (heap w))) in *.
  destruct (Hk p Hne {| heap := <[p := d]> (heap w); log := log w |}) as [Hitem Hlive].
  { simpl. rewrite lookup_insert_ne by assumption. assumption. }
  split; [ | exact Hlive ].
  rewrite Hitem. simpl. rewrite items_at_insert_ne by assumption. reflexivity.
Qed.

(** Goes through an action method; the context says which locations
    differ from the one looked at. *)
Ltac spares_other_tac :=
  repeat
    match goal with
    | |- spares _ _ (bind (new_dict _) _) => apply spares_fresh; intros ? ?
    | |- spares _ _ (new_dict _) => apply spares_new_dict
    | |- spares _ _ (bind _ _) => apply spares_bind; [ | intros ? ]
    | |- spares _ _ (setitem _ _ _) => apply spares_setitem; left; congruence
    | |- spares _ _ (if ?b then _ else _) => destruct b
    | |- spares _ _ (match ?v with _ => _ end) => destruct v
    | |- spares _ _ _ => apply spares_frames; solve [ frames_tac ]
    end.

(** One statement of a method that does not allocate. *)
Ltac spares_step :=
  match goal with
  | |- spares _ _ (bind (new_dict _) _) => fail 1
  | |- spares _ _ (bind _ _) => apply spares_bind; [ solve [ spares_other_tac ] | intros ? ]
  end.

Lemma spares_bind_loc {B} l key (c : M loc) (k : loc -> M B) :
  spares l key c ->
  (forall w p, is_Some (heap w !! l) -> fst (c w) = Ok p -> p <> l) ->
  (forall p, p <> l -> spares l key (k p)) ->
  spares l key (bind c k).
Proof.
  intros Hc Hp Hk w Hl. destruct (Hc w Hl) as [Hitem Hlive].
  specialize (Hp w). unfold bind.
  destruct (c w) as [[p | e] w1]; simpl in *; [ | auto ].
  destruct (Hk p (Hp p Hl eq_refl) w1 Hlive) as [Hitem' Hlive'].
  rewrite Hitem'. auto.
Qed.

(** [if not payload: payload = {}] yields the payload given or a new
    dictionary. *)
Lemma payload_or_new_is_other l p w q :
  p <> l ->
  is_Some (heap w !! l) ->
  fst ((d <- read_dict p; if Nat.eqb (size d) 0 then new_dict ∅ else ret p) w) = Ok q ->
  q <> l.
Proof.
  intros Hp Hl. rewrite bind_read_dict.
  destruct (Nat.eqb (size (items_at (heap w) p)) 0); simpl; intros [= <-].
  - apply fresh_not_live, Hl.
  - exact Hp.
Qed.

Lemma spares_vault_api E self action l key p :
  p <> l -> spares l key (Vault.api E self action (Some p)).
Proof.
  intros Hp. unfold Vault.api.
  apply spares_bind_loc.
  - spares_other_tac.
  - intros w q. apply payload_or_new_is_other, Hp.
  - intros q Hq. spares_other_tac.
Qed.

Lemma spares_vault_api_none E self action l key :
  spares l key (Vault.api E self action None).
Proof. unfold Vault.api. spares_other_tac. Qed.

Lemma spares_aml_api E self l key p :
  p <> l -> spares l key (AMLAPI.api E self (Some p)).
Proof.
  intros Hp. unfold AMLAPI.api.
  apply spares_bind_loc.
  - spares_other_tac.
  - intros w q. apply payload_or_new_is_other, Hp.
  - intros q Hq. spares_other_tac.
Qed.

Lemma spares_action E a l key :
  written_dict a <> Some l -> spares l key (perform E a).
Proof.
  intros H.
  destruct a; simpl in H |- *;
    try (assert (Hne : CoreAPI.config self <> l) by congruence);
    try (assert (Hne : DocuPass.config self <> l) by congruence).
  - unfold CoreAPI.scan. cbv zeta. spares_other_tac.
  - unfold DocuPass.create_signature. cbv zeta. spares_other_tac.
  - unfold DocuPass.create_iframe, DocuPass.create. cbv zeta. spares_other_tac.
  - unfold DocuPass.create_mobile, DocuPass.create. cbv zeta. spares_other_tac.
  - unfold DocuPass.create_redirection, DocuPass.create. cbv zeta. spares_other_tac.
  - unfold DocuPass.create_live_mobile, DocuPass.create. cbv zeta. spares_other_tac.
  - unfold Vault.get.
    do 2 spares_step.
    apply spares_fresh; intros p Hp. apply spares_vault_api, Hp.
  - unfold Vault.list. apply spares_fresh; intros p Hp.
    repeat spares_step.
    apply spares_vault_api, Hp.
  - unfold Vault.update.
    do 2 spares_step.
    destruct data; try (apply spares_frames; solve [ frames_tac ]).
    assert (Hne : l0 <> l) by congruence.
    repeat spares_step.
    apply spares_vault_api, Hne.
  - unfold Vault.delete.
    do 2 spares_step.
    apply spares_fresh; intros p Hp. apply spares_vault_api, Hp.
  - unfold Vault.add_image.
    repeat spares_step.
    apply spares_fresh; intros p Hp.
    repeat spares_step.
    apply spares_vault_api, Hp.
  - unfold Vault.delete_image.
    repeat spares_step.
    apply spares_fresh; intros p Hp. apply spares_vault_api, Hp.
  - unfold Vault.search_face.
    apply spares_fresh; intros p Hp.
    repeat spares_step.
    apply spares_vault_api, Hp.
  - apply spares_vault_api_none.
  - apply spares_vault_api_none.
  - unfold AMLAPI.search_by_name.
    repeat spares_step.
    apply spares_fresh; intros p Hp. apply spares_aml_api, Hp.
  - unfold AMLAPI.search_by_id_number.
    repeat spares_step.
    apply spares_fresh; intros p Hp. apply spares_aml_api, Hp.
Qed.

(** X21.  An action method changes at most one of the dictionaries that
    exist when it is called: [scan] and the [DocuPass] actions the
    instance's configuration, [Vault.update] the caller's [data], and the
    other [Vault] methods and the [AMLAPI] searches none at all.  Every
    other dictionary has the same items after the call, whether it
    returned or raised. *)
Theorem action_methods_change_one_dictionary_at_most :
  forall E a w l,
    is_Some (heap w !! l) ->
    written_dict a <> Some l ->
    items_at (heap (snd (perform E a w))) l = items_at (heap w) l.
Proof.
  intros E a w l Hl H. apply map_eq. intros k.
  exact (proj1 (spares_action E a l k H w Hl)).
Qed.

Lemma action_methods_change_one_dictionary_at_most_witness :
  (is_Some (heap module_loaded !! CoreAPI.DEFAULT_CONFIG)
   /\ written_dict (Vault_train_face silent_vault) <> Some CoreAPI.DEFAULT_CONFIG)
  /\ items_at (heap (snd (perform demo_env (Vault_train_face silent_vault) module_loaded)))
              CoreAPI.DEFAULT_CONFIG
     = items_at (heap module_loaded) CoreAPI.DEFAULT_CONFIG.
Proof.
  assert (Hw : written_dict (Vault_train_face silent_vault) <> Some CoreAPI.DEFAULT_CONFIG)
    by discriminate.
  split; [ split; [ exact core_config_is_live | exact Hw ] | ].
  exact (action_methods_change_one_dictionary_at_most demo_env
           (Vault_train_face silent_vault) module_loaded CoreAPI.DEFAULT_CONFIG
           core_config_is_live Hw).
Defined.

(** ** [CoreAPI.scan] and the configuration *)

(** Goes through [scan]; [H] says that the key looked at is none of the
    keys [scan] writes. *)
Ltac keeps_other_tac H :=
  repeat
    match goal with
    | |- keeps _ _ (bind _ _) => apply keeps_bind; [ | intros ? ]
    | |- keeps _ _ (setitem _ _ _) =>
        apply keeps_setitem; intros Heq; apply H; rewrite Heq; simpl; auto 12
    | |- keeps _ _ (if ?b then _ else _) => destruct b
    | |- keeps _ _ _ => apply keeps_frames; solve [ frames_tac ]
    end.

Lemma scan_keeps E self options l k :
  ~ In k scan_keys -> keeps l k (CoreAPI.scan E self options).
Proof.
  intros H. unfold CoreAPI.scan. cbv zeta. keeps_other_tac H.
Qed.

(** X22.  [scan] writes ten keys of the configuration at most (the API
    key, the eight image fields and the passcode).  Every other item that
    a setter, [set_parameter] or the defaults put there is untouched by
    the call and is part of the request it sends. *)
Theorem scan_sends_the_rest_of_the_configuration :
  forall E self options w k,
    ~ In k scan_keys ->
    items_at (heap (snd (CoreAPI.scan E self options w))) (CoreAPI.config self) !! k
    = items_at (heap w) (CoreAPI.config self) !! k
    /\ forall req rest,
         posted (CoreAPI.scan E self options) w req rest ->
         req_data req !! k = items_at (heap w) (CoreAPI.config self) !! k.
Proof.
  intros E self options w k H.
  pose proof (scan_keeps E self options (CoreAPI.config self) k H w) as Hk.
  split; [ exact Hk | ].
  intros req rest Hpost.
  rewrite (scan_sends_config E self options w req rest Hpost). exact Hk.
Qed.

Lemma scan_sends_the_rest_of_the_configuration_witness :
  ~ In "accuracy" scan_keys
  /\ items_at (heap (snd (CoreAPI.scan demo_env core_us scan_url_options module_loaded)))
              (CoreAPI.config core_us) !! "accuracy"
     = items_at (heap module_loaded) (CoreAPI.config core_us) !! "accuracy"
  /\ forall req rest,
       posted (CoreAPI.scan demo_env core_us scan_url_options) module_loaded req rest ->
       req_data req !! "accuracy"
       = items_at (heap module_loaded) (CoreAPI.config core_us) !! "accuracy".
Proof.
  assert (H : ~ In "accuracy" scan_keys).
  { unfold scan_keys. simpl. intros Hin.
    repeat (destruct Hin as [Hin | Hin]; [ discriminate | ]). exact Hin. }
  split; [ exact H | ].
  exact (scan_sends_the_rest_of_the_configuration demo_env core_us scan_url_options
           module_loaded "accuracy" H).
Defined.

(** ** [CoreAPI.scan]: what stops a call *)

Lemma log_resolved E w l url_field file_field v :
  log (resolved E w l url_field file_field v) = log w.
Proof.
  unfold resolved. destruct v; try reflexivity.
  destruct (String.eqb s ""); [ reflexivity | ].
  destruct (classify E s); reflexivity.
Qed.

(** X23.  [scan] without a primary document (the option absent, [None]
    or empty) raises [ValueError] and sends nothing, but it has already
    written the instance's API key into the configuration dictionary, and
    that is the only change it leaves. *)
Theorem scan_without_primary_document :
  forall E self options w,
    kwarg options "document_primary" = PNone
    \/ kwarg options "document_primary" = PStr "" ->
    CoreAPI.scan E self options w
    = (Raise (ValueError "Primary document image required."),
       stored w (CoreAPI.config self) "apikey" (PStr (CoreAPI.apikey self))).
Proof.
  intros E self options w H. unfold CoreAPI.scan. cbv zeta.
  rewrite bind_setitem, bind_is_truthy.
  destruct H as [-> | ->]; reflexivity.
Qed.

Lemma scan_without_primary_document_witness :
  (kwarg ∅ "document_primary" = PNone \/ kwarg ∅ "document_primary" = PStr "")
  /\ CoreAPI.scan demo_env core_us ∅ module_loaded
     = (Raise (ValueError "Primary document image required."),
        stored module_loaded (CoreAPI.config core_us) "apikey" (PStr (CoreAPI.apikey core_us))).
Proof.
  assert (H : kwarg ∅ "document_primary" = PNone \/ kwarg ∅ "document_primary" = PStr "")
    by (left; reflexivity).
  split; [ exact H | ].
  exact (scan_without_primary_document demo_env core_us ∅ module_loaded H).
Defined.

(** X24.  When a biometric video is given to [scan] and the other
    images are in order, the passcode decides: with the passcode absent,
    empty or anything but four digits the call raises [ValueError] and
    sends nothing; with a passcode of four digits the call sends its
    request, and the passcode is part of it. *)
Theorem scan_video_needs_a_passcode :
  forall E self options w s,
    resolves E (kwarg options "document_primary") ->
    passes E (kwarg options "document_secondary") ->
    passes E (kwarg options "biometric_photo") ->
    kwarg options "biometric_video" = PStr s ->
    s <> "" ->
    classify E s <> IsInvalid ->
    let code := kwarg options "biometric_video_passcode" in
    (code = PNone \/ (exists p, code = PStr p /\ passcode_shape p = false) ->
     fst (CoreAPI.scan E self options w)
     = Raise (ValueError
                "Please provide a 4 digit passcode for video biometric verification.")
     /\ log (snd (CoreAPI.scan E self options w)) = log w)
    /\ (forall p, code = PStr p -> passcode_shape p = true ->
        exists req,
          log (snd (CoreAPI.scan E self options w))
          = (log w ++ EvPost req :: after_post (server E req))%list
          /\ req_url req = CoreAPI.apiendpoint self
          /\ req_data req !! "passcode" = Some (PStr p)).
Proof.
  intros E self options w s H1 H2 H3 Hk Hs Hvalid code. subst code.
  unfold CoreAPI.scan. cbv zeta.
  rewrite bind_setitem, (bind_primary_resolves _ _ _ _ _ _ _ _ _ H1). cbv beta.
  rewrite (bind_optional_passes _ _ _ _ _ _ _ _ H2). cbv beta.
  rewrite (bind_optional_passes _ _ _ _ _ _ _ _ H3). cbv beta.
  rewrite Hk, bind_is_truthy, (truthy_nonempty _ _ Hs). cbv iota.
  rewrite bind_assoc, bind_as_str, bind_assoc, bind_resolve. cbv beta.
  match goal with
  | |- context [ stored ?w3 _ "videourl" _ ] => set (w0 := w3)
  end.
  assert (Hlog0 : log w0 = log w).
  { unfold w0. rewrite !log_resolved. apply log_stored. }
  clearbody w0.
  assert (Hgo : forall w4, log w4 = log w ->
    (kwarg options "biometric_video_passcode" = PNone
     \/ (exists p, kwarg options "biometric_video_passcode" = PStr p
                   /\ passcode_shape p = false) ->
     fst (bind
            (passcode <- is_truthy (kwarg options "biometric_video_passcode");
             if negb passcode
             then raise (ValueError
                    "Please provide a 4 digit passcode for video biometric verification.")
             else
               p <- as_str (kwarg options "biometric_video_passcode");
               if negb (Re.search passcode_pattern p)
               then raise (ValueError
                      "Please provide a 4 digit passcode for video biometric verification.")
               else setitem (CoreAPI.config self) "passcode"
                            (kwarg options "biometric_video_passcode"))
            (fun _ =>
               r <- requests_post E (CoreAPI.apiendpoint self) (CoreAPI.config self);
               raise_for_status r;;
               result <- response_json r;
               if negb (CoreAPI.throw_error self)
               then ret result
               else
                 err <- json_get result "error";
                 if json_truthy err then raise (APIError err) else ret result) w4)
     = Raise (ValueError
                "Please provide a 4 digit passcode for video biometric verification.")
     /\ log (snd (bind
            (passcode <- is_truthy (kwarg options "biometric_video_passcode");
             if negb passcode
             then raise (ValueError
                    "Please provide a 4 digit passcode for video biometric verification.")
             else
               p <- as_str (kwarg options "biometric_video_passcode");
               if negb (Re.search passcode_pattern p)
               then raise (ValueError
                      "Please provide a 4 digit passcode for video biometric verification.")
               else setitem (CoreAPI.config self) "passcode"
                            (kwarg options "biometric_video_passcode"))
            (fun _ =>
               r <- requests_post E (CoreAPI.apiendpoint self) (CoreAPI.config self);
               raise_for_status r;;
               result <- response_json r;
               if negb (CoreAPI.throw_error self)
               then ret result
               else
                 err <- json_get result "error";
                 if json_truthy err then raise (APIError err) else ret result) w4))
        = log w)
    /\ (forall p, kwarg options "biometric_video_passcode" = PStr p ->
        passcode_shape p = true ->
        exists req,
          log (snd (bind
            (passcode <- is_truthy (kwarg options "biometric_video_passcode");
             if negb passcode
             then raise (ValueError
                    "Please provide a 4 digit passcode for video biometric verification.")
             else
               p <- as_str (kwarg options "biometric_video_passcode");
               if negb (Re.search passcode_pattern p)
               then raise (ValueError
                      "Please provide a 4 digit passcode for video biometric verification.")
               else setitem (CoreAPI.config self) "passcode"
                            (kwarg options "biometric_video_passcode"))
            (fun _ =>
               r <- requests_post E (CoreAPI.apiendpoint self) (CoreAPI.config self);
               raise_for_status r;;
               result <- response_json r;
               if negb (CoreAPI.throw_error self)
               then ret result
               else
                 err <- json_get result "error";
                 if json_truthy err then raise (APIError err) else ret result) w4))
          = (log w ++ EvPost req :: after_post (server E req))%list
          /\ req_url req = CoreAPI.apiendpoint self
          /\ req_data req !! "passcode" = Some (PStr p))).
  { intros w4 Hlog4. split.
    - intros [Hc | (p & Hc & Hshape)]; rewrite Hc, bind_assoc, bind_is_truthy.
      + simpl. auto.
      + destruct (String.eqb p "") eqn:Hp; simpl truthy; rewrite Hp; cbn [negb].
        * simpl. auto.
        * rewrite bind_assoc, bind_as_str, passcode_search_is_shape, Hshape. cbn [negb].
          simpl. auto.
    - intros p Hc Hshape. rewrite Hc, bind_assoc, bind_is_truthy.
      assert (Hp : String.eqb p "" = false).
      { destruct (String.eqb p "") eqn:Hp; [ | reflexivity ].
        apply String.eqb_eq in Hp. subst p. discriminate Hshape. }
      simpl truthy. rewrite Hp. cbn [negb].
      rewrite bind_assoc, bind_as_str, passcode_search_is_shape, Hshape. cbn [negb].
      rewrite bind_setitem.
      match goal with |- context [ bind _ _ ?w5 ] =>
        destruct (tail_spec E (CoreAPI.throw_error self) (CoreAPI.apiendpoint self)
                    (CoreAPI.config self) w5) as (Hl & _ & _)
      end.
      cbv zeta in Hl. rewrite log_stored, Hlog4 in Hl.
      eexists. split; [ exact Hl | ]. cbn [req_url req_data].
      split; [ reflexivity | ]. rewrite items_at_stored. apply lookup_insert_eq. }
  destruct (classify E s) as [ | content | | ]; [ | | | contradiction ];
    apply Hgo; rewrite log_stored; exact Hlog0.
Qed.

Lemma scan_video_needs_a_passcode_witness :
  (resolves demo_env (kwarg scan_video_options "document_primary")
   /\ passes demo_env (kwarg scan_video_options "document_secondary")
   /\ passes demo_env (kwarg scan_video_options "biometric_photo")
   /\ kwarg scan_video_options "biometric_video" = PStr "sampleid.jpg"
   /\ "sampleid.jpg" <> ""
   /\ classify demo_env "sampleid.jpg" <> IsInvalid)
  /\ (let code := kwarg scan_video_options "biometric_video_passcode" in
      (code = PNone \/ (exists p, code = PStr p /\ passcode_shape p = false) ->
       fst (CoreAPI.scan demo_env core_us scan_video_options module_loaded)
       = Raise (ValueError
                  "Please provide a 4 digit passcode for video biometric verification.")
       /\ log (snd (CoreAPI.scan demo_env core_us scan_video_options module_loaded))
          = log module_loaded)
      /\ (forall p, code = PStr p -> passcode_shape p = true ->
          exists req,
            log (snd (CoreAPI.scan demo_env core_us scan_video_options module_loaded))
            = (log module_loaded ++ EvPost req :: after_post (server demo_env req))%list
            /\ req_url req = CoreAPI.apiendpoint core_us
            /\ req_data req !! "passcode" = Some (PStr p))).
Proof.
  assert (H1 : resolves demo_env (kwarg scan_video_options "document_primary"))
    by (vm_compute; split; discriminate).
  assert (H2 : passes demo_env (kwarg scan_video_options "document_secondary"))
    by (vm_compute; exact I).
  assert (H3 : passes demo_env (kwarg scan_video_options "biometric_photo"))
    by (vm_compute; exact I).
  assert (H4 : kwarg scan_video_options "biometric_video" = PStr "sampleid.jpg")
    by (vm_compute; reflexivity).
  assert (H5 : "sampleid.jpg" <> "") by discriminate.
  assert (H6 : classify demo_env "sampleid.jpg" <> IsInvalid)
    by (vm_compute; discriminate).
  split; [ exact (conj H1 (conj H2 (conj H3 (conj H4 (conj H5 H6))))) | ].
  exact (scan_video_needs_a_passcode demo_env core_us scan_video_options module_loaded
           "sampleid.jpg" H1 H2 H3 H4 H5 H6).
Defined.

(** ** [Vault]: requests about one entry, and training *)

Lemma vault_api_on_new_dict E self action d w :
  Nat.eqb (size d) 0 = false ->
  let sent := <["client" := PStr client_library]>
                (<["apikey" := PStr (Vault.apikey self)]> d) in
  let req := Request (Vault.apiendpoint self ++ "vault/" ++ action) sent in
  let call := (payload <- new_dict d; Vault.api E self action (Some payload)) in
  log (snd (call w)) = (log w ++ EvPost req :: after_post (server E req))%list
  /\ fst (call w) = answer (Vault.throw_error self) (server E req).
Proof.
  intros Hsize sent req call. subst call. rewrite bind_new_dict.
  match goal with |- context [ Vault.api E self action (Some ?p) ?w1 ] =>
    destruct (vault_api_in_place E self action p w1) as (_ & Hlog & Hres);
      [ cbn [heap]; rewrite items_at_insert_eq; exact Hsize | ]
  end.
  cbn [heap log] in Hlog, Hres. rewrite items_at_insert_eq in Hlog, Hres.
  split; assumption.
Qed.

Lemma vault_api_none E self action w :
  let req := Request (Vault.apiendpoint self ++ "vault/" ++ action)
               (<["client" := PStr client_library]>
                  (<["apikey" := PStr (Vault.apikey self)]> ∅)) in
  log (snd (Vault.api E self action None w))
  = (log w ++ EvPost req :: after_post (server E req))%list
  /\ fst (Vault.api E self action None w) = answer (Vault.throw_error self) (server E req).
Proof.
  intros req. unfold Vault.api. rewrite bind_new_dict, !bind_setitem.
  match goal with |- context [ bind _ _ ?w2 ] =>
    match goal with |- context [ requests_post E ?url ?p ] =>
      destruct (tail_spec E (Vault.throw_error self) url p w2) as (Hlog & Hres & _)
    end
  end.
  cbv zeta in Hlog, Hres. rewrite !items_at_stored in Hlog, Hres.
  cbn [heap log] in Hlog, Hres. rewrite items_at_insert_eq in Hlog, Hres.
  rewrite !log_stored in Hlog. split; assumption.
Qed.

(** X25.  [Vault.get], [Vault.delete] and [Vault.delete_image] need
    their identifiers: a falsy entry ID (or, for [delete_image], a falsy
    image ID) raises [ValueError] and nothing is sent or changed.
    Otherwise each sends one request, to [vault/get], [vault/delete] or
    [vault/deleteimage], that carries the identifiers, the API key and
    the client tag and nothing else, and the answer is treated as every
    action method treats it. *)
Theorem vault_entry_requests :
  forall E self vault_id image_id w,
    Forall
      (fun method =>
         (truthy (heap w) vault_id = false ->
          fst method E self vault_id w
          = (Raise (ValueError "Vault entry ID required."), w))
         /\ (truthy (heap w) vault_id = true ->
             let req := Request (Vault.apiendpoint self ++ "vault/" ++ snd method)
                          (<["client" := PStr client_library]>
                             (<["apikey" := PStr (Vault.apikey self)]>
                                {["id" := vault_id]})) in
             log (snd (fst method E self vault_id w))
             = (log w ++ EvPost req :: after_post (server E req))%list
             /\ fst (fst method E self vault_id w)
                = answer (Vault.throw_error self) (server E req)))
      [(Vault.get, "get"); (Vault.delete, "delete")]
    /\ (truthy (heap w) vault_id = false ->
        Vault.delete_image E self vault_id image_id w
        = (Raise (ValueError "Vault entry ID required."), w))
    /\ (truthy (heap w) vault_id = true -> truthy (heap w) image_id = false ->
        Vault.delete_image E self vault_id image_id w
        = (Raise (ValueError "Image ID required."), w))
    /\ (truthy (heap w) vault_id = true -> truthy (heap w) image_id = true ->
        let req := Request (Vault.apiendpoint self ++ "vault/deleteimage")
                     (<["client" := PStr client_library]>
                        (<["apikey" := PStr (Vault.apikey self)]>
                           (list_to_map [("id", vault_id); ("imageid", image_id)]))) in
        log (snd (Vault.delete_image E self vault_id image_id w))
        = (log w ++ EvPost req :: after_post (server E req))%list
        /\ fst (Vault.delete_image E self vault_id image_id w)
           = answer (Vault.throw_error self) (server E req)).
Proof.
  intros E self vault_id image_id w.
  split; [ | split; [ | split ] ].
  - constructor; [ split | constructor; [ split | constructor ] ]; cbn [fst snd].
    + intros H. unfold Vault.get. rewrite bind_is_truthy, H. reflexivity.
    + intros H. unfold Vault.get. rewrite bind_is_truthy, H. cbn [negb].
      rewrite bind_raise_if.
      apply (vault_api_on_new_dict E self "get" {["id" := vault_id]} w).
      rewrite map_size_singleton. reflexivity.
    + intros H. unfold Vault.delete. rewrite bind_is_truthy, H. reflexivity.
    + intros H. unfold Vault.delete. rewrite bind_is_truthy, H. cbn [negb].
      rewrite bind_raise_if.
      apply (vault_api_on_new_dict E self "delete" {["id" := vault_id]} w).
      rewrite map_size_singleton. reflexivity.
  - intros H. unfold Vault.delete_image. rewrite bind_is_truthy, H. reflexivity.
  - intros H1 H2. unfold Vault.delete_image.
    rewrite bind_is_truthy, H1. cbn [negb].
    rewrite bind_raise_if, bind_is_truthy, H2. reflexivity.
  - intros H1 H2. unfold Vault.delete_image.
    rewrite bind_is_truthy, H1. cbn [negb].
    rewrite bind_raise_if, bind_is_truthy, H2. cbn [negb].
    rewrite bind_raise_if.
    apply (vault_api_on_new_dict E self "deleteimage"
             (list_to_map [("id", vault_id); ("imageid", image_id)]) w).
    apply (size_insert_nonzero _ "id" vault_id).
Qed.

(** X26.  [Vault.train_face] and [Vault.training_status] check nothing:
    each sends one request, to [vault/train] or [vault/trainstatus], whose
    payload is the API key and the client tag only, and treats the answer
    as every action method does. *)
Theorem vault_training_requests :
  forall E self w,
    Forall
      (fun method =>
         let req := Request (Vault.apiendpoint self ++ "vault/" ++ snd method)
                      (<["client" := PStr client_library]>
                         (<["apikey" := PStr (Vault.apikey self)]> ∅)) in
         log (snd (fst method E self w))
         = (log w ++ EvPost req :: after_post (server E req))%list
         /\ fst (fst method E self w) = answer (Vault.throw_error self) (server E req))
      [(Vault.train_face, "train"); (Vault.training_status, "trainstatus")].
Proof.
  intros E self w. repeat constructor; cbn [fst snd]; apply vault_api_none.
Qed.

(** ** [AMLAPI] *)

Lemma aml_api_on_new_dict E self d w :
  Nat.eqb (size d) 0 = false ->
  let sent := <["client" := PStr client_library]>
                (<["apikey" := PStr (AMLAPI.apikey self)]>
                   (<["entity" := AMLAPI.AMLEntityType self]>
                      (<["database" := AMLAPI.AMLDatabases self]> d))) in
  let req := Request (AMLAPI.apiendpoint self) sent in
  let call := (payload <- new_dict d; AMLAPI.api E self (Some payload)) in
  log (snd (call w)) = (log w ++ EvPost req :: after_post (server E req))%list
  /\ fst (call w) = answer (AMLAPI.throw_error self) (server E req).
Proof.
  intros Hsize sent req call. subst call. rewrite bind_new_dict.
  unfold AMLAPI.api. rewrite bind_assoc, bind_read_dict. cbn [heap].
  rewrite items_at_insert_eq, Hsize, bind_ret, !bind_setitem.
  match goal with |- context [ bind _ _ ?w2 ] =>
    match goal with |- context [ requests_post E ?url ?p ] =>
      destruct (tail_spec E (AMLAPI.throw_error self) url p w2) as (Hlog & Hres & _)
    end
  end.
  cbv zeta in Hlog, Hres. rewrite !items_at_stored in Hlog, Hres.
  cbn [heap log] in Hlog, Hres. rewrite items_at_insert_eq in Hlog, Hres.
  rewrite !log_stored in Hlog. split; assumption.
Qed.


(** X28.  What [set_aml_database] and [set_entity_type] accepted is what
    a search sends: the entity type is ["person"], ["legalentity"] or
    empty, anything else having been refused with [ValueError], and the
    database list is passed on as given. *)
Theorem aml_filters_reach_the_search :
  forall E self databases entity configured s country dob w,
    fst (AMLAPI.set_entity_type (AMLAPI.set_aml_database self databases) entity w)
    = Ok configured ->
    (3 <= String.length s)%nat ->
    (entity = PStr "person" \/ entity = PStr "legalentity" \/ entity = PStr "")
    /\ exists req,
         log (snd (AMLAPI.search_by_name E configured (PStr s) country dob w))
         = (log w ++ EvPost req :: after_post (server E req))%list
         /\ req_url req = AMLAPI.apiendpoint self
         /\ req_data req !! "database" = Some databases
         /\ req_data req !! "entity" = Some entity
         /\ req_data req !! "apikey" = Some (PStr (AMLAPI.apikey self)).
Proof.
  intros E self databases entity configured s country dob w Hset Hlen.
  unfold AMLAPI.set_entity_type in Hset.
  destruct (negb (eq_str entity "person") && negb (eq_str entity "legalentity")
            && negb (eq_str entity "")) eqn:Hcheck;
    [ discriminate Hset | ].
  rewrite bind_raise_if in Hset. injection Hset as <-.
  split.
  - destruct entity; simpl in Hcheck; try discriminate Hcheck.
    destruct (String.eqb s0 "person") eqn:H1;
      [ apply String.eqb_eq in H1; subst; auto | ].
    destruct (String.eqb s0 "legalentity") eqn:H2;
      [ apply String.eqb_eq in H2; subst; auto | ].
    destruct (String.eqb s0 "") eqn:H3;
      [ apply String.eqb_eq in H3; subst; auto | ].
    discriminate Hcheck.
  - unfold AMLAPI.search_by_name. cbn [len]. rewrite bind_ret.
    apply Nat.ltb_ge in Hlen. rewrite Hlen, bind_raise_if.
    match goal with |- context [ new_dict ?d ] =>
      match goal with |- context [ AMLAPI.api E ?self' ] =>
        destruct (aml_api_on_new_dict E self' d w) as (Hlog & _);
          [ apply (size_insert_nonzero _ "name" (PStr s)) | ]
      end
    end.
    cbv zeta in Hlog. eexists. split; [ exact Hlog | ].
    cbn [req_url req_data AMLAPI.apiendpoint AMLAPI.AMLDatabases AMLAPI.AMLEntityType
         AMLAPI.apikey AMLAPI.set_aml_database].
    split; [ reflexivity | ].
    repeat (rewrite ?lookup_insert_eq; rewrite ?lookup_insert_ne by discriminate).
    auto.
Qed.

Lemma aml_filters_reach_the_search_witness :
  let self := {| AMLAPI.apikey := "key"; AMLAPI.throw_error := false;
                 AMLAPI.AMLDatabases := PStr ""; AMLAPI.AMLEntityType := PStr "";
                 AMLAPI.apiendpoint := "https://api.idanalyzer.com/aml" |} in
  let configured := {| AMLAPI.apikey := "key"; AMLAPI.throw_error := false;
                       AMLAPI.AMLDatabases := PStr "un_sc,us_ofac";
                       AMLAPI.AMLEntityType := PStr "person";
                       AMLAPI.apiendpoint := "https://api.idanalyzer.com/aml" |} in
  (fst (AMLAPI.set_entity_type (AMLAPI.set_aml_database self (PStr "un_sc,us_ofac"))
          (PStr "person") module_loaded) = Ok configured
   /\ (3 <= String.length "Joe")%nat)
  /\ (PStr "person" = PStr "person" \/ PStr "person" = PStr "legalentity"
      \/ PStr "person" = PStr "")
  /\ exists req,
       log (snd (AMLAPI.search_by_name demo_env configured (PStr "Joe") (PStr "US") (PStr "")
                   module_loaded))
       = (log module_loaded ++ EvPost req :: after_post (server demo_env req))%list
       /\ req_url req = AMLAPI.apiendpoint self
       /\ req_data req !! "database" = Some (PStr "un_sc,us_ofac")
       /\ req_data req !! "entity" = Some (PStr "person")
       /\ req_data req !! "apikey" = Some (PStr (AMLAPI.apikey self)).
Proof.
  intros self configured.
  assert (H1 : fst (AMLAPI.set_entity_type
                      (AMLAPI.set_aml_database self (PStr "un_sc,us_ofac"))
                      (PStr "person") module_loaded) = Ok configured) by reflexivity.
  assert (H2 : (3 <= String.length "Joe")%nat) by (simpl; lia).
  split; [ split; assumption | ].
  exact (aml_filters_reach_the_search demo_env self (PStr "un_sc,us_ofac") (PStr "person")
           configured "Joe" (PStr "US") (PStr "") module_loaded H1 H2).
Defined.

(** ** Instances of [CoreAPI] share their settings *)

(** A scan of images that are in order, without a video, sends its
    request. *)
Lemma scan_posts E self options w :
  resolves E (kwarg options "document_primary") ->
  passes E (kwarg options "document_secondary") ->
  passes E (kwarg options "biometric_photo") ->
  kwarg options "biometric_video" = PNone \/ kwarg options "biometric_video" = PStr "" ->
  exists req rest, posted (CoreAPI.scan E self options) w req rest
                   /\ rest = after_post (server E req)
                   /\ req_url req = CoreAPI.apiendpoint self.
Proof.
  intros H1 H2 H3 H4. unfold posted, CoreAPI.scan. cbv zeta.
  rewrite bind_setitem, (bind_primary_resolves _ _ _ _ _ _ _ _ _ H1). cbv beta.
  rewrite (bind_optional_passes _ _ _ _ _ _ _ _ H2). cbv beta.
  rewrite (bind_optional_passes _ _ _ _ _ _ _ _ H3). cbv beta.
  rewrite bind_is_truthy.
  assert (Hv : forall h, truthy h (kwarg options "biometric_video") = false)
    by (intros h; destruct H4 as [-> | ->]; reflexivity).
  rewrite Hv, bind_ret.
  match goal with |- context [ bind _ _ ?w5 ] =>
    destruct (tail_spec E (CoreAPI.throw_error self) (CoreAPI.apiendpoint self)
                (CoreAPI.config self) w5) as (Hl & _ & _)
  end.
  cbv zeta in Hl. rewrite !log_resolved, log_stored in Hl.
  eexists. eexists. split; [ exact Hl | ]. split; reflexivity.
Qed.

(** X29.  Every [CoreAPI] instance configures the one class-level
    dictionary, so a setting made through one instance is sent by the
    scans of every other: after [first.set_parameter(key, value)], the
    request that [second.scan] sends for images that are in order carries
    [value] under [key] (for any key other than the ten that [scan]
    writes itself), next to the API key of [second]. *)
Theorem core_instances_share_settings :
  forall E apikey1 region1 apikey2 region2 first second key value options w,
    fst (CoreAPI.init apikey1 region1 w) = Ok first ->
    fst (CoreAPI.init apikey2 region2 w) = Ok second ->
    ~ In key scan_keys ->
    resolves E (kwarg options "document_primary") ->
    passes E (kwarg options "document_secondary") ->
    passes E (kwarg options "biometric_photo") ->
    kwarg options "biometric_video" = PNone \/ kwarg options "biometric_video" = PStr "" ->
    let w1 := snd (CoreAPI.set_parameter first key value w) in
    exists req,
      log (snd (CoreAPI.scan E second options w1))
      = (log w1 ++ EvPost req :: after_post (server E req))%list
      /\ req_url req = CoreAPI.apiendpoint second
      /\ req_data req !! key = Some value
      /\ req_data req !! "apikey" = Some (PStr apikey2).
Proof.
  intros E apikey1 region1 apikey2 region2 first second key value options w
         Hfirst Hsecond Hkey H1 H2 H3 H4 w1.
  destruct (core_init_ok _ _ _ _ Hfirst) as (Hc1 & _ & _).
  destruct (core_init_ok _ _ _ _ Hsecond) as (Hc2 & Hk2 & _).
  destruct (scan_posts E second options w1 H1 H2 H3 H4) as (req & rest & Hposted & -> & Hurl).
  exists req. split; [ exact Hposted | ]. split; [ exact Hurl | ].
  rewrite (scan_sends_config E second options _ req _ Hposted). split.
  - rewrite (scan_keeps E second options (CoreAPI.config second) key Hkey).
    unfold w1, CoreAPI.set_parameter. rewrite run_setitem. cbn [snd].
    rewrite Hc1, Hc2, items_at_stored. apply lookup_insert_eq.
  - rewrite scan_writes_apikey, Hk2. reflexivity.
Qed.

Lemma core_instances_share_settings_witness :
  (fst (CoreAPI.init "key" "US" module_loaded) = Ok core_us
   /\ fst (CoreAPI.init "other" "EU" module_loaded) = Ok core_eu
   /\ ~ In "accuracy" scan_keys
   /\ resolves demo_env (kwarg scan_file_options "document_primary")
   /\ passes demo_env (kwarg scan_file_options "document_secondary")
   /\ passes demo_env (kwarg scan_file_options "biometric_photo")
   /\ (kwarg scan_file_options "biometric_video" = PNone
       \/ kwarg scan_file_options "biometric_video" = PStr ""))
  /\ exists req,
       log (snd (CoreAPI.scan demo_env core_eu scan_file_options
                   (snd (CoreAPI.set_parameter core_us "accuracy" (PInt 2) module_loaded))))
       = (log (snd (CoreAPI.set_parameter core_us "accuracy" (PInt 2) module_loaded))
            ++ EvPost req :: after_post (server demo_env req))%list
       /\ req_url req = CoreAPI.apiendpoint core_eu
       /\ req_data req !! "accuracy" = Some (PInt 2)
       /\ req_data req !! "apikey" = Some (PStr "other").
Proof.
  assert (Hfirst : fst (CoreAPI.init "key" "US" module_loaded) = Ok core_us)
    by reflexivity.
  assert (Hsecond : fst (CoreAPI.init "other" "EU" module_loaded) = Ok core_eu)
    by reflexivity.
  assert (Hkey : ~ In "accuracy" scan_keys).
  { unfold scan_keys. simpl. intros Hin.
    repeat (destruct Hin as [Hin | Hin]; [ discriminate | ]). exact Hin. }
  assert (H1 : resolves demo_env (kwarg scan_file_options "document_primary"))
    by (vm_compute; split; discriminate).
  assert (H2 : passes demo_env (kwarg scan_file_options "document_secondary"))
    by (vm_compute; exact I).
  assert (H3 : passes demo_env (kwarg scan_file_options "biometric_photo"))
    by (vm_compute; exact I).
  assert (H4 : kwarg scan_file_options "biometric_video" = PNone
               \/ kwarg scan_file_options "biometric_video" = PStr "")
    by (left; vm_compute; reflexivity).
  split; [ exact (conj Hfirst (conj Hsecond (conj Hkey (conj H1 (conj H2 (conj H3 H4)))))) | ].
  exact (core_instances_share_settings demo_env "key" "US" "other" "EU" core_us core_eu
           "accuracy" (PInt 2) scan_file_options module_loaded
           Hfirst Hsecond Hkey H1 H2 H3 H4).
Defined.

(** ** The age range of [verify_age] *)

(** A repetition of the digit class followed by something that no digit
    can start takes all the digits there are. *)
Lemma rep_digits_takes_all (k : option ascii -> list ascii -> bool) :
  (forall p x l, is_digit x = true -> k p (x :: l) = false) ->
  (forall p p' l, k p l = k p' l) ->
  forall s lo hi prev,
    (List.length s < hi)%nat ->
    Re.rep (Re.matches (Re.Class "" [("0", "9")]%char)) lo hi prev s k
    = (lo <=? leading_digits s)%nat && k None (after_digits s).
Proof.
  intros Hdigit Hprev. induction s as [ | x s IH ]; intros lo hi prev Hhi.
  - destruct hi as [ | hi ]; [ simpl in Hhi; lia | ].
    simpl. destruct lo; simpl; [ apply Hprev | reflexivity ].
  - destruct hi as [ | hi ]; [ simpl in Hhi; lia | ].
    simpl in Hhi. cbn [Re.rep Re.matches leading_digits after_digits].
    fold (is_digit x). destruct (is_digit x) eqn:Hx.
    + rewrite IH by lia.
      replace (match lo with 0%nat => k prev (x :: s) | S _ => false end) with false
        by (destruct lo; [ symmetry; apply Hdigit, Hx | reflexivity ]).
      rewrite orb_false_r. f_equal.
      destruct lo; reflexivity.
    + destruct lo; simpl; [ apply Hprev | reflexivity ].
Qed.

(** X30.  The age pattern of [verify_age] accepts exactly the strings
    made of one or more digits, a hyphen and one or more digits (one
    newline may follow); the two numbers are not compared, so a range
    like [99-1] passes. *)
Theorem age_pattern_accepts_exactly :
  forall s, Re.search age_pattern s = age_shape s.
Proof.
  intros s.
  unfold age_pattern, age_shape, Re.digit. rewrite search_anchored.
  cbn [Re.matches].
  rewrite rep_digits_takes_all; [ | | reflexivity | lia ].
  - f_equal. destruct (after_digits (list_ascii_of_string s)) as [ | x r ]; [ reflexivity | ].
    destruct (Ascii.eqb x "-"); [ | reflexivity ].
    rewrite rep_digits_takes_all; [ | | reflexivity | lia ].
    + cbn [andb]. f_equal. unfold at_end.
      destruct (after_digits r) as [ | y [ | z t ] ]; try reflexivity.
      destruct (Ascii.eqb y Re.newline); reflexivity.
    + intros p y l Hy. destruct l; [ | reflexivity ].
      destruct (Ascii.eqb y Re.newline) eqn:Hn; [ | reflexivity ].
      apply Ascii.eqb_eq in Hn. subst y. discriminate Hy.
  - intros p y l Hy.
    destruct (Ascii.eqb y "-") eqn:Hn; [ | reflexivity ].
    apply Ascii.eqb_eq in Hn. subst y. discriminate Hy.
Qed.
